(** * auto-report: the report generator of [rpt.py]

    A shallow embedding of [ReportGenerator] (pandas table in, Word document
    out) and the properties of its file naming, markdown loading, budget
    analysis, chart rendering and orchestration.

    Conventions of the embedding.
    - Python [str] is [string]; a character is a code point below 256.
    - A numeric cell is an IEEE binary64 value ([float], pandas' float64),
      with the arithmetic, infinities and NaN of the hardware; a column of
      integers (int64) behaves the same as long as its amounts and their
      sums stay below 2^53.
    - The table has the columns the program names, in the order Task,
      Budgeted, Remaining, Utilization%; a sheet with other columns, or with
      these in another order, is outside the embedding.
    - The text python-docx is given goes to lxml, which refuses control
      characters: [Docx] says which texts are taken and what is left in the
      document by a call that is refused.
    - The outside world (clock, file system, Excel reader, chart and document
      backends) is an environment [Env] of answers; what the program changes
      (its own fields, standard output, open figures, the files written) is a
      [State] threaded through a state-and-exception monad. *)

From Stdlib Require Import Bool Arith ZArith Lia List String Ascii Floats.
From Stdlib Require Import DecimalString.
Import ListNotations.

Open Scope list_scope.
Open Scope string_scope.

(* ================================================================== *)
(** ** Python strings *)

Module PyStr.

(** [str.isspace] on one character, code points below 256. *)
Definition is_space (c : ascii) : bool :=
  let n := nat_of_ascii c in
  (((9 <=? n) && (n <=? 13)) || ((28 <=? n) && (n <=? 32))
   || (n =? 133) || (n =? 160))%nat.

Fixpoint lstrip (s : string) : string :=
  match s with
  | EmptyString => EmptyString
  | String c s' => if is_space c then lstrip s' else s
  end.

Fixpoint rstrip (s : string) : string :=
  match s with
  | EmptyString => EmptyString
  | String c s' =>
      match rstrip s' with
      | EmptyString => if is_space c then EmptyString else String c EmptyString
      | r => String c r
      end
  end.

(** [s.strip()] *)
Definition strip (s : string) : string := rstrip (lstrip s).

(** [s.startswith(p)] *)
Definition startswith (p s : string) : bool := String.prefix p s.

(** [s[n:]] *)
Fixpoint drop (n : nat) (s : string) : string :=
  match n, s with
  | O, _ => s
  | S _, EmptyString => EmptyString
  | S k, String _ s' => drop k s'
  end.

(** [s[:n]] *)
Fixpoint take (n : nat) (s : string) : string :=
  match n, s with
  | O, _ => EmptyString
  | S _, EmptyString => EmptyString
  | S k, String c s' => String c (take k s')
  end.

(** The scan of [s.split(sep)] for a non-empty [sep]: [skip] characters of
    a separator just matched are still to be passed over, [cur] is the piece
    read so far. *)
Fixpoint split_go (sep s : string) (skip : nat) (cur : string) : list string :=
  match s with
  | EmptyString => [cur]
  | String c s' =>
      match skip with
      | S k => split_go sep s' k cur
      | O =>
          if String.prefix sep s
          then cur :: split_go sep s' (String.length sep - 1) EmptyString
          else split_go sep s' 0 (cur ++ String c EmptyString)%string
      end
  end.

(** [s.split(sep)], [sep] non-empty: left to right, without overlap. *)
Definition split (sep s : string) : list string := split_go sep s 0 EmptyString.

(** [sep.join(l)] *)
Fixpoint join (sep : string) (l : list string) : string :=
  match l with
  | [] => EmptyString
  | [x] => x
  | x :: rest => (x ++ sep ++ join sep rest)%string
  end.

(** Python truth of a string: non-empty. *)
Definition truthy (s : string) : bool :=
  match s with EmptyString => false | _ => true end.

Definition nl : string := String (ascii_of_nat 10) EmptyString.

(** Decimal numeral of a natural number, [str(n)]. *)
Definition of_nat (n : nat) : string := NilEmpty.string_of_uint (Nat.to_uint n).

Fixpoint zeros (n : nat) : string :=
  match n with O => EmptyString | S k => String "0" (zeros k) end.

(** Zero padding on the left to [width], as [%02d] and its like. *)
Definition zfill (width : nat) (s : string) : string :=
  (zeros (width - String.length s) ++ s)%string.

End PyStr.

(* ================================================================== *)
(** ** Numbers: binary64 arithmetic, rounding and formatting *)

Module Num.

Open Scope float_scope.

(** [Series.sum()]: NaN cells are skipped ([skipna=True]); the sum of no
    cells is 0.  The cells are added in row order here; numpy may add them
    in another order, which gives the same sum as long as the partial sums
    are exactly representable (amounts that are integers below 2^53). *)
Definition sum (l : list float) : float :=
  fold_left (fun acc x => if is_nan x then acc else acc + x) l 0.

Definition two52 : float := Eval cbv in Z.ldexp 1 52.

(** [numpy.rint]: round to the nearest integer, ties to even, the sign
    kept; values of magnitude 2^52 and above, infinities and NaN are
    returned as they are. *)
Definition rint (x : float) : float :=
  if abs x <? two52 then
    let r := (abs x + two52) - two52 in
    if get_sign x then - r else r
  else x.

(** [Series.round(d)]: numpy scales by [10**d], rounds, and scales back. *)
Definition round (d : float) (x : float) : float := rint (x * d) / d.

Close Scope float_scope.
Open Scope Z_scope.

(** [m * 2^e] rounded to the nearest integer, ties to even. *)
Definition round_half_even_scaled (m e : Z) : Z :=
  if 0 <=? e then m * 2 ^ e
  else
    let d := 2 ^ (- e) in
    let q := m / d in
    let r := m mod d in
    match 2 * r ?= d with
    | Lt => q
    | Gt => q + 1
    | Eq => if Z.even q then q else q + 1
    end.

Definition digits (n : Z) : string := NilEmpty.string_of_uint (N.to_uint (Z.to_N n)).

(** Thousands separators in a numeral, the [,] of the format language:
    the characters are taken from the right, three to a group. *)
Fixpoint group3 (rev_digits : list ascii) (k : nat) (acc : string) : string :=
  match rev_digits with
  | [] => acc
  | c :: rest =>
      match k with
      | 3%nat => group3 rest 1 (String c (String "," acc))
      | _ => group3 rest (S k) (String c acc)
      end
  end.

Definition with_commas (s : string) : string :=
  group3 (rev (list_ascii_of_string s)) 0 EmptyString.

(** [format(x, ',.pf')] and [format(x, '.pf')]: the exact binary value
    rounded to [p] decimals, ties to even; [nan], [inf] and [-inf] spelled
    out; a negative sign kept on a value that rounds to zero. *)
Definition format_f (comma : bool) (p : nat) (x : float) : string :=
  let body (n : Z) : string :=
    let scale := 10 ^ Z.of_nat p in
    let ip := digits (n / scale) in
    let ip := if comma then with_commas ip else ip in
    match p with
    | O => ip
    | _ => (ip ++ "." ++ PyStr.zfill p (digits (n mod scale)))%string
    end in
  let sign (s : bool) : string := if s then "-" else "" in
  match Prim2SF x with
  | S754_nan => "nan"
  | S754_infinity s => (sign s ++ "inf")%string
  | S754_zero s => (sign s ++ body 0)%string
  | S754_finite s m e =>
      (sign s ++ body (round_half_even_scaled (Z.pos m * 10 ^ Z.of_nat p) e))%string
  end.

Close Scope Z_scope.

End Num.

(* ================================================================== *)
(** ** Paths and the clock *)

Module Path.

(** A [pathlib.Path] of a file in a directory. *)
Record t : Type := mk { parent : string; name : string }.

(** [dir / name] *)
Definition div (dir : string) (file : string) : t :=
  {| parent := dir; name := file |}.

(** [str(p)] *)
Definition str (p : t) : string := parent p ++ "/" ++ name p.

(** [name.rfind('.')], [None] for Python's -1. *)
Fixpoint rfind_dot (s : string) : option nat :=
  match s with
  | EmptyString => None
  | String c s' =>
      match rfind_dot s' with
      | Some i => Some (S i)
      | None => if Ascii.eqb c "." then Some 0 else None
      end
  end.

(** pathlib splits at the last dot, unless it leads or ends the name. *)
Definition split_at_dot (file : string) : option nat :=
  match rfind_dot file with
  | Some i => if (0 <? i)%nat && (i <? String.length file - 1)%nat
              then Some i else None
  | None => None
  end.

Definition suffix (p : t) : string :=
  match split_at_dot (name p) with
  | Some i => PyStr.drop i (name p)
  | None => EmptyString
  end.

Definition stem (p : t) : string :=
  match split_at_dot (name p) with
  | Some i => PyStr.take i (name p)
  | None => name p
  end.

(** The components pathlib keeps of a POSIX path: empty ones (doubled or
    trailing slashes) and ["."] are dropped, [".."] is kept. *)
Definition parts (file : string) : list string :=
  filter (fun part => negb (part =? "")%string && negb (part =? ".")%string)
         (PyStr.split "/" file).

(** The root of an absolute path: exactly two leading slashes are kept,
    any other number is one slash. *)
Definition root (file : string) : string :=
  if PyStr.startswith "//" file && negb (PyStr.startswith "///" file)
  then "//" else "/".

(** [str(Path(dir) / file)] for a one-component relative [dir]: an absolute
    [file] replaces [dir], a relative one is put under it. *)
Definition join (dir file : string) : string :=
  if PyStr.startswith "/" file
  then root file ++ PyStr.join "/" (parts file)
  else PyStr.join "/" (dir :: parts file).

Fixpoint no_slash (s : string) : bool :=
  match s with
  | EmptyString => true
  | String c s' => if ascii_dec "/" c then false else no_slash s'
  end.

(** A plain file name: one component, neither empty nor ["."]. *)
Definition plain (file : string) : bool :=
  no_slash file && negb (file =? "")%string && negb (file =? ".")%string.

End Path.

(** The value of [datetime.now()]. *)
Record DateTime : Type := {
  year : nat; month : nat; day : nat;
  hour : nat; minute : nat; second : nat
}.

Module Strftime.

Definition month_name (m : nat) : string :=
  nth (m - 1)
    ["January"; "February"; "March"; "April"; "May"; "June"; "July";
     "August"; "September"; "October"; "November"; "December"] "".

Definition pad (w n : nat) : string := PyStr.zfill w (PyStr.of_nat n).

(** ["%Y-%m-%d"] *)
Definition Ymd (d : DateTime) : string :=
  pad 4 (year d) ++ "-" ++ pad 2 (month d) ++ "-" ++ pad 2 (day d).

(** ["%H%M%S"]: the time of day, to the second. *)
Definition HMS (d : DateTime) : string :=
  pad 2 (hour d) ++ pad 2 (minute d) ++ pad 2 (second d).

(** ["%B %d, %Y"] *)
Definition BdY (d : DateTime) : string :=
  month_name (month d) ++ " " ++ pad 2 (day d) ++ ", " ++ pad 4 (year d).

End Strftime.

(* ================================================================== *)
(** ** The table, the document and the outside world *)

(** A row of the data frame.  The frame has the columns the program names:
    ['Task'], a column of text, and ['Budgeted'], ['Remaining'] and the
    derived ['Utilization%'], columns of numbers; which of them the frame
    really has is recorded in [DataFrame].  The table section shows them in
    this order. *)
Record Row : Type := {
  Task : string;
  Budgeted : float;
  Remaining : float;
  Utilization : float
}.

Record DataFrame : Type := {
  has_Task : bool;
  has_Budgeted : bool;
  has_Remaining : bool;
  has_Utilization : bool;
  rows : list Row
}.

Definition row (t : string) (b r : float) : Row :=
  {| Task := t; Budgeted := b; Remaining := r; Utilization := 0%float |}.

(** What [pd.read_excel] gives for a sheet with the three columns. *)
Definition frame (l : list Row) : DataFrame :=
  {| has_Task := true; has_Budgeted := true; has_Remaining := true;
     has_Utilization := false; rows := l |}.

(** A cell of the frame as [iloc] returns it: text or a number. *)
Inductive Cell : Type :=
| Text (s : string)
| Number (v : float).

Inductive Style : Type := Normal | ListBullet.

(** The blocks python-docx appends to the document body. *)
Inductive Block : Type :=
| Heading (text : string) (level : nat)
| Paragraph (text : string) (style : Style)
| Table (header : list string) (body : list (list string))
| Picture (file : string) (width_emu : N).

Definition Document : Type := list Block.

(** What python-docx makes of a text.  A run is written piece by piece: a
    tab, a line feed or a carriage return becomes an element of its own, and
    the text between two of them is handed to lxml, which raises [ValueError]
    ("All strings must be XML compatible") on a control character. *)
Module Docx.

Definition is_break (c : ascii) : bool :=
  let n := nat_of_ascii c in
  ((n =? 9) || (n =? 10) || (n =? 13))%nat.

(** Below 256 the characters lxml refuses are the code points under 32. *)
Definition is_xml_char (c : ascii) : bool := (32 <=? nat_of_ascii c)%nat.

(** No piece of the text is refused. *)
Fixpoint xml_compatible (text : string) : bool :=
  match text with
  | EmptyString => true
  | String c rest => (is_break c || is_xml_char c) && xml_compatible rest
  end.

(** What the run holds once a piece has been refused: the pieces and breaks
    before it; [done] has been written, [piece] is the piece being read. *)
Fixpoint written_from (text done piece : string) : string :=
  match text with
  | EmptyString => (done ++ piece)%string
  | String c rest =>
      if is_break c
      then written_from rest (done ++ piece ++ String c EmptyString)%string EmptyString
      else if is_xml_char c
           then written_from rest done (piece ++ String c EmptyString)%string
           else done
  end.

Definition written (text : string) : string :=
  written_from text EmptyString EmptyString.

Definition block_text (b : Block) : string :=
  match b with
  | Heading text _ => text
  | Paragraph text _ => text
  | _ => EmptyString
  end.

(** The text of the block is taken. *)
Definition accepts (b : Block) : bool := xml_compatible (block_text b).

(** Replace element [i] of a list; out of range nothing changes. *)
Fixpoint set_nth {A} (i : nat) (x : A) (l : list A) : list A :=
  match l, i with
  | [], _ => []
  | _ :: rest, O => x :: rest
  | y :: rest, S k => y :: set_nth k x rest
  end.

(** Apply [f] to the last element of a list. *)
Fixpoint on_last {A} (f : A -> A) (l : list A) : list A :=
  match l with
  | [] => []
  | [x] => [f x]
  | x :: rest => x :: on_last f rest
  end.

(** [table.rows[0].cells[i].text = text] *)
Definition header_cell (i : nat) (text : string) (b : Block) : Block :=
  match b with
  | Table header body => Table (set_nth i text header) body
  | _ => b
  end.

(** [table.add_row()]: a row of [cols] empty cells. *)
Definition add_row (cols : nat) (b : Block) : Block :=
  match b with
  | Table header body => Table header (body ++ [repeat EmptyString cols])%list
  | _ => b
  end.

(** [row_cells[j].text = text] on the row added last. *)
Definition row_cell (j : nat) (text : string) (b : Block) : Block :=
  match b with
  | Table header body => Table header (on_last (set_nth j text) body)
  | _ => b
  end.

End Docx.

Inductive Exn : Type :=
| KeyError (key : string)
| ValueError
| OverflowError
| AttributeError
| BackendError
| OutOfFuel.

Inductive Outcome (A : Type) : Type :=
| Ok (a : A)
| Raise (e : Exn).
Arguments Ok {A} a.
Arguments Raise {A} e.

(** The lines written to standard output, one constructor per [print]. *)
Inductive Msg : Type :=
| MsgNewVersion (file : string)
| MsgNotFound (file : string)
| MsgReadError (file : string)
| MsgLoaded (file : string) (columns : list string) (n : nat)
| MsgExcelNotFound (file : string)
| MsgLoadError
| MsgDocumentInitialized
| MsgIntroductionAdded
| MsgNoDataForTable
| MsgTableAdded
| MsgKeyPointsAdded
| MsgNoDataForChart
| MsgChartAdded
| MsgChartError
| MsgSaved (file : string)
| MsgSaveError
| MsgStarting
| MsgCompleted
| MsgOutputFile (file : string)
| MsgFileSize
| MsgVerbose (input : string) (output : option string).

Inductive FileRead : Type :=
| FileAbsent
| FileUnreadable
| FileText (content : string).

Inductive ExcelRead : Type :=
| ExcelFrame (df : DataFrame)
| ExcelNotFound
| ExcelFailure.

(** Where the chart backend raises: while pandas selects the columns to plot
    (no figure exists yet), while it draws (the figure exists), in one of the
    [plt] decoration calls, in [savefig], or in [add_picture]. *)
Inductive ChartStage : Type :=
| PlotSelect | PlotDraw | Decorate | Savefig | AddPicture.

(** The answers of the outside world during one run; the clock is read as
    one instant for the whole run. *)
Record Env : Type := {
  now : DateTime;
  path_exists : string -> bool;
  read_text : string -> FileRead;
  read_excel : string -> ExcelRead;
  chart_fault : DataFrame -> option ChartStage;
  save_fails : string -> bool
}.

(** The fields of the [ReportGenerator] object, and what the run changes
    around it. *)
Record State : Type := {
  excel_file : string;
  output_file : string;
  document : option Document;
  data : option DataFrame;
  stdout : list Msg;
  open_figures : nat;
  saved : list (string * Document);
  chart_files : list string
}.

Definition boot : State :=
  {| excel_file := ""; output_file := ""; document := None; data := None;
     stdout := []; open_figures := 0; saved := []; chart_files := [] |}.

(* ================================================================== *)
(** ** State and exceptions *)

Definition M (A : Type) : Type := State -> Outcome A * State.

Definition ret {A} (a : A) : M A := fun s => (Ok a, s).

Definition bind {A B} (m : M A) (k : A -> M B) : M B :=
  fun s => match m s with
           | (Ok a, s') => k a s'
           | (Raise e, s') => (Raise e, s')
           end.

Definition raise {A} (e : Exn) : M A := fun s => (Raise e, s).

(** [try: m  except Exception: h] *)
Definition try_except {A} (m : M A) (h : Exn -> M A) : M A :=
  fun s => match m s with
           | (Ok a, s') => (Ok a, s')
           | (Raise e, s') => h e s'
           end.

Definition get : M State := fun s => (Ok s, s).
Definition modify (f : State -> State) : M unit := fun s => (Ok tt, f s).

Notation "x <- m ;; k" := (bind m (fun x => k))
  (at level 61, m at next level, right associativity).
Notation "m ;; k" := (bind m (fun _ => k))
  (at level 61, right associativity).

Definition with_stdout (out : list Msg) (s : State) : State :=
  {| excel_file := excel_file s; output_file := output_file s;
     document := document s; data := data s; stdout := out;
     open_figures := open_figures s; saved := saved s;
     chart_files := chart_files s |}.

Definition with_document (d : option Document) (s : State) : State :=
  {| excel_file := excel_file s; output_file := output_file s;
     document := d; data := data s; stdout := stdout s;
     open_figures := open_figures s; saved := saved s;
     chart_files := chart_files s |}.

Definition with_data (d : option DataFrame) (s : State) : State :=
  {| excel_file := excel_file s; output_file := output_file s;
     document := document s; data := d; stdout := stdout s;
     open_figures := open_figures s; saved := saved s;
     chart_files := chart_files s |}.

Definition with_open_figures (n : nat) (s : State) : State :=
  {| excel_file := excel_file s; output_file := output_file s;
     document := document s; data := data s; stdout := stdout s;
     open_figures := n; saved := saved s; chart_files := chart_files s |}.

Definition with_chart_files (files : list string) (s : State) : State :=
  {| excel_file := excel_file s; output_file := output_file s;
     document := document s; data := data s; stdout := stdout s;
     open_figures := open_figures s; saved := saved s; chart_files := files |}.

Definition print (m : Msg) : M unit :=
  modify (fun s => with_stdout (stdout s ++ [m])%list s).

Definition set_document (d : option Document) : M unit :=
  modify (with_document d).

Definition set_data (d : option DataFrame) : M unit :=
  modify (with_data d).

Definition set_open_figures (n : nat) : M unit :=
  modify (with_open_figures n).

(** A method of [self.document]: on [None] Python raises [AttributeError]. *)
Definition append_block (b : Block) : M unit :=
  s <- get ;;
  match document s with
  | None => raise AttributeError
  | Some d => set_document (Some (d ++ [b])%list)
  end.

(** [add_paragraph(text, style)] of python-docx: the paragraph is appended,
    then its run is written, then its style is set.  A text that is refused
    leaves the paragraph in the body with what was written of it and no
    style of its own. *)
Definition add_text (text : string) (b : Block) : M unit :=
  if Docx.xml_compatible text then append_block b
  else append_block (Paragraph (Docx.written text) Normal) ;; raise ValueError.

(** [add_heading(text, level)] is [add_paragraph] with a heading style. *)
Definition add_heading (text : string) (level : nat) : M unit :=
  add_text text (Heading text level).

Definition add_paragraph (text : string) (style : Style) : M unit :=
  add_text text (Paragraph text style).

(** A change to the block added last: the table in hand, or the paragraph
    that is to hold the picture. *)
Definition edit_last (f : Block -> Block) : M unit :=
  s <- get ;;
  match document s with
  | None => raise AttributeError
  | Some d => set_document (Some (Docx.on_last f d))
  end.

(** [cell.text = text]: [put] says which cell; a text that is refused
    leaves in the cell what was written of it. *)
Definition set_text (text : string) (put : string -> Block -> Block) : M unit :=
  if Docx.xml_compatible text then edit_last (put text)
  else edit_last (put (Docx.written text)) ;; raise ValueError.

(** [enumerate(l)] *)
Definition enumerate {A} (l : list A) : list (nat * A) :=
  combine (seq 0 (List.length l)) l.

Fixpoint for_each {A} (l : list A) (body : A -> M unit) : M unit :=
  match l with
  | [] => ret tt
  | x :: rest => body x ;; for_each rest body
  end.

Definition lift {A} (o : Outcome A) : M A := fun s => (o, s).

(* ================================================================== *)
(** ** Analysis of the table *)

Module Analysis.

Open Scope float_scope.

(** [(total_budgeted - total_remaining) / total_budgeted * 100 if
    total_budgeted > 0 else 0] *)
Definition utilization_rate (total_budgeted total_remaining : float) : float :=
  if 0 <? total_budgeted
  then (total_budgeted - total_remaining) / total_budgeted * 100
  else 0.

(** One cell of [((Budgeted - Remaining) / Budgeted * 100).round(1)]. *)
Definition utilization_pct (r : Row) : float :=
  Num.round 10 ((Budgeted r - Remaining r) / Budgeted r * 100).

(** The series assigned to ['Utilization%']: one value per row. *)
Definition per_row_utilization (df : DataFrame) : list float :=
  map utilization_pct (rows df).

(** [self.data['Utilization%'] = ...] *)
Definition with_utilization (df : DataFrame) : DataFrame :=
  {| has_Task := has_Task df; has_Budgeted := has_Budgeted df;
     has_Remaining := has_Remaining df; has_Utilization := true;
     rows := map (fun r => {| Task := Task r; Budgeted := Budgeted r;
                              Remaining := Remaining r;
                              Utilization := utilization_pct r |})
                 (rows df) |}.

(** [df[df['Task'] != 'TOTALS'] if 'Task' in df.columns else df] *)
Definition non_total (df : DataFrame) : list Row :=
  if has_Task df
  then filter (fun r => negb (String.eqb (Task r) "TOTALS")) (rows df)
  else rows df.

(** The first position of the best value among the cells that are not
    NaN, from position [i] on; [best] is the best cell seen so far. *)
Fixpoint arg_best (better : float -> float -> bool) (best : option (nat * float))
    (i : nat) (l : list float) : option nat :=
  match l with
  | [] => option_map fst best
  | x :: rest =>
      if is_nan x then arg_best better best (S i) rest
      else match best with
           | Some (_, b) =>
               if better x b then arg_best better (Some (i, x)) (S i) rest
               else arg_best better best (S i) rest
           | None => arg_best better (Some (i, x)) (S i) rest
           end
  end.

(** [Series.idxmax()] with [skipna=True], as pandas 3 has it: the first
    position of the maximum of the cells that are not NaN; a series with
    nothing but NaN (or nothing at all) raises [ValueError]. *)
Definition idxmax (l : list float) : Outcome nat :=
  match arg_best (fun x best => best <? x) None 0 l with
  | Some i => Ok i
  | None => Raise ValueError
  end.

Definition idxmin (l : list float) : Outcome nat :=
  match arg_best (fun x best => x <? best) None 0 l with
  | Some i => Ok i
  | None => Raise ValueError
  end.

(** [row['Task']] *)
Definition task_of (df : DataFrame) (r : Row) : Outcome string :=
  if has_Task df then Ok (Task r) else Raise (KeyError "Task").

Definition blank_row : Row :=
  {| Task := ""; Budgeted := 0; Remaining := 0; Utilization := 0 |}.

Definition generic_key_points : list string :=
  [ "Budget tracking is current and accurate";
    "All expenditures are within approved parameters";
    "Financial controls are operating effectively";
    "Regular monitoring continues as scheduled" ]%string.

(** The list [key_points] of the branch that has both columns, computed on
    the frame that already carries ['Utilization%']. *)
Definition dynamic_key_points (df : DataFrame) : Outcome (list string) :=
  let total_budgeted := Num.sum (map Budgeted (rows df)) in
  let total_remaining := Num.sum (map Remaining (rows df)) in
  let rate := utilization_rate total_budgeted total_remaining in
  if (1 <? List.length (rows df))%nat then
    let non_total_data := non_total df in
    if (0 <? List.length non_total_data)%nat then
      match idxmax (map Utilization non_total_data),
            idxmin (map Utilization non_total_data) with
      | Ok hi, Ok lo =>
          let highest_util := nth hi non_total_data blank_row in
          let lowest_util := nth lo non_total_data blank_row in
          match task_of df highest_util, task_of df lowest_util with
          | Ok hi_task, Ok lo_task =>
              Ok [ "Overall budget utilization stands at "
                     ++ Num.format_f false 1 rate ++ "%";
                   "Highest utilization: " ++ hi_task ++ " at "
                     ++ Num.format_f false 1 (Utilization highest_util) ++ "%";
                   "Lowest utilization: " ++ lo_task ++ " at "
                     ++ Num.format_f false 1 (Utilization lowest_util) ++ "%";
                   "Total remaining funds: $"
                     ++ Num.format_f true 0 total_remaining ]%string
          | Raise e, _ => Raise e
          | _, Raise e => Raise e
          end
      | Raise e, _ => Raise e
      | _, Raise e => Raise e
      end
    else Ok []
  else Ok [].

(** [if not key_points: key_points = [...]] *)
Definition or_default (key_points : list string) : list string :=
  match key_points with
  | [] => generic_key_points
  | _ => key_points
  end.

(** The list [key_points] that [add_key_points] hands to the loader, from
    [self.data]. *)
Definition key_points (data : option DataFrame) : Outcome (list string) :=
  match data with
  | Some df =>
      if has_Budgeted df && has_Remaining df then
        match dynamic_key_points (with_utilization df) with
        | Ok l => Ok (or_default l)
        | Raise e => Raise e
        end
      else Ok generic_key_points
  | None => Ok generic_key_points
  end.

(** The text of a numeric cell of the table: [f"{v:,.0f}"] when
    [v == int(v)], else [f"{v:,.2f}"]; [str(v)] for a missing value;
    [int] of an infinity raises. *)
Definition cell_text (v : float) : Outcome string :=
  match Prim2SF v with
  | S754_nan => Ok "nan"%string
  | S754_infinity _ => Raise OverflowError
  | S754_zero _ => Ok (Num.format_f true 0 v)
  | S754_finite _ m e =>
      if (0 <=? e)%Z || (Z.pos m mod 2 ^ (- e) =? 0)%Z
      then Ok (Num.format_f true 0 v)
      else Ok (Num.format_f true 2 v)
  end.

End Analysis.

(* ================================================================== *)
(** ** The methods of [ReportGenerator] *)

Section ReportGenerator.

Variable env : Env.

(** [parent_dir / f"{name_stem}_v{counter}{extension}"] *)
Definition versioned (base : Path.t) (counter : nat) : Path.t :=
  Path.div (Path.parent base)
    (Path.stem base ++ "_v" ++ PyStr.of_nat counter ++ Path.suffix base).

(** [parent_dir / f"{name_stem}_{timestamp}{extension}"] *)
Definition timestamped (base : Path.t) : Path.t :=
  Path.div (Path.parent base)
    (Path.stem base ++ "_" ++ Strftime.HMS (now env) ++ Path.suffix base).

(** The [while True] loop of [_get_unique_filename]; [fuel] bounds the
    number of rounds of the model only. *)
Fixpoint probe (fuel : nat) (base : Path.t) (counter : nat) : M Path.t :=
  match fuel with
  | O => raise OutOfFuel
  | S fuel' =>
      let new_filepath := versioned base counter in
      if negb (path_exists env (Path.str new_filepath)) then
        print (MsgNewVersion (Path.name new_filepath)) ;;
        ret new_filepath
      else
        let counter := counter + 1 in
        if (100 <? counter)%nat then ret (timestamped base)
        else probe fuel' base counter
  end.

Definition _get_unique_filename (base_filepath : Path.t) : M Path.t :=
  if negb (path_exists env (Path.str base_filepath)) then ret base_filepath
  else probe 100 base_filepath 2.

Definition reports_dir : string := "reports".

Definition set_fields (excel output : string) : M unit :=
  modify (fun s =>
    {| excel_file := excel; output_file := output;
       document := None; data := None; stdout := stdout s;
       open_figures := open_figures s; saved := saved s;
       chart_files := chart_files s |}).

(** [ReportGenerator(excel_file, output_file)]; the [reports] directory is
    there or can be made ([mkdir] does not raise).  The default name goes
    through the resolver; a name of the caller is joined to the directory
    and taken as it comes. *)
Definition __init__ (excel : string) (output : option string) : M unit :=
  match output with
  | None =>
      let base_name := "project_report_" ++ Strftime.Ymd (now env) ++ ".docx" in
      let base_path := Path.div reports_dir base_name in
      p <- _get_unique_filename base_path ;;
      set_fields excel (Path.str p)
  | Some file =>
      set_fields excel (Path.join reports_dir file)
  end.

Definition read_markdown_file (filename : string) : M (option string) :=
  try_except
    (match read_text env filename with
     | FileText content => ret (Some (PyStr.strip content))
     | FileAbsent => print (MsgNotFound filename) ;; ret None
     | FileUnreadable => raise BackendError
     end)
    (fun _ => print (MsgReadError filename) ;; ret None).

Definition is_bullet (s : string) : bool :=
  PyStr.startswith "- " s || PyStr.startswith "* " s.

(** [[line.strip()[2:] for line in para.split('\n')
      if line.strip().startswith(('- ', '* '))]] *)
Definition bullets (para : string) : list string :=
  map (fun line => PyStr.drop 2 (PyStr.strip line))
      (filter (fun line => is_bullet (PyStr.strip line))
              (PyStr.split PyStr.nl para)).

(** The body of the loop over the paragraphs. *)
Definition add_para (para : string) : M unit :=
  let para := PyStr.strip para in
  if negb (PyStr.truthy para) then ret tt
  else if is_bullet para then
    for_each (bullets para) (fun bullet => add_paragraph bullet ListBullet)
  else add_paragraph para Normal.

Definition add_paragraphs (content : string) : M unit :=
  for_each (PyStr.split (PyStr.nl ++ PyStr.nl) content) add_para.

(** Python truth of [content]: neither [None] nor empty. *)
Definition present (content : option string) : bool :=
  match content with Some s => PyStr.truthy s | None => false end.

Definition add_markdown_content (filename : string)
    (default_content : option string) : M unit :=
  content <- read_markdown_file filename ;;
  if negb (present content) && present default_content then
    match default_content with
    | Some d => add_paragraphs d
    | None => ret tt
    end
  else if negb (present content) then ret tt
  else match content with
       | Some c => add_paragraphs c
       | None => ret tt
       end.

(** [list(self.data.columns)] *)
Definition columns (df : DataFrame) : list string :=
  ((if has_Task df then ["Task"] else [])
   ++ (if has_Budgeted df then ["Budgeted"] else [])
   ++ (if has_Remaining df then ["Remaining"] else [])
   ++ (if has_Utilization df then ["Utilization%"] else []))%list.

Definition load_data : M bool :=
  s <- get ;;
  match read_excel env (excel_file s) with
  | ExcelFrame df =>
      set_data (Some df) ;;
      print (MsgLoaded (excel_file s) (columns df) (List.length (rows df))) ;;
      ret true
  | ExcelNotFound => print (MsgExcelNotFound (excel_file s)) ;; ret false
  | ExcelFailure => print MsgLoadError ;; ret false
  end.

Definition create_document : M unit :=
  set_document (Some []) ;;
  add_heading ("Budget Report - " ++ Strftime.BdY (now env)) 0 ;;
  print MsgDocumentInitialized.

Definition default_intro : string :=
  "This report provides a comprehensive overview of budget allocation and expenditure status as of "
  ++ Strftime.BdY (now env) ++ "." ++ PyStr.nl ++ PyStr.nl
  ++ "Key metrics include budget utilization rates, remaining fund allocation, and project-specific financial performance indicators.".

Definition add_introduction : M unit :=
  add_heading "Executive Summary" 1 ;;
  add_markdown_content "introduction.md" (Some default_intro) ;;
  print MsgIntroductionAdded.

(** The totals of the summary line: a missing column counts as 0. *)
Definition total_budgeted (df : DataFrame) : float :=
  if has_Budgeted df then Num.sum (map Budgeted (rows df)) else 0%float.

Definition total_remaining (df : DataFrame) : float :=
  if has_Remaining df then Num.sum (map Remaining (rows df)) else 0%float.

Definition summary_text (df : DataFrame) : string :=
  "Total Budget: $" ++ Num.format_f true 0 (total_budgeted df)
  ++ " | Utilization Rate: "
  ++ Num.format_f false 1
       (Analysis.utilization_rate (total_budgeted df) (total_remaining df))
  ++ "% | Remaining: $" ++ Num.format_f true 0 (total_remaining df).

(** [self.data.iloc[i, j]] for the columns [j] of row [i]. *)
Definition row_values (df : DataFrame) (r : Row) : list Cell :=
  ((if has_Task df then [Text (Task r)] else [])
   ++ (if has_Budgeted df then [Number (Budgeted r)] else [])
   ++ (if has_Remaining df then [Number (Remaining r)] else [])
   ++ (if has_Utilization df then [Number (Utilization r)] else []))%list.

(** The text of a cell: a number that is not missing is formatted, anything
    else goes through [str]. *)
Definition cell_str (cell_value : Cell) : Outcome string :=
  match cell_value with
  | Text s => Ok s
  | Number v => Analysis.cell_text v
  end.

(** The table is added with its header row, then filled cell by cell: a
    cell that raises leaves the table as far as it was filled.  The table
    style and the bold face of the header are not part of [Block]. *)
Definition add_budget_table : M bool :=
  s <- get ;;
  match data s with
  | None => print MsgNoDataForTable ;; ret false
  | Some df =>
      add_heading "Budget Allocation Details" 1 ;;
      add_paragraph (summary_text df) Normal ;;
      let cols := List.length (columns df) in
      append_block (Table (repeat "" cols) []) ;;
      for_each (enumerate (columns df))
        (fun column => set_text (snd column) (Docx.header_cell (fst column))) ;;
      for_each (rows df)
        (fun r =>
           edit_last (Docx.add_row cols) ;;
           for_each (enumerate (row_values df r))
             (fun cell =>
                text <- lift (cell_str (snd cell)) ;;
                set_text text (Docx.row_cell (fst cell)))) ;;
      print MsgTableAdded ;;
      ret true
  end.

Definition bullet_list (points : list string) : string :=
  PyStr.join PyStr.nl (map (fun point => "- " ++ point) points).

Definition add_key_points : M unit :=
  add_heading "Key Findings" 1 ;;
  s <- get ;;
  match data s with
  | Some df =>
      if has_Budgeted df && has_Remaining df
      then set_data (Some (Analysis.with_utilization df))
      else ret tt
  | None => ret tt
  end ;;
  key_points <- lift (Analysis.key_points (data s)) ;;
  add_markdown_content "key_points.md" (Some (bullet_list key_points)) ;;
  print MsgKeyPointsAdded.

Definition chart_desc : string :=
  "The chart below provides a visual comparison of budgeted amounts versus remaining funds for each project component.".

(** [Inches(6.5)] in English Metric Units. *)
Definition chart_width : N := 5943600%N.

Definition fails_at (fault : option ChartStage) (stage : ChartStage) : bool :=
  match fault, stage with
  | Some PlotSelect, PlotSelect | Some PlotDraw, PlotDraw
  | Some Decorate, Decorate | Some Savefig, Savefig
  | Some AddPicture, AddPicture => true
  | _, _ => false
  end.

(** A backend call that raises when the fault is at this stage. *)
Definition backend (fault : option ChartStage) (stage : ChartStage) : M unit :=
  if fails_at fault stage then raise BackendError else ret tt.

(** [plt.savefig(chart_filename)] has written the image. *)
Definition record_chart_file (file : string) : M unit :=
  modify (fun s => with_chart_files (file :: chart_files s)%list s).

Definition add_budget_chart : M bool :=
  s <- get ;;
  match data s with
  | None => print MsgNoDataForChart ;; ret false
  | Some df =>
      add_heading "Budget Visualization" 1 ;;
      add_markdown_content "chart_description.md" (Some chart_desc) ;;
      try_except
        (let chart_data := Analysis.non_total df in
         let chart_data :=
           if (List.length chart_data =? 0)%nat then rows df else chart_data in
         let fault :=
           chart_fault env
             {| has_Task := has_Task df; has_Budgeted := has_Budgeted df;
                has_Remaining := has_Remaining df;
                has_Utilization := has_Utilization df;
                rows := chart_data |} in
         (* chart_data.plot(...): a new figure, once the columns are found *)
         backend fault PlotSelect ;;
         s1 <- get ;;
         set_open_figures (open_figures s1 + 1) ;;
         backend fault PlotDraw ;;
         (* plt.title ... plt.tight_layout *)
         backend fault Decorate ;;
         backend fault Savefig ;;
         record_chart_file "budget_chart.png" ;;
         (* self.document.add_picture(...): python-docx adds a paragraph,
            then reads the image into it *)
         append_block (Paragraph "" Normal) ;;
         backend fault AddPicture ;;
         edit_last (fun _ => Picture "budget_chart.png" chart_width) ;;
         (* plt.close() *)
         s2 <- get ;;
         set_open_figures (open_figures s2 - 1) ;;
         print MsgChartAdded ;;
         ret true)
        (fun _ => print MsgChartError ;; ret false)
  end.

(** [self.document.save(self.output_file)] has written the report. *)
Definition record_saved : M unit :=
  modify (fun s =>
    {| excel_file := excel_file s; output_file := output_file s;
       document := document s; data := data s; stdout := stdout s;
       open_figures := open_figures s;
       saved := match document s with
                | Some d => ((output_file s, d) :: saved s)%list
                | None => saved s
                end;
       chart_files := chart_files s |}).

Definition save_document : M bool :=
  try_except
    (s <- get ;;
     match document s with
     | None => raise AttributeError
     | Some _ =>
         if save_fails env (output_file s) then raise BackendError
         else record_saved ;; print (MsgSaved (output_file s)) ;; ret true
     end)
    (fun _ => print MsgSaveError ;; ret false).

Definition generate_report : M bool :=
  print MsgStarting ;;
  loaded <- load_data ;;
  if negb loaded then ret false
  else
    create_document ;;
    add_introduction ;;
    _ <- add_budget_table ;;
    add_key_points ;;
    _ <- add_budget_chart ;;
    success <- save_document ;;
    (if success then
       s <- get ;;
       print MsgCompleted ;;
       print (MsgOutputFile (output_file s)) ;;
       print MsgFileSize
     else ret tt) ;;
    ret success.

(** The parsed command line. *)
Record Args : Type := { arg_input : string; arg_output : option string;
                        arg_verbose : bool }.

Definition main (args : Args) : M nat :=
  (if arg_verbose args
   then print (MsgVerbose (arg_input args) (arg_output args))
   else ret tt) ;;
  __init__ (arg_input args) (arg_output args) ;;
  success <- generate_report ;;
  ret (if success then 0 else 1).

(** The exit status of [exit(main())]: an exception that escapes ends the
    process with status 1. *)
Definition exit_code (args : Args) (s : State) : nat :=
  match fst (main args s) with
  | Ok n => n
  | Raise _ => 1
  end.

End ReportGenerator.

(* ================================================================== *)
(** ** What the loader appends, as a function of the text *)

(** The blocks [add_para] appends for one paragraph group. *)
Definition para_blocks (para : string) : list Block :=
  let para := PyStr.strip para in
  if negb (PyStr.truthy para) then []
  else if is_bullet para
       then map (fun bullet => Paragraph bullet ListBullet) (bullets para)
       else [Paragraph para Normal].

(** The blocks [add_paragraphs] appends for a whole text. *)
Definition content_blocks (content : string) : list Block :=
  flat_map para_blocks (PyStr.split (PyStr.nl ++ PyStr.nl) content).

(** What appending [blocks] one after the other adds to the body, and how it
    ends: all of them when each is taken, else those before the first that is
    refused and the paragraph the refused call leaves behind. *)
Fixpoint rendered (blocks : list Block) : Outcome unit * list Block :=
  match blocks with
  | [] => (Ok tt, [])
  | b :: rest =>
      if Docx.accepts b
      then (fst (rendered rest), b :: snd (rendered rest))
      else (Raise ValueError, [Paragraph (Docx.written (Docx.block_text b)) Normal])
  end.

(** A text of white space only (the empty text included). *)
Fixpoint all_space (s : string) : bool :=
  match s with
  | EmptyString => true
  | String c s' => PyStr.is_space c && all_space s'
  end.

(** The parsing rule in the words of the specification: a group is a bullet
    list when every non-blank line of it starts with a [-] or [*] marker, the
    marker and the white space after it stripped from each item; any other
    group is one paragraph of the group's raw text. *)
Module Claimed.

Definition marked (line : string) : bool :=
  PyStr.startswith "-" line || PyStr.startswith "*" line.

Definition lines_of (group : string) : list string :=
  filter (fun line => PyStr.truthy (PyStr.strip line))
         (PyStr.split PyStr.nl group).

Definition is_bullet_list (group : string) : bool :=
  forallb (fun line => marked (PyStr.strip line)) (lines_of group).

Definition group_blocks (group : string) : list Block :=
  if is_bullet_list group
  then map (fun line =>
              Paragraph (PyStr.lstrip (PyStr.drop 1 (PyStr.strip line))) ListBullet)
           (lines_of group)
  else [Paragraph group Normal].

End Claimed.

(* ================================================================== *)
(** ** Predicates on the table and on the state *)

(** The guard of the data-derived insights: both columns, at least two rows
    in all, at least one row that is not the TOTALS row. *)
Definition data_derived (data : option DataFrame) : bool :=
  match data with
  | Some df =>
      has_Budgeted df && has_Remaining df
      && (1 <? List.length (rows df))%nat
      && (0 <? List.length (Analysis.non_total df))%nat
  | None => false
  end.

(** [m] keeps [I]: whatever [m] does from a state in [I], raising included,
    it ends in a state in [I]. *)
Definition keeps (I : State -> Prop) {A} (m : M A) : Prop :=
  forall s, I s -> I (snd (m s)).


(** [n] figures are open and the document exists. *)
Definition figures_at (n : nat) (s : State) : Prop :=
  open_figures s = n /\ document s <> None.


(* ================================================================== *)
(** ** Notions used to describe a run *)

(** A paragraph, plain or bullet. *)
Definition is_paragraph (b : Block) : bool :=
  match b with
  | Paragraph _ _ => true
  | _ => false
  end.

(** The text [add_markdown_content] renders for a section, if any: the
    stripped text of the file when there is some, else the default when there
    is one. *)
Definition merged_content (env : Env) (filename : string)
    (default_content : option string) : option string :=
  let fallback := if present default_content then default_content else None in
  match read_text env filename with
  | FileText content =>
      if PyStr.truthy (PyStr.strip content)
      then Some (PyStr.strip content)
      else fallback
  | _ => fallback
  end.

Definition merged_blocks (env : Env) (filename : string)
    (default_content : option string) : list Block :=
  match merged_content env filename default_content with
  | Some text => content_blocks text
  | None => []
  end.

(** The frame [add_budget_chart] plots: the table without its TOTALS row,
    or the whole table when nothing else is left. *)
Definition chart_frame (df : DataFrame) : DataFrame :=
  {| has_Task := has_Task df; has_Budgeted := has_Budgeted df;
     has_Remaining := has_Remaining df;
     has_Utilization := has_Utilization df;
     rows := if (List.length (Analysis.non_total df) =? 0)%nat
             then rows df else Analysis.non_total df |}.

(** What the chart section leaves after the description: the picture when
    the backend has no fault, the empty paragraph of [add_picture] when the
    image could not be read into it, and nothing when the failure came
    before. *)
Definition chart_blocks (fault : option ChartStage) : list Block :=
  match fault with
  | None => [Picture "budget_chart.png" chart_width]
  | Some AddPicture => [Paragraph "" Normal]
  | Some _ => []
  end.

(** [s'] differs from [s] in the document and in standard output at most. *)
Definition same_outside_document (s s' : State) : Prop :=
  excel_file s' = excel_file s /\ output_file s' = output_file s
  /\ data s' = data s /\ open_figures s' = open_figures s
  /\ saved s' = saved s /\ chart_files s' = chart_files s.

(** A text on one line. *)
Fixpoint no_newline (s : string) : bool :=
  match s with
  | EmptyString => true
  | String c s' =>
      if ascii_dec (ascii_of_nat 10) c then false else no_newline s'
  end.

(** A text without an empty line in it. *)
Fixpoint blank_free (s : string) : bool :=
  match s with
  | EmptyString => true
  | String c s' => negb (String.prefix (PyStr.nl ++ PyStr.nl) s) && blank_free s'
  end.

(** A sentence fit for a bullet: on one line, not empty, no white space at
    its end. *)
Definition plain_point (p : string) : Prop :=
  no_newline p = true /\ p <> "" /\ PyStr.rstrip p = p.

(** The table has no budget at all: the column is missing, or each of its
    cells is zero or missing. *)
Definition unbudgeted (df : DataFrame) : Prop :=
  has_Budgeted df = false
  \/ Forall (fun r => Budgeted r = 0%float \/ is_nan (Budgeted r) = true) (rows df).

(** The blocks of a report, section by section. *)
Definition report_layout (title : string) (intro : list Block)
    (summary : string) (header : list string) (body : list (list string))
    (findings description picture : list Block) : Document :=
  ([Heading title 0; Heading "Executive Summary" 1] ++ intro
   ++ [Heading "Budget Allocation Details" 1; Paragraph summary Normal;
       Table header body]
   ++ [Heading "Key Findings" 1] ++ findings
   ++ [Heading "Budget Visualization" 1] ++ description ++ picture)%list.

(** Two states that differ in standard output at most. *)
Definition same_but_stdout (s1 s2 : State) : Prop :=
  excel_file s1 = excel_file s2 /\ output_file s1 = output_file s2
  /\ document s1 = document s2 /\ data s1 = data s2
  /\ open_figures s1 = open_figures s2 /\ saved s1 = saved s2
  /\ chart_files s1 = chart_files s2.

(** Two programs that, from states differing in standard output at most,
    have the same outcome and end in states differing in standard output at
    most. *)
Definition agree {A} (p q : M A) : Prop :=
  forall t1 t2,
    same_but_stdout t1 t2 ->
    fst (p t1) = fst (q t2) /\ same_but_stdout (snd (p t1)) (snd (q t2)).

(** The command line with the verbose flag set or cleared. *)
Definition with_verbose (v : bool) (args : Args) : Args :=
  {| arg_input := arg_input args; arg_output := arg_output args;
     arg_verbose := v |}.

(** Since the state [ref] no file has been written, and the output path is
    the same. *)
Definition untouched (ref s : State) : Prop :=
  output_file s = output_file ref /\ saved s = saved ref
  /\ chart_files s = chart_files ref.

(** The body is [before] and then the table being filled; outside the
    document and standard output nothing has changed since [ref]. *)
Definition table_in_hand (before : Document) (ref s : State) : Prop :=
  (exists header body, document s = Some (before ++ [Table header body])%list)
  /\ same_outside_document ref s.

(** What a run may add to the chart files: nothing, or the image. *)
Definition chart_written (ref s : State) : Prop :=
  chart_files s = chart_files ref
  \/ chart_files s = ("budget_chart.png" :: chart_files ref)%list.

(** More worlds to run the program in. *)
Module Sample.

Definition no_task : DataFrame :=
  {| has_Task := false; has_Budgeted := true; has_Remaining := true;
     has_Utilization := false;
     rows := [row "" 1000 200; row "" 2000 500] |}.

Definition no_budget : DataFrame :=
  frame [row "Design" 0 200; row "Build" (0 / 0) 500].

Definition quiet : Env :=
  {| now := {| year := 2025; month := 1; day := 25;
               hour := 9; minute := 5; second := 7 |};
     path_exists := fun _ => false;
     read_text := fun _ => FileAbsent;
     read_excel := fun _ => ExcelNotFound;
     chart_fault := fun _ => None;
     save_fails := fun _ => false |}.

Definition with_table (df : DataFrame) : Env :=
  {| now := now quiet; path_exists := path_exists quiet;
     read_text := read_text quiet;
     read_excel := fun _ => ExcelFrame df;
     chart_fault := chart_fault quiet; save_fails := save_fails quiet |}.

Definition with_report (p : string) (env : Env) : Env :=
  {| now := now env;
     path_exists := fun q => String.eqb q p || path_exists env q;
     read_text := read_text env; read_excel := read_excel env;
     chart_fault := chart_fault env; save_fails := save_fails env |}.

Definition args : Args :=
  {| arg_input := "budget.xlsx"; arg_output := None; arg_verbose := false |}.

Definition loaded (df : DataFrame) : State :=
  with_data (Some df) (with_document (Some []) boot).

End Sample.

(* ================================================================== *)
(** ** Worlds to run the program in *)

Module World.

Definition clock : DateTime :=
  {| year := 2025; month := 1; day := 25;
     hour := 9; minute := 5; second := 7 |}.

(** An empty working directory, healthy backends, no input file. *)
Definition quiet : Env :=
  {| now := clock;
     path_exists := fun _ => false;
     read_text := fun _ => FileAbsent;
     read_excel := fun _ => ExcelNotFound;
     chart_fault := fun _ => None;
     save_fails := fun _ => false |}.

Definition with_excel (df : DataFrame) (env : Env) : Env :=
  {| now := now env; path_exists := path_exists env;
     read_text := read_text env;
     read_excel := fun _ => ExcelFrame df;
     chart_fault := chart_fault env; save_fails := save_fails env |}.

Definition with_file (file : string) (r : FileRead) (env : Env) : Env :=
  {| now := now env; path_exists := path_exists env;
     read_text := fun f => if String.eqb f file then r else read_text env f;
     read_excel := read_excel env;
     chart_fault := chart_fault env; save_fails := save_fails env |}.

Definition with_existing (present : string -> bool) (env : Env) : Env :=
  {| now := now env; path_exists := present;
     read_text := read_text env; read_excel := read_excel env;
     chart_fault := chart_fault env; save_fails := save_fails env |}.

Definition with_chart_fault (stage : ChartStage) (env : Env) : Env :=
  {| now := now env; path_exists := path_exists env;
     read_text := read_text env; read_excel := read_excel env;
     chart_fault := fun _ => Some stage; save_fails := save_fails env |}.

(** A generator whose document has just been created. *)
Definition blank_document : State := with_document (Some []) boot.

Definition scenario_A : DataFrame :=
  frame [row "Design" 1000 200; row "Build" 2000 500; row "TOTALS" 3000 700].

(** The default report of the day, and directories that already hold it. *)
Definition todays_report : Path.t :=
  Path.div "reports" "project_report_2025-01-25.docx".

Definition two_reports : Env :=
  with_existing
    (fun p => String.eqb p "reports/project_report_2025-01-25.docx"
              || String.eqb p "reports/project_report_2025-01-25_v2.docx")
    quiet.

Definition crowded : Env := with_existing (fun _ => true) quiet.

(** Scenario A with a chart backend that raises in [savefig]. *)
Definition broken_chart : Env :=
  with_chart_fault Savefig (with_excel scenario_A quiet).

(** One task and the totals row. *)
Definition one_task : DataFrame :=
  frame [row "Design" 1000 200; row "TOTALS" 1000 200].

(** Tasks that were given no budget. *)
Definition unfunded : DataFrame :=
  frame [row "Idle" 0 0; row "Refund" 0 50; row "Credit" 0 (-50);
         row "Build" 2000 500].


End World.

(* ================================================================== *)
(** ** Facts about the string helpers *)

Example python_strings :
  PyStr.split "ab" "1ab2abab3" = ["1"; "2"; ""; "3"]
  /\ PyStr.split "aa" "aaa" = [""; "a"]
  /\ PyStr.split "," "" = [""]
  /\ PyStr.strip (" a b " ++ PyStr.nl) = "a b"
  /\ PyStr.join ", " ["a"; "b"; "c"] = "a, b, c"
  /\ Path.stem (Path.div "reports" "a.b.docx") = "a.b"
  /\ Path.suffix (Path.div "reports" "a.b.docx") = ".docx"
  /\ Path.suffix (Path.div "reports" ".hidden") = ""
  /\ map (Path.join "reports")
         [""; "."; "./x"; "a//b/./c/"; "x/.."; "/abs/x"; "//abs"; "///abs"; "/"]
     = ["reports"; "reports"; "reports/x"; "reports/a/b/c"; "reports/x/..";
        "/abs/x"; "//abs"; "/abs"; "/"].
Proof. vm_compute; repeat split; reflexivity. Qed.

Example python_docx :
  let bell := String (ascii_of_nat 7) "" in
  Docx.xml_compatible ("a" ++ PyStr.nl ++ "b") = true
  /\ Docx.xml_compatible ("a" ++ bell ++ "b") = false
  /\ Docx.written ("a" ++ bell ++ "b") = ""
  /\ Docx.written ("ab" ++ PyStr.nl ++ "c" ++ bell ++ PyStr.nl ++ "d")
     = "ab" ++ PyStr.nl
  /\ rendered [Paragraph "a" Normal; Paragraph ("b" ++ bell) ListBullet;
               Paragraph "c" Normal]
     = (Raise ValueError, [Paragraph "a" Normal; Paragraph "" Normal])
  /\ Docx.row_cell 1 "x" (Docx.add_row 2 (Table ["h"; "k"] [["a"; "b"]]))
     = Table ["h"; "k"] [["a"; "b"]; [""; "x"]].
Proof. vm_compute; repeat split; reflexivity. Qed.

Example python_numbers :
  Num.format_f true 0 1234567.5%float = "1,234,568"
  /\ Num.format_f true 0 2.5%float = "2"
  /\ Num.format_f true 0 999%float = "999"
  /\ Num.format_f false 1 0.25%float = "0.2"
  /\ Num.format_f false 1 0.75%float = "0.8"
  /\ Num.format_f false 1 (-0.03125)%float = "-0.0"
  /\ Num.format_f true 2 1234.5%float = "1,234.50"
  /\ Num.format_f false 1 (Num.round 10 (230 / 3)%float) = "76.7"
  /\ Num.rint 2.5%float = 2%float
  /\ Num.rint (-3.5)%float = (-4)%float
  /\ Analysis.idxmax [1; 3; 3; 2]%float = Ok 1
  /\ Analysis.idxmin [1; 3; 1; 2]%float = Ok 0
  /\ Analysis.idxmax [nan; 2; nan]%float = Ok 1
  /\ Analysis.idxmax [nan; neg_infinity]%float = Ok 1
  /\ Analysis.idxmin [infinity; nan; 2]%float = Ok 2
  /\ Analysis.idxmax [nan; nan]%float = Raise ValueError
  /\ Analysis.cell_text 1234.5%float = Ok "1,234.50"
  /\ Analysis.cell_text 1234%float = Ok "1,234".
Proof. vm_compute; repeat split; reflexivity. Qed.

Lemma lstrip_all_space (s : string) :
  all_space s = true -> PyStr.lstrip s = "".
Proof.
  induction s as [|c s IH]; simpl; [reflexivity|].
  intros H; apply andb_prop in H as [Hc Hs].
  rewrite Hc; auto.
Qed.

Lemma strip_all_space (s : string) :
  all_space s = true -> PyStr.strip s = "".
Proof.
  intros H; unfold PyStr.strip; rewrite lstrip_all_space by exact H.
  reflexivity.
Qed.

Lemma lstrip_decompose (s : string) :
  exists pre, s = pre ++ PyStr.lstrip s /\ all_space pre = true.
Proof.
  induction s as [|c s [pre [E A]]]; simpl.
  - exists ""; split; reflexivity.
  - destruct (PyStr.is_space c) eqn:Hc.
    + exists (String c pre); simpl; rewrite Hc, A; split; [congruence | reflexivity].
    + exists ""; split; reflexivity.
Qed.

Lemma rstrip_decompose (s : string) :
  exists post, s = PyStr.rstrip s ++ post /\ all_space post = true.
Proof.
  induction s as [|c s [post [E A]]]; simpl.
  - exists ""; split; reflexivity.
  - destruct (PyStr.rstrip s) as [|c' r] eqn:Hr.
    + destruct (PyStr.is_space c) eqn:Hc.
      * exists (String c post); simpl in *; rewrite Hc, A.
        split; [congruence | reflexivity].
      * exists post; simpl in *; split; [congruence | exact A].
    + exists post; simpl in *; split; [congruence | exact A].
Qed.

(** [strip] removes nothing but white space around the text. *)
Lemma strip_decompose (s : string) :
  exists pre post,
    s = pre ++ PyStr.strip s ++ post
    /\ all_space pre = true /\ all_space post = true.
Proof.
  destruct (lstrip_decompose s) as [pre [E1 A1]].
  destruct (rstrip_decompose (PyStr.lstrip s)) as [post [E2 A2]].
  exists pre, post; unfold PyStr.strip.
  rewrite <- E2; auto.
Qed.

Lemma string_app_assoc (a b c : string) : (a ++ b) ++ c = a ++ b ++ c.
Proof. induction a as [|x a IH]; simpl; [reflexivity | rewrite IH; reflexivity]. Qed.

Lemma string_app_nil (s : string) : s ++ "" = s.
Proof. induction s as [|c s IH]; simpl; [reflexivity | rewrite IH; reflexivity]. Qed.

Lemma truthy_false (s : string) : PyStr.truthy s = false <-> s = "".
Proof. destruct s; simpl; split; congruence. Qed.

Lemma truthy_true (s : string) : PyStr.truthy s = true <-> s <> "".
Proof. destruct s; simpl; split; congruence. Qed.

(* ================================================================== *)
(** ** Running the document operations *)

Lemma with_document_idem (d d' : option Document) (s : State) :
  with_document d (with_document d' s) = with_document d s.
Proof. reflexivity. Qed.

Lemma with_document_same (s : State) : with_document (document s) s = s.
Proof. destruct s; reflexivity. Qed.

Lemma append_block_run (b : Block) (s : State) (d : Document) :
  document s = Some d ->
  append_block b s = (Ok tt, with_document (Some (d ++ [b])%list) s).
Proof.
  intros H; unfold append_block, bind, get; rewrite H; reflexivity.
Qed.

(** A text that is taken: the block is appended. *)
Lemma add_text_taken (text : string) (b : Block) (s : State) (d : Document) :
  document s = Some d ->
  Docx.xml_compatible text = true ->
  add_text text b s = (Ok tt, with_document (Some (d ++ [b])%list) s).
Proof.
  intros H Hx; unfold add_text; rewrite Hx; apply append_block_run; exact H.
Qed.

(** A text that is refused: [ValueError], and what was written of the
    paragraph stays in the body. *)
Lemma add_text_refused (text : string) (b : Block) (s : State) (d : Document) :
  document s = Some d ->
  Docx.xml_compatible text = false ->
  add_text text b s
  = (Raise ValueError,
     with_document (Some (d ++ [Paragraph (Docx.written text) Normal])%list) s).
Proof.
  intros H Hx; unfold add_text, bind; rewrite Hx.
  rewrite (append_block_run _ _ _ H); reflexivity.
Qed.

(** A call that returns has appended its block. *)
Lemma add_text_ok (text : string) (b : Block) (s s' : State) (d : Document) :
  document s = Some d ->
  add_text text b s = (Ok tt, s') ->
  s' = with_document (Some (d ++ [b])%list) s.
Proof.
  intros H; destruct (Docx.xml_compatible text) eqn:Hx.
  - rewrite (add_text_taken _ _ _ _ H Hx); congruence.
  - rewrite (add_text_refused _ _ _ _ H Hx); discriminate.
Qed.

Lemma rendered_taken (blocks : list Block) :
  forallb Docx.accepts blocks = true -> rendered blocks = (Ok tt, blocks).
Proof.
  induction blocks as [|b l IH]; cbn [forallb rendered]; [reflexivity|].
  intros H; apply andb_prop in H as [Hb Hl].
  rewrite Hb, (IH Hl); reflexivity.
Qed.

Lemma rendered_refused (blocks : list Block) :
  forallb Docx.accepts blocks = false -> fst (rendered blocks) = Raise ValueError.
Proof.
  induction blocks as [|b l IH]; cbn [forallb rendered]; [discriminate|].
  destruct (Docx.accepts b); cbn [andb fst]; [exact IH | reflexivity].
Qed.

Lemma rendered_app (l1 l2 : list Block) :
  rendered (l1 ++ l2)%list
  = match fst (rendered l1) with
    | Ok _ => (fst (rendered l2), (l1 ++ snd (rendered l2))%list)
    | Raise _ => rendered l1
    end.
Proof.
  induction l1 as [|b l1 IH]; cbn [app rendered fst].
  - destruct (rendered l2); reflexivity.
  - destruct (Docx.accepts b); cbn [fst snd]; [|reflexivity].
    rewrite IH; destruct (rendered l1) as [[[]|e] r1]; reflexivity.
Qed.

Lemma with_document_nil (s : State) (d : Document) :
  document s = Some d -> with_document (Some (d ++ [])%list) s = s.
Proof. intros H; rewrite app_nil_r; destruct s; cbn in *; subst; reflexivity. Qed.

Lemma for_each_add_paragraph (st : Style) (l : list string) :
  forall (s : State) (d : Document),
    document s = Some d ->
    for_each l (fun b => add_paragraph b st) s
    = (fst (rendered (map (fun b => Paragraph b st) l)),
       with_document
         (Some (d ++ snd (rendered (map (fun b => Paragraph b st) l)))%list) s).
Proof.
  induction l as [|b l IH]; intros s d H; cbn [for_each map rendered].
  - cbn [fst snd]; rewrite (with_document_nil _ _ H); reflexivity.
  - unfold bind, add_paragraph, Docx.accepts; cbn [Docx.block_text].
    destruct (Docx.xml_compatible b) eqn:Hx.
    + rewrite (add_text_taken _ _ _ _ H Hx).
      rewrite (IH _ (d ++ [Paragraph b st])%list) by reflexivity.
      cbn [fst snd]; rewrite with_document_idem, <- app_assoc; reflexivity.
    + rewrite (add_text_refused _ _ _ _ H Hx); reflexivity.
Qed.

Lemma add_para_run (para : string) (s : State) (d : Document) :
  document s = Some d ->
  add_para para s
  = (fst (rendered (para_blocks para)),
     with_document (Some (d ++ snd (rendered (para_blocks para)))%list) s).
Proof.
  intros H; unfold add_para, para_blocks.
  destruct (negb (PyStr.truthy (PyStr.strip para))).
  - cbn [rendered fst snd]; rewrite (with_document_nil _ _ H); reflexivity.
  - destruct (is_bullet (PyStr.strip para)).
    + apply for_each_add_paragraph; exact H.
    + apply (for_each_add_paragraph Normal [PyStr.strip para] s d) in H.
      cbn [for_each map] in H; unfold bind, ret in H.
      destruct (add_paragraph (PyStr.strip para) Normal s) as [[[]|e] s1];
        exact H.
Qed.

Lemma add_paragraphs_run (content : string) (s : State) (d : Document) :
  document s = Some d ->
  add_paragraphs content s
  = (fst (rendered (content_blocks content)),
     with_document (Some (d ++ snd (rendered (content_blocks content)))%list) s).
Proof.
  unfold add_paragraphs, content_blocks.
  generalize (PyStr.split (PyStr.nl ++ PyStr.nl) content) as groups.
  intros groups; revert s d.
  induction groups as [|g groups IH]; intros s d H; cbn [for_each flat_map].
  - cbn [rendered fst snd]; rewrite (with_document_nil _ _ H); reflexivity.
  - unfold bind; rewrite (add_para_run _ _ _ H), rendered_app.
    destruct (rendered (para_blocks g)) as [[[]|e] r] eqn:Hg; cbn [fst snd].
    + assert (r = para_blocks g) as ->.
      { destruct (forallb Docx.accepts (para_blocks g)) eqn:Ha.
        - rewrite (rendered_taken _ Ha) in Hg; congruence.
        - apply rendered_refused in Ha; rewrite Hg in Ha; discriminate. }
      rewrite (IH _ (d ++ para_blocks g)%list) by reflexivity.
      rewrite with_document_idem, <- app_assoc; reflexivity.
    + reflexivity.
Qed.

Lemma xml_compatible_app (a b : string) :
  Docx.xml_compatible (a ++ b)
  = Docx.xml_compatible a && Docx.xml_compatible b.
Proof.
  induction a as [|c a IH]; cbn [append Docx.xml_compatible]; [reflexivity|].
  rewrite IH, andb_assoc; reflexivity.
Qed.

Lemma xml_compatible_uint (u : Decimal.uint) :
  Docx.xml_compatible (NilEmpty.string_of_uint u) = true.
Proof. induction u; cbn; auto. Qed.

Lemma xml_compatible_pad (w n : nat) :
  Docx.xml_compatible (Strftime.pad w n) = true.
Proof.
  unfold Strftime.pad, PyStr.zfill, PyStr.of_nat.
  rewrite xml_compatible_app, xml_compatible_uint, andb_true_r.
  induction (w - _) as [|k IH]; cbn; auto.
Qed.

(** The date of the title and of the introduction is always taken. *)
Lemma xml_compatible_BdY (d : DateTime) :
  Docx.xml_compatible (Strftime.BdY d) = true.
Proof.
  unfold Strftime.BdY.
  rewrite !xml_compatible_app, !xml_compatible_pad, !andb_true_r.
  unfold Strftime.month_name.
  generalize (month d - 1); intros m.
  do 13 (destruct m as [|m]; [reflexivity|]).
  destruct m; reflexivity.
Qed.

(** [create_document] always returns: the document is the title. *)
Lemma create_document_run (env : Env) (s : State) :
  create_document env s
  = (Ok tt,
     with_stdout (stdout s ++ [MsgDocumentInitialized])%list
       (with_document
          (Some [Heading ("Budget Report - " ++ Strftime.BdY (now env)) 0]) s)).
Proof.
  unfold create_document, bind, set_document, modify, add_heading.
  cbv beta iota.
  rewrite (add_text_taken _ _ (with_document (Some []) s) [] eq_refl)
    by (rewrite xml_compatible_app, xml_compatible_BdY; reflexivity).
  destruct s; reflexivity.
Qed.

(** The loader on texts that are all taken. *)
Lemma add_paragraphs_taken (content : string) (s : State) (d : Document) :
  document s = Some d ->
  forallb Docx.accepts (content_blocks content) = true ->
  add_paragraphs content s
  = (Ok tt, with_document (Some (d ++ content_blocks content)%list) s).
Proof.
  intros H Ha; rewrite (add_paragraphs_run _ _ _ H), (rendered_taken _ Ha).
  reflexivity.
Qed.

Lemma add_paragraphs_refused (content : string) (s : State) (d : Document) :
  document s = Some d ->
  forallb Docx.accepts (content_blocks content) = false ->
  fst (add_paragraphs content s) = Raise ValueError.
Proof.
  intros H Ha; rewrite (add_paragraphs_run _ _ _ H); cbn [fst].
  apply rendered_refused; exact Ha.
Qed.

(* ================================================================== *)
(** ** ContentLoader: overrides, defaults and the markdown subset *)

Lemma read_markdown_file_text (env : Env) (filename content : string) (s : State) :
  read_text env filename = FileText content ->
  read_markdown_file env filename s = (Ok (Some (PyStr.strip content)), s).
Proof.
  intros H; unfold read_markdown_file, try_except; rewrite H; reflexivity.
Qed.

Lemma read_markdown_file_missing (env : Env) (filename : string) (s : State) :
  read_text env filename = FileAbsent \/ read_text env filename = FileUnreadable ->
  exists msg,
    (msg = MsgNotFound filename \/ msg = MsgReadError filename)
    /\ read_markdown_file env filename s
       = (Ok None, with_stdout (stdout s ++ [msg])%list s).
Proof.
  intros [H|H]; unfold read_markdown_file, try_except; rewrite H.
  - exists (MsgNotFound filename); split; [left|]; reflexivity.
  - exists (MsgReadError filename); split; [right|]; reflexivity.
Qed.

(** C5 (as the code has it): a non-blank paragraph group is rendered as
    bullets exactly when its stripped text starts with "- " or "* ", that is
    when its first line is a bullet; then one List Bullet paragraph is
    appended for each line whose stripped text starts with "- " or "* ", the
    first two characters removed, and the other lines of the group are left
    out.  Any other group is appended as one paragraph holding the stripped
    raw text of the group, which is the group without the white space around
    it, inner newlines kept.  This is what is appended when python-docx takes
    each of these texts; when one of them has a control character the call
    ends in [ValueError] and nothing is saved by it. *)
Theorem paragraph_group_rendering (para : string) (s : State) (d : Document) :
  document s = Some d ->
  PyStr.strip para <> "" ->
  exists blocks : list Block,
    (if is_bullet (PyStr.strip para)
     then blocks
          = map (fun line => Paragraph (PyStr.drop 2 (PyStr.strip line)) ListBullet)
                (filter (fun line => is_bullet (PyStr.strip line))
                        (PyStr.split PyStr.nl (PyStr.strip para)))
     else blocks = [Paragraph (PyStr.strip para) Normal])
    /\ (forallb Docx.accepts blocks = true ->
        add_para para s = (Ok tt, with_document (Some (d ++ blocks)%list) s))
    /\ (forallb Docx.accepts blocks = false ->
        exists s', add_para para s = (Raise ValueError, s') /\ saved s' = saved s)
    /\ exists pre post,
         para = pre ++ PyStr.strip para ++ post
         /\ all_space pre = true /\ all_space post = true.
Proof.
  intros Hd Hne.
  exists (para_blocks para); split; [|split; [|split]].
  - unfold para_blocks.
    apply truthy_true in Hne; rewrite Hne; cbn [negb].
    destruct (is_bullet (PyStr.strip para)); [|reflexivity].
    unfold bullets; rewrite map_map; reflexivity.
  - intros Ha; rewrite (add_para_run _ _ _ Hd), (rendered_taken _ Ha).
    reflexivity.
  - intros Ha; rewrite (add_para_run _ _ _ Hd), (rendered_refused _ Ha).
    eexists; split; [reflexivity | destruct s; reflexivity].
  - apply strip_decompose.
Qed.

Lemma paragraph_group_rendering_witness :
  add_para ("  - a" ++ PyStr.nl ++ "b" ++ PyStr.nl ++ "* c ") World.blank_document
  = (Ok tt, with_document (Some [Paragraph "a" ListBullet; Paragraph "c" ListBullet])
                          World.blank_document)
  /\ add_para ("a" ++ PyStr.nl ++ "- b ") World.blank_document
     = (Ok tt, with_document
                 (Some [Paragraph ("a" ++ PyStr.nl ++ "- b") Normal])
                 World.blank_document)
  /\ fst (add_para ("a" ++ String (ascii_of_nat 1) "b") World.blank_document)
     = Raise ValueError.
Proof.
  split; [|split].
  - destruct (paragraph_group_rendering
                ("  - a" ++ PyStr.nl ++ "b" ++ PyStr.nl ++ "* c ")
                World.blank_document [] eq_refl)
      as [blocks [Hblocks [Hrun _]]]; [vm_compute; discriminate|].
    vm_compute in Hblocks; subst blocks; exact (Hrun eq_refl).
  - destruct (paragraph_group_rendering
                ("a" ++ PyStr.nl ++ "- b ")
                World.blank_document [] eq_refl)
      as [blocks [Hblocks [Hrun _]]]; [vm_compute; discriminate|].
    vm_compute in Hblocks; subst blocks; exact (Hrun eq_refl).
  - destruct (paragraph_group_rendering
                ("a" ++ String (ascii_of_nat 1) "b")
                World.blank_document [] eq_refl)
      as [blocks [Hblocks [_ [Hrun _]]]]; [vm_compute; discriminate|].
    vm_compute in Hblocks; subst blocks.
    destruct (Hrun eq_refl) as [s' [H _]]; rewrite H; reflexivity.
Defined.

(** C5 (as stated): the group "- a / b" mixes a bullet line and a plain
    line, so by the stated rule it is one paragraph of its raw text; the
    loader appends the single bullet "a" and the line "b" is gone. *)
Lemma mixed_group_is_not_a_paragraph :
  let group := "- a" ++ PyStr.nl ++ "b" in
  Claimed.is_bullet_list group = false
  /\ Claimed.group_blocks group = [Paragraph group Normal]
  /\ add_para group World.blank_document
     = (Ok tt, with_document (Some [Paragraph "a" ListBullet]) World.blank_document)
  /\ document (snd (add_para group World.blank_document))
     <> Some (Claimed.group_blocks group).
Proof.
  cbv zeta; repeat split; try (vm_compute; reflexivity).
  vm_compute; discriminate.
Qed.

(** C9: when the override file holds text that is not empty once stripped,
    the blocks of that text are what goes to the document, whatever the
    default: they are appended, or the call ends in [ValueError] when
    python-docx refuses one of their texts, and the default is not used in
    either case.  When the file is absent or cannot be read, reading it
    raises nothing, leaves one line on standard output and returns [None],
    and the blocks of the default are what goes to the document in the same
    way. *)
Theorem override_wins_else_default
    (env : Env) (filename : string) (default_content : option string)
    (s : State) (d : Document) :
  document s = Some d ->
  (forall content,
      read_text env filename = FileText content ->
      PyStr.strip content <> "" ->
      let blocks := content_blocks (PyStr.strip content) in
      (forallb Docx.accepts blocks = true ->
       add_markdown_content env filename default_content s
       = (Ok tt, with_document (Some (d ++ blocks)%list) s))
      /\ (forallb Docx.accepts blocks = false ->
          add_markdown_content env filename default_content s
          = (Raise ValueError,
             with_document (Some (d ++ snd (rendered blocks))%list) s)))
  /\ (read_text env filename = FileAbsent
      \/ read_text env filename = FileUnreadable ->
      exists msg,
        (msg = MsgNotFound filename \/ msg = MsgReadError filename)
        /\ read_markdown_file env filename s
           = (Ok None, with_stdout (stdout s ++ [msg])%list s)
        /\ forall text,
             default_content = Some text -> text <> "" ->
             let blocks := content_blocks text in
             (forallb Docx.accepts blocks = true ->
              add_markdown_content env filename default_content s
              = (Ok tt,
                 with_document (Some (d ++ blocks)%list)
                   (with_stdout (stdout s ++ [msg])%list s)))
             /\ (forallb Docx.accepts blocks = false ->
                 add_markdown_content env filename default_content s
                 = (Raise ValueError,
                    with_document (Some (d ++ snd (rendered blocks))%list)
                      (with_stdout (stdout s ++ [msg])%list s)))).
Proof.
  intros Hd; split.
  - intros content Hread Hne; cbv zeta.
    assert (E : add_markdown_content env filename default_content s
                = add_paragraphs (PyStr.strip content) s).
    { unfold add_markdown_content, bind.
      rewrite (read_markdown_file_text _ _ _ _ Hread).
      apply truthy_true in Hne; cbn [present]; rewrite Hne; reflexivity. }
    rewrite E, (add_paragraphs_run _ _ _ Hd).
    split; intros Ha;
      [rewrite (rendered_taken _ Ha) | rewrite (rendered_refused _ Ha)];
      reflexivity.
  - intros Hmiss.
    destruct (read_markdown_file_missing env filename s Hmiss) as [msg [Hmsg Hrun]].
    exists msg; split; [exact Hmsg|]; split; [exact Hrun|].
    intros text -> Hne; cbv zeta.
    assert (E : add_markdown_content env filename (Some text) s
                = add_paragraphs text (with_stdout (stdout s ++ [msg])%list s)).
    { unfold add_markdown_content, bind; rewrite Hrun.
      apply truthy_true in Hne; cbn [present negb andb]; rewrite Hne; reflexivity. }
    rewrite E, (add_paragraphs_run _ _ d) by (destruct s; exact Hd).
    split; intros Ha;
      [rewrite (rendered_taken _ Ha) | rewrite (rendered_refused _ Ha)];
      reflexivity.
Qed.

Lemma override_wins_else_default_witness :
  add_markdown_content
    (World.with_file "introduction.md" (FileText (" - mine" ++ PyStr.nl)) World.quiet)
    "introduction.md" (Some "theirs") World.blank_document
  = (Ok tt, with_document (Some [Paragraph "mine" ListBullet]) World.blank_document)
  /\ (exists msg,
        read_markdown_file
          (World.with_file "introduction.md" FileUnreadable World.quiet)
          "introduction.md" World.blank_document
        = (Ok None, with_stdout [msg] World.blank_document)
        /\ add_markdown_content
             (World.with_file "introduction.md" FileUnreadable World.quiet)
             "introduction.md" (Some "theirs") World.blank_document
           = (Ok tt,
              with_document (Some [Paragraph "theirs" Normal])
                (with_stdout [msg] World.blank_document)))
  /\ add_markdown_content
       (World.with_file "introduction.md"
          (FileText ("mine" ++ String (ascii_of_nat 1) "")) World.quiet)
       "introduction.md" (Some "theirs") World.blank_document
     = (Raise ValueError,
        with_document (Some [Paragraph "" Normal]) World.blank_document).
Proof.
  split; [|split].
  - apply (proj1 (override_wins_else_default
                    (World.with_file "introduction.md"
                       (FileText (" - mine" ++ PyStr.nl)) World.quiet)
                    "introduction.md" (Some "theirs") World.blank_document []
                    eq_refl)
                 (" - mine" ++ PyStr.nl)).
    + reflexivity.
    + vm_compute; discriminate.
    + reflexivity.
  - destruct (proj2 (override_wins_else_default
                       (World.with_file "introduction.md" FileUnreadable World.quiet)
                       "introduction.md" (Some "theirs") World.blank_document []
                       eq_refl))
      as [msg [_ [Hread Hadd]]]; [right; reflexivity|].
    exists msg; split; [exact Hread|].
    apply (Hadd "theirs" eq_refl); [discriminate | reflexivity].
  - apply (proj1 (override_wins_else_default
                    (World.with_file "introduction.md"
                       (FileText ("mine" ++ String (ascii_of_nat 1) ""))
                       World.quiet)
                    "introduction.md" (Some "theirs") World.blank_document []
                    eq_refl)
                 ("mine" ++ String (ascii_of_nat 1) "")).
    + reflexivity.
    + vm_compute; discriminate.
    + reflexivity.
Defined.

(** C10: an override file of white space only is read as the empty text,
    which is dropped: the blocks of the default are what goes to the
    document if there is a default (appended, or [ValueError] when
    python-docx refuses one of their texts), and nothing is appended
    otherwise.  The outcome and the document are those of a run where the
    file is absent. *)
Theorem blank_override_is_absent
    (env : Env) (filename content : string)
    (default_content : option string) (s : State) (d : Document) :
  read_text env filename = FileText content ->
  all_space content = true ->
  document s = Some d ->
  read_markdown_file env filename s = (Ok (Some ""), s)
  /\ (forall text,
        default_content = Some text -> text <> "" ->
        let blocks := content_blocks text in
        (forallb Docx.accepts blocks = true ->
         add_markdown_content env filename default_content s
         = (Ok tt, with_document (Some (d ++ blocks)%list) s))
        /\ (forallb Docx.accepts blocks = false ->
            add_markdown_content env filename default_content s
            = (Raise ValueError,
               with_document (Some (d ++ snd (rendered blocks))%list) s)))
  /\ (default_content = None \/ default_content = Some "" ->
      add_markdown_content env filename default_content s = (Ok tt, s))
  /\ (forall env',
        read_text env' filename = FileAbsent ->
        fst (add_markdown_content env filename default_content s)
        = fst (add_markdown_content env' filename default_content s)
        /\ document (snd (add_markdown_content env filename default_content s))
           = document (snd (add_markdown_content env' filename default_content s))).
Proof.
  intros Hread Hblank Hd.
  assert (Hrun : read_markdown_file env filename s = (Ok (Some ""), s)).
  { rewrite (read_markdown_file_text _ _ _ _ Hread), (strip_all_space _ Hblank).
    reflexivity. }
  assert (Hadd : add_markdown_content env filename default_content s
                 = (if present default_content
                    then match default_content with
                         | Some text => add_paragraphs text s
                         | None => (Ok tt, s)
                         end
                    else (Ok tt, s))).
  { unfold add_markdown_content, bind; rewrite Hrun; cbn [present PyStr.truthy negb andb].
    destruct default_content as [text|]; cbn [present]; [|reflexivity].
    destruct (PyStr.truthy text); reflexivity. }
  split; [exact Hrun|]; split; [|split].
  - intros text -> Hne; cbv zeta; rewrite Hadd.
    apply truthy_true in Hne; cbn [present]; rewrite Hne.
    rewrite (add_paragraphs_run _ _ _ Hd).
    split; intros Ha;
      [rewrite (rendered_taken _ Ha) | rewrite (rendered_refused _ Ha)];
      reflexivity.
  - intros [-> | ->]; rewrite Hadd; reflexivity.
  - intros env' Habsent.
    assert (Hadd' : add_markdown_content env' filename default_content s
                    = (if present default_content
                       then match default_content with
                            | Some text =>
                                add_paragraphs text
                                  (with_stdout (stdout s ++ [MsgNotFound filename])%list s)
                            | None =>
                                (Ok tt, with_stdout (stdout s ++ [MsgNotFound filename])%list s)
                            end
                       else (Ok tt, with_stdout (stdout s ++ [MsgNotFound filename])%list s))).
    { unfold add_markdown_content, bind, read_markdown_file, try_except.
      rewrite Habsent; cbn [present negb andb].
      destruct default_content as [text|]; cbn [present]; [|reflexivity].
      destruct (PyStr.truthy text); reflexivity. }
    rewrite Hadd, Hadd'.
    destruct (present default_content); [|split; reflexivity].
    destruct default_content as [text|]; [|split; reflexivity].
    rewrite (add_paragraphs_run text s d Hd).
    rewrite (add_paragraphs_run text
               (with_stdout (stdout s ++ [MsgNotFound filename])%list s) d)
      by (destruct s; exact Hd).
    split; reflexivity.
Qed.

Lemma blank_override_is_absent_witness :
  add_markdown_content
    (World.with_file "introduction.md"
       (FileText ("  " ++ PyStr.nl ++ PyStr.nl)) World.quiet)
    "introduction.md" (Some "theirs") World.blank_document
  = (Ok tt, with_document (Some [Paragraph "theirs" Normal]) World.blank_document)
  /\ add_markdown_content
       (World.with_file "introduction.md"
          (FileText ("  " ++ PyStr.nl ++ PyStr.nl)) World.quiet)
       "introduction.md" None World.blank_document
     = (Ok tt, World.blank_document).
Proof.
  split.
  - apply (proj1 (proj2 (blank_override_is_absent
             (World.with_file "introduction.md"
                (FileText ("  " ++ PyStr.nl ++ PyStr.nl)) World.quiet)
             "introduction.md" ("  " ++ PyStr.nl ++ PyStr.nl)
             (Some "theirs") World.blank_document []
             eq_refl eq_refl eq_refl)) "theirs" eq_refl);
      [discriminate | reflexivity].
  - apply (proj1 (proj2 (proj2 (blank_override_is_absent
             (World.with_file "introduction.md"
                (FileText ("  " ++ PyStr.nl ++ PyStr.nl)) World.quiet)
             "introduction.md" ("  " ++ PyStr.nl ++ PyStr.nl)
             None World.blank_document []
             eq_refl eq_refl eq_refl)))).
    left; reflexivity.
Defined.

(* ================================================================== *)
(** ** FileNamer *)

Section FileNamer.

Variable env : Env.
Variable base : Path.t.

Let present (p : Path.t) : bool := path_exists env (Path.str p).

Lemma probe_first_free (k : nat) (s : State) :
  k <= 100 ->
  present (versioned base k) = false ->
  forall fuel counter,
    counter <= k ->
    100 < counter + fuel ->
    (forall j, counter <= j < k -> present (versioned base j) = true) ->
    probe env fuel base counter s
    = (Ok (versioned base k),
       with_stdout (stdout s ++ [MsgNewVersion (Path.name (versioned base k))])%list s).
Proof.
  intros Hk Hfree; induction fuel as [|fuel IH]; intros counter Hle Hfuel Hbusy.
  - lia.
  - cbn [probe]; fold (present (versioned base counter)).
    destruct (Nat.eq_dec counter k) as [->|Hne].
    + rewrite Hfree; reflexivity.
    + rewrite Hbusy by lia; cbn [negb].
      destruct (Nat.ltb_spec 100 (counter + 1)); [lia|].
      apply IH; [lia | lia |].
      intros j Hj; apply Hbusy; lia.
Qed.

Lemma probe_all_taken (s : State) :
  forall fuel counter,
    counter <= 100 ->
    100 < counter + fuel ->
    (forall j, counter <= j <= 100 -> present (versioned base j) = true) ->
    probe env fuel base counter s = (Ok (timestamped env base), s).
Proof.
  induction fuel as [|fuel IH]; intros counter Hle Hfuel Hbusy.
  - lia.
  - cbn [probe]; fold (present (versioned base counter)).
    rewrite Hbusy by lia; cbn [negb].
    destruct (Nat.ltb_spec 100 (counter + 1)); [reflexivity|].
    apply IH; [lia | lia |].
    intros j Hj; apply Hbusy; lia.
Qed.

(** The loop ends within its 99 rounds, on a free name or on the
    time-stamped one. *)
Lemma probe_total (s : State) :
  forall fuel counter,
    counter <= 100 ->
    100 < counter + fuel ->
    exists p s',
      probe env fuel base counter s = (Ok p, s')
      /\ (present p = false \/ p = timestamped env base).
Proof.
  induction fuel as [|fuel IH]; intros counter Hle Hfuel.
  - lia.
  - cbn [probe]; fold (present (versioned base counter)).
    destruct (present (versioned base counter)) eqn:Hp; cbn [negb].
    + destruct (Nat.ltb_spec 100 (counter + 1)).
      * exists (timestamped env base), s; split; [reflexivity | right; reflexivity].
      * apply IH; lia.
    + eexists _, _; split; [reflexivity | left; exact Hp].
Qed.

End FileNamer.

(** The resolver always returns, with a path that does not exist or with the
    time-stamped one. *)
Lemma unique_filename_total (env : Env) (base : Path.t) (s : State) :
  exists p s',
    _get_unique_filename env base s = (Ok p, s')
    /\ (path_exists env (Path.str p) = false \/ p = timestamped env base).
Proof.
  unfold _get_unique_filename.
  destruct (path_exists env (Path.str base)) eqn:Hb; cbn [negb].
  - apply probe_total; lia.
  - exists base, s; split; [reflexivity | left; exact Hb].
Qed.

(** C7: the resolver returns the base path itself when nothing exists there;
    when it exists, the first of stem_v2.ext, stem_v3.ext, ..., stem_v100.ext
    that does not exist; and when the base path and all those 99 candidates
    exist (100 failed probes), the name stem_HHMMSS.ext made from the hour,
    minute and second of the clock. *)
Theorem unique_filename_resolution (env : Env) (base : Path.t) (s : State) :
  (path_exists env (Path.str base) = false ->
   _get_unique_filename env base s = (Ok base, s))
  /\ (path_exists env (Path.str base) = true ->
      forall k, 2 <= k <= 100 ->
        (forall j, 2 <= j < k ->
           path_exists env (Path.str (versioned base j)) = true) ->
        path_exists env (Path.str (versioned base k)) = false ->
        fst (_get_unique_filename env base s)
        = Ok (Path.div (Path.parent base)
                (Path.stem base ++ "_v" ++ PyStr.of_nat k ++ Path.suffix base)))
  /\ (path_exists env (Path.str base) = true ->
      (forall j, 2 <= j <= 100 ->
         path_exists env (Path.str (versioned base j)) = true) ->
      _get_unique_filename env base s
      = (Ok (Path.div (Path.parent base)
               (Path.stem base ++ "_"
                ++ PyStr.zfill 2 (PyStr.of_nat (hour (now env)))
                ++ PyStr.zfill 2 (PyStr.of_nat (minute (now env)))
                ++ PyStr.zfill 2 (PyStr.of_nat (second (now env)))
                ++ Path.suffix base)), s)).
Proof.
  unfold _get_unique_filename; repeat split.
  - intros ->; reflexivity.
  - intros -> k Hk Hbusy Hfree; cbn [negb].
    rewrite (probe_first_free env base k s) by (try assumption; lia).
    reflexivity.
  - intros -> Hbusy; cbn [negb].
    rewrite (probe_all_taken env base s) by (try assumption; lia).
    unfold timestamped, Strftime.HMS, Strftime.pad.
    rewrite !string_app_assoc; reflexivity.
Qed.

Lemma unique_filename_resolution_witness :
  _get_unique_filename World.quiet World.todays_report boot
  = (Ok World.todays_report, boot)
  /\ fst (_get_unique_filename World.two_reports World.todays_report boot)
     = Ok (Path.div "reports" "project_report_2025-01-25_v3.docx")
  /\ _get_unique_filename World.crowded World.todays_report boot
     = (Ok (Path.div "reports" "project_report_2025-01-25_090507.docx"), boot).
Proof.
  split; [|split].
  - apply (proj1 (unique_filename_resolution World.quiet World.todays_report boot)).
    reflexivity.
  - apply (proj1 (proj2 (unique_filename_resolution
                           World.two_reports World.todays_report boot))
                 eq_refl 3).
    + lia.
    + intros j Hj; assert (j = 2) as -> by lia; reflexivity.
    + reflexivity.
  - apply (proj2 (proj2 (unique_filename_resolution
                           World.crowded World.todays_report boot))).
    + reflexivity.
    + intros j _; reflexivity.
Defined.

Lemma prefix_slash (c : ascii) (s : string) :
  String.prefix "/" (String c s) = if ascii_dec "/" c then true else false.
Proof.
  cbn [String.prefix]; destruct (ascii_dec "/" c); [destruct s|]; reflexivity.
Qed.

Lemma split_go_slash_plain (a cur : string) :
  Path.no_slash a = true ->
  PyStr.split_go "/" a 0 cur = [cur ++ a].
Proof.
  revert cur; induction a as [|c a IH]; intros cur H.
  - cbn [PyStr.split_go]; rewrite string_app_nil; reflexivity.
  - cbn [Path.no_slash] in H; cbn [PyStr.split_go]; rewrite prefix_slash.
    destruct (ascii_dec "/" c); [discriminate|].
    rewrite IH by exact H.
    rewrite string_app_assoc; reflexivity.
Qed.

(** A plain file name is put under the directory as it is. *)
Lemma join_plain (dir file : string) :
  Path.plain file = true -> Path.join dir file = dir ++ "/" ++ file.
Proof.
  unfold Path.plain; intros H.
  apply andb_prop in H as [H Hdot]; apply andb_prop in H as [Hslash Hempty].
  unfold Path.join, Path.parts, PyStr.split, PyStr.startswith.
  rewrite (split_go_slash_plain file "" Hslash); cbn [append filter].
  rewrite Hempty, Hdot; cbn [andb PyStr.join].
  destruct file as [|c file]; [discriminate|].
  rewrite prefix_slash; cbn [Path.no_slash] in Hslash.
  destruct (ascii_dec "/" c); [discriminate | reflexivity].
Qed.

(** An absolute name stays absolute: the directory is dropped. *)
Lemma join_absolute (dir file : string) :
  PyStr.startswith "/" file = true ->
  PyStr.startswith "/" (Path.join dir file) = true.
Proof.
  intros H; unfold Path.join, Path.root; rewrite H.
  destruct (_ && _); cbn [append]; unfold PyStr.startswith; rewrite prefix_slash;
    reflexivity.
Qed.

(** C4 (as the code has it): a caller-supplied name gets no versioning: it
    is joined to the reports directory as pathlib joins paths, so a plain
    file name is placed in reports under that very name and an absolute name
    stays the absolute path it is; only the default name
    project_report_<date>.docx goes through the resolver, and the path chosen
    for it does not exist, unless it is the time-stamped fallback. *)
Theorem output_path_choice (env : Env) (excel : string) (s : State) :
  (forall file,
     exists s',
       __init__ env excel (Some file) s = (Ok tt, s')
       /\ output_file s' = Path.join "reports" file
       /\ (Path.plain file = true -> output_file s' = "reports/" ++ file)
       /\ (PyStr.startswith "/" file = true ->
           PyStr.startswith "/" (output_file s') = true))
  /\ (exists p s1 s',
        let base :=
          Path.div "reports"
            ("project_report_" ++ Strftime.Ymd (now env) ++ ".docx") in
        _get_unique_filename env base s = (Ok p, s1)
        /\ __init__ env excel None s = (Ok tt, s')
        /\ output_file s' = Path.str p
        /\ (path_exists env (Path.str p) = false \/ p = timestamped env base)).
Proof.
  split.
  - intros file; eexists; split; [reflexivity|]; cbn [output_file].
    split; [reflexivity|]; split.
    + intros H; rewrite (join_plain _ _ H); reflexivity.
    + apply join_absolute.
  - cbv zeta.
    set (base := Path.div "reports"
                   ("project_report_" ++ Strftime.Ymd (now env) ++ ".docx")).
    destruct (unique_filename_total env base s) as [p [s1 [Hrun Hfree]]].
    exists p, s1; eexists; repeat split.
    + exact Hrun.
    + unfold __init__, bind; fold reports_dir in base; fold base.
      rewrite Hrun; reflexivity.
    + reflexivity.
    + exact Hfree.
Qed.

Lemma output_path_choice_witness :
  output_file (snd (__init__ World.quiet "budget.xlsx" (Some "final.docx") boot))
  = "reports/final.docx"
  /\ PyStr.startswith "/"
       (output_file
          (snd (__init__ World.quiet "budget.xlsx" (Some "/tmp/abs_report.docx") boot)))
     = true.
Proof.
  split.
  - destruct (proj1 (output_path_choice World.quiet "budget.xlsx" boot) "final.docx")
      as [s' [Hrun [_ [Hplain _]]]].
    rewrite Hrun; apply Hplain; reflexivity.
  - destruct (proj1 (output_path_choice World.quiet "budget.xlsx" boot)
                "/tmp/abs_report.docx")
      as [s' [Hrun [_ [_ Habs]]]].
    rewrite Hrun; apply Habs; reflexivity.
Defined.

(** C4 (as stated): the caller names the report final.docx and
    reports/final.docx exists; the chosen path is that very file, and the run
    saves the new document over it. *)
Lemma supplied_name_is_not_versioned :
  let env :=
    World.with_excel World.scenario_A
      (World.with_existing (fun p => String.eqb p "reports/final.docx") World.quiet) in
  let args := {| arg_input := "budget.xlsx"; arg_output := Some "final.docx";
                 arg_verbose := false |} in
  output_file (snd (__init__ env "budget.xlsx" (Some "final.docx") boot))
  = "reports/final.docx"
  /\ path_exists env "reports/final.docx" = true
  /\ fst (main env args boot) = Ok 0
  /\ map fst (saved (snd (main env args boot))) = ["reports/final.docx"].
Proof. vm_compute; repeat split; reflexivity. Qed.

(* ================================================================== *)
(** ** Properties of the state that the sections of the report keep *)

Lemma bind_ok {A B} (m : M A) (k : A -> M B) (s s' : State) (b : B) :
  bind m k s = (Ok b, s') ->
  exists a s1, m s = (Ok a, s1) /\ k a s1 = (Ok b, s').
Proof.
  unfold bind; destruct (m s) as [[a|e] s1]; intros H.
  - exists a, s1; split; [reflexivity | exact H].
  - discriminate.
Qed.

Lemma bind_run {A B} (m : M A) (k : A -> M B) (s : State) :
  bind m k s
  = match m s with
    | (Ok a, s1) => k a s1
    | (Raise e, s1) => (Raise e, s1)
    end.
Proof. reflexivity. Qed.

Create HintDb keeps.

Section Keeps.

Variable I : State -> Prop.

Hypothesis I_stdout :
  forall s m, I s -> I (with_stdout (stdout s ++ [m])%list s).
Hypothesis I_document : forall s d, I s -> I (with_document (Some d) s).
Hypothesis I_data : forall s d, I s -> I (with_data (Some d) s).
Hypothesis I_figures : forall s n, I s -> I (with_open_figures n s).
Hypothesis I_chart : forall s files, I s -> I (with_chart_files files s).

Lemma keeps_ret {A} (a : A) : keeps I (ret a).
Proof. intros s H; exact H. Qed.

Lemma keeps_raise {A} (e : Exn) : keeps I (@raise A e).
Proof. intros s H; exact H. Qed.

Lemma keeps_lift {A} (o : Outcome A) : keeps I (lift o).
Proof. intros s H; exact H. Qed.

Lemma keeps_get : keeps I get.
Proof. intros s H; exact H. Qed.

Lemma keeps_bind {A B} (m : M A) (k : A -> M B) :
  keeps I m -> (forall a, keeps I (k a)) -> keeps I (bind m k).
Proof.
  intros Hm Hk s H; unfold bind.
  specialize (Hm s H); destruct (m s) as [[a|e] s1]; cbn [snd] in *.
  - apply Hk; exact Hm.
  - exact Hm.
Qed.

Lemma keeps_try {A} (m : M A) (h : Exn -> M A) :
  keeps I m -> (forall e, keeps I (h e)) -> keeps I (try_except m h).
Proof.
  intros Hm Hh s H; unfold try_except.
  specialize (Hm s H); destruct (m s) as [[a|e] s1]; cbn [snd] in *.
  - exact Hm.
  - apply Hh; exact Hm.
Qed.

Lemma keeps_print (m : Msg) : keeps I (print m).
Proof. intros s H; apply I_stdout; exact H. Qed.

Lemma keeps_set_document (d : Document) : keeps I (set_document (Some d)).
Proof. intros s H; apply I_document; exact H. Qed.

Lemma keeps_set_data (d : DataFrame) : keeps I (set_data (Some d)).
Proof. intros s H; apply I_data; exact H. Qed.

Lemma keeps_set_open_figures (n : nat) : keeps I (set_open_figures n).
Proof. intros s H; apply I_figures; exact H. Qed.

Lemma keeps_append_block (b : Block) : keeps I (append_block b).
Proof.
  apply keeps_bind; [apply keeps_get|]; intros s.
  destruct (document s); [apply keeps_set_document | apply keeps_raise].
Qed.

Lemma keeps_add_text (text : string) (b : Block) : keeps I (add_text text b).
Proof.
  unfold add_text; destruct (Docx.xml_compatible text);
    [apply keeps_append_block|].
  apply keeps_bind; [apply keeps_append_block | intros _; apply keeps_raise].
Qed.

Lemma keeps_edit_last (f : Block -> Block) : keeps I (edit_last f).
Proof.
  apply keeps_bind; [apply keeps_get|]; intros s.
  destruct (document s); [apply keeps_set_document | apply keeps_raise].
Qed.

Lemma keeps_set_text (text : string) (put : string -> Block -> Block) :
  keeps I (set_text text put).
Proof.
  unfold set_text; destruct (Docx.xml_compatible text);
    [apply keeps_edit_last|].
  apply keeps_bind; [apply keeps_edit_last | intros _; apply keeps_raise].
Qed.

Lemma keeps_record_chart_file (file : string) : keeps I (record_chart_file file).
Proof. intros s H; apply I_chart; exact H. Qed.

Lemma keeps_for_each {A} (l : list A) (body : A -> M unit) :
  (forall a, keeps I (body a)) -> keeps I (for_each l body).
Proof.
  intros Hb; induction l as [|a l IH]; cbn [for_each].
  - apply keeps_ret.
  - apply keeps_bind; [apply Hb | intros _; exact IH].
Qed.

Hint Resolve keeps_ret keeps_raise keeps_lift keeps_get keeps_print
  keeps_set_document keeps_set_data keeps_set_open_figures
  keeps_append_block keeps_add_text keeps_edit_last keeps_set_text
  keeps_record_chart_file : keeps.

(** One step through a monadic program: sequencing, handlers and branches
    are opened, the leaves are closed from the hints. *)
Ltac keeps_step :=
  first
    [ solve [auto with keeps]
    | apply keeps_bind; [|intros ?]
    | apply keeps_try; [|intros ?]
    | apply keeps_for_each; intros ?
    | match goal with
      | |- keeps _ (match ?x with _ => _ end) => destruct x
      end ].

Lemma keeps_add_para (para : string) : keeps I (add_para para).
Proof.
  unfold add_para, add_paragraph.
  repeat keeps_step.
Qed.

Hint Resolve keeps_add_para : keeps.

Lemma keeps_add_markdown_content (env : Env) (filename : string)
    (default_content : option string) :
  keeps I (add_markdown_content env filename default_content).
Proof.
  unfold add_markdown_content, read_markdown_file, add_paragraphs.
  repeat keeps_step.
Qed.

Hint Resolve keeps_add_markdown_content : keeps.

Lemma keeps_create_document (env : Env) : keeps I (create_document env).
Proof. unfold create_document, add_heading; repeat keeps_step. Qed.

Lemma keeps_add_introduction (env : Env) : keeps I (add_introduction env).
Proof. unfold add_introduction, add_heading; repeat keeps_step. Qed.

Lemma keeps_add_budget_table : keeps I add_budget_table.
Proof.
  unfold add_budget_table, add_heading, add_paragraph; cbv zeta.
  repeat keeps_step.
Qed.

Lemma keeps_add_key_points (env : Env) : keeps I (add_key_points env).
Proof. unfold add_key_points, add_heading; repeat keeps_step. Qed.


End Keeps.

Section Sections.

Variable env : Env.
Variable o : string.
Variable sv : list (string * Document).









End Sections.

(* ================================================================== *)
(** ** Orchestrator *)







(* ================================================================== *)
(** ** ChartRenderer *)

Lemma figures_at_stdout (n : nat) (s : State) (m : Msg) :
  figures_at n s -> figures_at n (with_stdout (stdout s ++ [m])%list s).
Proof. destruct s; exact (fun H => H). Qed.

Lemma figures_at_document (n : nat) (s : State) (d : Document) :
  figures_at n s -> figures_at n (with_document (Some d) s).
Proof. destruct s; intros [H _]; split; [exact H | discriminate]. Qed.

(** The number of open figures after the chart section, for a backend with
    a given fault: unchanged when all goes well or when the failure comes
    before the figure exists, one more in every other case. *)
Lemma chart_figure_count (env : Env) (s s' : State) (df : DataFrame)
    (fault : option ChartStage) (r : bool) :
  data s = Some df ->
  (forall chart_data, chart_fault env chart_data = fault) ->
  add_budget_chart env s = (Ok r, s') ->
  open_figures s'
  = open_figures s
    + match fault with
      | None | Some PlotSelect => 0
      | Some _ => 1
      end.
Proof.
  intros Hdata Hfault Hrun.
  unfold add_budget_chart at 1 in Hrun.
  apply bind_ok in Hrun as [s0 [s1 [Hget Hrun]]].
  injection Hget as <- <-; rewrite Hdata in Hrun.
  apply bind_ok in Hrun as [[] [s2 [Hhead Hrun]]].
  apply bind_ok in Hrun as [[] [s3 [Hmd Hrun]]].
  assert (F2 : figures_at (open_figures s) s2).
  { unfold add_heading in Hhead.
    destruct (document s) as [d|] eqn:Hd.
    - apply (add_text_ok _ _ _ _ _ Hd) in Hhead; subst s2.
      split; [destruct s; reflexivity | discriminate].
    - unfold add_text in Hhead.
      change (Docx.xml_compatible "Budget Visualization") with true in Hhead.
      unfold append_block, bind, get in Hhead; rewrite Hd in Hhead; discriminate. }
  assert (F3 : figures_at (open_figures s) s3).
  { assert (K : keeps (figures_at (open_figures s))
                  (add_markdown_content env "chart_description.md" (Some chart_desc)))
      by (apply keeps_add_markdown_content;
          [apply figures_at_stdout | apply figures_at_document]).
    specialize (K s2 F2); rewrite Hmd in K; exact K. }
  destruct F3 as [Hf3 Hd3].
  rewrite Hfault in Hrun; rewrite <- Hf3.
  destruct s3 as [ef ofile doc dat out figs svd cfs]; cbn in Hd3 |- *.
  destruct doc as [doc|]; [|congruence].
  destruct fault as [[]|]; cbv -[Nat.add Nat.sub] in Hrun;
    injection Hrun as <- <-; cbn [open_figures]; lia.
Qed.

(** C8: the figure is closed on the path that draws, saves and embeds the
    chart, and on no other: when the backend raises after pandas has opened
    the figure (while drawing, decorating, in [savefig] or in [add_picture])
    the handler prints the error and returns, and one more figure stays open
    than before the call.  Only a failure before the figure exists leaves the
    count as it was. *)
Theorem chart_failure_leaks_the_figure :
  let s0 := with_data (Some World.scenario_A) World.blank_document in
  let ok := World.with_excel World.scenario_A World.quiet in
  let after stage := snd (add_budget_chart (World.with_chart_fault stage ok) s0) in
  fst (add_budget_chart ok s0) = Ok true
  /\ open_figures (snd (add_budget_chart ok s0)) = open_figures s0
  /\ fst (add_budget_chart (World.with_chart_fault Savefig ok) s0) = Ok false
  /\ open_figures (after Savefig) = open_figures s0 + 1
  /\ map (fun stage => open_figures (after stage))
         [PlotSelect; PlotDraw; Decorate; Savefig; AddPicture]
     = [0; 1; 1; 1; 1]
  /\ open_figures
       (snd (add_budget_chart (World.with_chart_fault Savefig ok) (after Savefig)))
     = open_figures s0 + 2.
Proof. vm_compute; repeat split; reflexivity. Qed.

(* ================================================================== *)
(** ** Analyzer *)

Lemma per_row_utilization_length (df : DataFrame) :
  List.length (Analysis.per_row_utilization df) = List.length (rows df).
Proof. unfold Analysis.per_row_utilization; apply length_map. Qed.

Lemma with_utilization_column (df : DataFrame) :
  map Utilization (rows (Analysis.with_utilization df))
  = Analysis.per_row_utilization df.
Proof.
  unfold Analysis.with_utilization, Analysis.per_row_utilization; cbn [rows].
  rewrite map_map; reflexivity.
Qed.

(** C1: the series has one value per row, but a row with a zero budget is
    divided by zero like any other: 0/0 gives NaN, a positive remainder gives
    minus infinity, a negative one plus infinity, and the insight sentences
    print them.  The overall rate, a few lines above, is guarded and gives 0
    on a zero total. *)
Theorem zero_budget_rows_are_not_guarded :
  let u := Analysis.per_row_utilization World.unfunded in
  List.length u = List.length (rows World.unfunded)
  /\ map (fun r => Prim2SF (Budgeted r)) (firstn 3 (rows World.unfunded))
     = [S754_zero false; S754_zero false; S754_zero false]
  /\ map Prim2SF u
     = [S754_nan; S754_infinity true; S754_infinity false; Prim2SF 75]
  /\ map (Num.format_f false 1) u = ["nan"; "-inf"; "inf"; "75.0"]
  /\ Analysis.key_points (Some World.unfunded)
     = Ok [ "Overall budget utilization stands at 75.0%";
            "Highest utilization: Credit at inf%";
            "Lowest utilization: Refund at -inf%";
            "Total remaining funds: $500" ]
  /\ Analysis.utilization_rate 0 0 = 0%float.
Proof. vm_compute; repeat split; reflexivity. Qed.

(** C2: on scenario A the column sums run over all three rows, the TOTALS
    row included, so the totals are 6000 and 1400, twice the 3000 and 700 of
    the scenario; the rate prints as 76.7%, and the highest and lowest tasks,
    taken without the TOTALS row, are Design at 80.0% and Build at 75.0%. *)
Theorem scenario_A_summary :
  let df := World.scenario_A in
  total_budgeted df = 6000%float
  /\ total_remaining df = 1400%float
  /\ summary_text df
     = "Total Budget: $6,000 | Utilization Rate: 76.7% | Remaining: $1,400"
  /\ Num.sum (map Budgeted (Analysis.non_total df)) = 3000%float
  /\ Num.sum (map Remaining (Analysis.non_total df)) = 700%float
  /\ Analysis.key_points (Some df)
     = Ok [ "Overall budget utilization stands at 76.7%";
            "Highest utilization: Design at 80.0%";
            "Lowest utilization: Build at 75.0%";
            "Total remaining funds: $1,400" ].
Proof. vm_compute; repeat split; reflexivity. Qed.

Lemma non_total_with_utilization (df : DataFrame) :
  List.length (Analysis.non_total (Analysis.with_utilization df))
  = List.length (Analysis.non_total df).
Proof.
  unfold Analysis.non_total, Analysis.with_utilization; cbn [has_Task rows].
  destruct (has_Task df); [|apply length_map].
  induction (rows df) as [|r l IH]; cbn [map filter Task]; [reflexivity|].
  destruct (negb (Task r =? "TOTALS")%string); cbn [List.length]; congruence.
Qed.

Lemma arg_best_bound (better : float -> float -> bool) (l : list float) :
  forall best i k,
    match best with Some (bi, _) => bi < i | None => True end ->
    Analysis.arg_best better best i l = Some k ->
    k < i + List.length l.
Proof.
  induction l as [|x l IH]; intros best i k Hb;
    cbn [Analysis.arg_best List.length].
  - destruct best as [[bi b]|]; cbn; [intros [= <-]; lia | discriminate].
  - destruct (is_nan x).
    + intros H; apply IH in H; [lia|].
      destruct best as [[bi b]|]; [lia | exact I].
    + destruct best as [[bi b]|]; [destruct (better x b)|];
        intros H; apply IH in H; cbn; lia.
Qed.

Lemma arg_best_some (better : float -> float -> bool) (l : list float) :
  forall best i,
    best <> None \/ existsb (fun x => negb (is_nan x)) l = true ->
    exists k, Analysis.arg_best better best i l = Some k.
Proof.
  induction l as [|x l IH]; intros best i H; cbn [Analysis.arg_best].
  - destruct H as [H | H]; [|discriminate].
    destruct best as [[bi b]|]; [eexists; reflexivity | congruence].
  - cbn [existsb] in H; destruct (is_nan x); cbn [negb orb] in H.
    + apply IH; exact H.
    + destruct best as [[bi b]|]; [destruct (better x b)|];
        apply IH; left; discriminate.
Qed.

Lemma arg_best_none (better : float -> float -> bool) (l : list float) :
  forall i,
    forallb is_nan l = true -> Analysis.arg_best better None i l = None.
Proof.
  induction l as [|x l IH]; intros i H; cbn [Analysis.arg_best]; [reflexivity|].
  cbn [forallb] in H; apply andb_prop in H as [Hx Hl].
  rewrite Hx; apply IH; exact Hl.
Qed.

Lemma all_nan_or_not (l : list float) :
  existsb (fun x => negb (is_nan x)) l = negb (forallb is_nan l).
Proof.
  induction l as [|x l IH]; cbn [existsb forallb]; [reflexivity|].
  rewrite IH; destruct (is_nan x); reflexivity.
Qed.

(** [idxmax] and [idxmin] answer with a position of the series. *)
Lemma idxmax_bound (l : list float) (i : nat) :
  Analysis.idxmax l = Ok i -> i < List.length l.
Proof.
  unfold Analysis.idxmax.
  destruct (Analysis.arg_best _ None 0 l) as [k|] eqn:E; [|discriminate].
  intros [= <-]; exact (arg_best_bound _ l None 0 k I E).
Qed.

Lemma idxmin_bound (l : list float) (i : nat) :
  Analysis.idxmin l = Ok i -> i < List.length l.
Proof.
  unfold Analysis.idxmin.
  destruct (Analysis.arg_best _ None 0 l) as [k|] eqn:E; [|discriminate].
  intros [= <-]; exact (arg_best_bound _ l None 0 k I E).
Qed.

Lemma idxmax_raise (l : list float) (e : Exn) :
  Analysis.idxmax l = Raise e -> e = ValueError.
Proof.
  unfold Analysis.idxmax; destruct (Analysis.arg_best _ None 0 l);
    [discriminate | congruence].
Qed.

Lemma idxmin_raise (l : list float) (e : Exn) :
  Analysis.idxmin l = Raise e -> e = ValueError.
Proof.
  unfold Analysis.idxmin; destruct (Analysis.arg_best _ None 0 l);
    [discriminate | congruence].
Qed.

(** They answer exactly when some cell of the series is not NaN. *)
Lemma idxmax_defined (l : list float) :
  existsb (fun x => negb (is_nan x)) l = true ->
  exists i, Analysis.idxmax l = Ok i.
Proof.
  intros H; unfold Analysis.idxmax.
  destruct (arg_best_some (fun x best => (best <? x)%float) l None 0) as [k ->];
    [right; exact H | eexists; reflexivity].
Qed.

Lemma idxmin_defined (l : list float) :
  existsb (fun x => negb (is_nan x)) l = true ->
  exists i, Analysis.idxmin l = Ok i.
Proof.
  intros H; unfold Analysis.idxmin.
  destruct (arg_best_some (fun x best => (x <? best)%float) l None 0) as [k ->];
    [right; exact H | eexists; reflexivity].
Qed.

Lemma idxmax_all_nan (l : list float) :
  forallb is_nan l = true -> Analysis.idxmax l = Raise ValueError.
Proof.
  intros H; unfold Analysis.idxmax; rewrite arg_best_none by exact H.
  reflexivity.
Qed.

(** The order of binary64 values: [<?] is a strict order, and nothing is
    below or above NaN. *)
Lemma SFltb_irrefl (a : spec_float) : SFltb a a = false.
Proof.
  unfold SFltb, SFcompare; destruct a as [s|s| |s m e]; try reflexivity.
  - destruct s; reflexivity.
  - rewrite Z.compare_refl.
    change (Pcompare m m Eq) with (Pos.compare m m); rewrite Pos.compare_refl.
    destruct s; reflexivity.
Qed.

Lemma SFltb_trans (a b c : spec_float) :
  SFltb a b = true -> SFltb b c = true -> SFltb a c = true.
Proof.
  unfold SFltb, SFcompare.
  destruct a as [sa|sa| |sa ma ea], b as [sb|sb| |sb mb eb],
    c as [sc|sc| |sc mc ec];
    try discriminate; try reflexivity;
    repeat match goal with s : bool |- _ => destruct s end;
    try discriminate; try reflexivity.
  all: change (Pcompare ?x ?y Eq) with (Pos.compare x y).
  all: destruct (Z.compare_spec ea eb), (Z.compare_spec eb ec),
         (Z.compare_spec ea ec); subst; try lia; try discriminate;
         try reflexivity.
  all: destruct (Pos.compare_spec ma mb), (Pos.compare_spec mb mc),
         (Pos.compare_spec ma mc); subst; cbn; try lia; try discriminate;
         try reflexivity.
Qed.

Lemma ltb_irrefl (x : float) : (x <? x)%float = false.
Proof. rewrite ltb_spec; apply SFltb_irrefl. Qed.

Lemma ltb_trans (a b c : float) :
  (a <? b)%float = true -> (b <? c)%float = true -> (a <? c)%float = true.
Proof. rewrite !ltb_spec; apply SFltb_trans. Qed.

Lemma is_nan_spec (x : float) : is_nan x = true -> Prim2SF x = S754_nan.
Proof.
  unfold is_nan; rewrite eqb_spec; unfold SFeqb, SFcompare.
  destruct (Prim2SF x) as [s|s| |s m e]; try reflexivity; try discriminate.
  - destruct s; discriminate.
  - rewrite Z.compare_refl.
    change (Pcompare m m Eq) with (Pos.compare m m); rewrite Pos.compare_refl.
    destruct s; discriminate.
Qed.

Lemma ltb_nan_r (v x : float) : is_nan x = true -> (v <? x)%float = false.
Proof.
  intros H; rewrite ltb_spec, (is_nan_spec x H).
  unfold SFltb, SFcompare; destruct (Prim2SF v); reflexivity.
Qed.

Lemma ltb_nan_l (v x : float) : is_nan x = true -> (x <? v)%float = false.
Proof. intros H; rewrite ltb_spec, (is_nan_spec x H); reflexivity. Qed.

Section ArgBest.

Variable lt : float -> float -> bool.
Hypothesis lt_irrefl : forall x, lt x x = false.
Hypothesis lt_trans :
  forall a b c, lt a b = true -> lt b c = true -> lt a c = true.
Hypothesis lt_nan : forall v x, is_nan x = true -> lt v x = false.

(** The scan keeps a cell that none of the cells read so far exceeds. *)
Lemma arg_best_extreme (d : float) (l : list float) :
  forall (pre : list float) best k,
    match best with
    | Some (bi, b) =>
        bi < List.length pre /\ nth bi pre d = b
        /\ forall x, In x pre -> lt b x = false
    | None => forall x, In x pre -> is_nan x = true
    end ->
    Analysis.arg_best (fun x b => lt b x) best (List.length pre) l = Some k ->
    forall x, In x (pre ++ l) -> lt (nth k (pre ++ l) d) x = false.
Proof.
  induction l as [|y l IH]; intros pre best k Hb; cbn [Analysis.arg_best].
  - destruct best as [[bi b]|]; cbn [option_map fst]; [|discriminate].
    intros [= <-]; rewrite app_nil_r.
    destruct Hb as [_ [Hnth Hall]]; rewrite Hnth; exact Hall.
  - intros H x Hin.
    replace (pre ++ y :: l)%list with ((pre ++ [y]) ++ l)%list in *
      by (rewrite <- app_assoc; reflexivity).
    revert H.
    replace (S (List.length pre)) with (List.length (pre ++ [y])%list)
      by (rewrite length_app; cbn; lia).
    destruct (is_nan y) eqn:Hy.
    + intros H; eapply IH; [|exact H | exact Hin].
      destruct best as [[bi b]|].
      * destruct Hb as [Hlt [Hnth Hall]].
        split; [rewrite length_app; lia|].
        split; [rewrite app_nth1 by lia; exact Hnth|].
        intros z Hz; apply in_app_or in Hz as [Hz | [<- | []]];
          [apply Hall; exact Hz | apply lt_nan; exact Hy].
      * intros z Hz; apply in_app_or in Hz as [Hz | [<- | []]];
          [apply Hb; exact Hz | exact Hy].
    + destruct best as [[bi b]|].
      * destruct Hb as [Hlt [Hnth Hall]].
        destruct (lt b y) eqn:Hby; intros H; (eapply IH; [|exact H | exact Hin]).
        -- split; [rewrite length_app; cbn; lia|].
           split; [rewrite app_nth2, Nat.sub_diag by lia; reflexivity|].
           intros z Hz; apply in_app_or in Hz as [Hz | [<- | []]];
             [|apply lt_irrefl].
           destruct (lt y z) eqn:Hyz; [|reflexivity].
           pose proof (lt_trans b y z Hby Hyz) as Hbz.
           rewrite (Hall z Hz) in Hbz; discriminate.
        -- split; [rewrite length_app; lia|].
           split; [rewrite app_nth1 by lia; exact Hnth|].
           intros z Hz; apply in_app_or in Hz as [Hz | [<- | []]];
             [apply Hall; exact Hz | exact Hby].
      * intros H; eapply IH; [|exact H | exact Hin].
        split; [rewrite length_app; cbn; lia|].
        split; [rewrite app_nth2, Nat.sub_diag by lia; reflexivity|].
        intros z Hz; apply in_app_or in Hz as [Hz | [<- | []]];
          [apply lt_nan, Hb; exact Hz | apply lt_irrefl].
Qed.

End ArgBest.

(** No cell of the series is above the one [idxmax] names, and none is
    below the one [idxmin] names. *)
Lemma idxmax_greatest (l : list float) (i : nat) (d : float) :
  Analysis.idxmax l = Ok i ->
  forall x, In x l -> (nth i l d <? x)%float = false.
Proof.
  unfold Analysis.idxmax.
  destruct (Analysis.arg_best _ None 0 l) as [k|] eqn:E; [|discriminate].
  intros [= <-].
  apply (arg_best_extreme (fun a b => (a <? b)%float)
           ltb_irrefl ltb_trans ltb_nan_r d l [] None k);
    [intros x [] | exact E].
Qed.

Lemma idxmin_least (l : list float) (i : nat) (d : float) :
  Analysis.idxmin l = Ok i ->
  forall x, In x l -> (x <? nth i l d)%float = false.
Proof.
  unfold Analysis.idxmin.
  destruct (Analysis.arg_best _ None 0 l) as [k|] eqn:E; [|discriminate].
  intros [= <-].
  apply (arg_best_extreme (fun a b => (b <? a)%float)
           ltb_irrefl
           (fun a b c H1 H2 => ltb_trans c b a H2 H1)
           (fun v x H => ltb_nan_l v x H) d l [] None k);
    [intros x [] | exact E].
Qed.

Lemma existsb_map {A B} (f : A -> B) (p : B -> bool) (l : list A) :
  existsb p (map f l) = existsb (fun a => p (f a)) l.
Proof. induction l as [|a l IH]; cbn; [reflexivity | rewrite IH; reflexivity]. Qed.

Lemma forallb_map {A B} (f : A -> B) (p : B -> bool) (l : list A) :
  forallb p (map f l) = forallb (fun a => p (f a)) l.
Proof. induction l as [|a l IH]; cbn; [reflexivity | rewrite IH; reflexivity]. Qed.

(** The rows outside the TOTALS row, once the derived column is there, are
    the rows outside the TOTALS row, each with its utilization. *)
Lemma non_total_with_utilization_rows (df : DataFrame) :
  Analysis.non_total (Analysis.with_utilization df)
  = map (fun r => {| Task := Task r; Budgeted := Budgeted r;
                     Remaining := Remaining r;
                     Utilization := Analysis.utilization_pct r |})
        (Analysis.non_total df).
Proof.
  unfold Analysis.non_total, Analysis.with_utilization; cbn [has_Task rows].
  destruct (has_Task df); [|reflexivity].
  induction (rows df) as [|r l IH]; cbn [map filter Task]; [reflexivity|].
  destruct (negb (Task r =? "TOTALS")%string); cbn [map]; congruence.
Qed.

(** The insights when the three guards hold, in terms of the table as it
    was loaded: the positions [idxmax] and [idxmin] find in the utilization
    of the rows outside the TOTALS row, then the Task of these two rows. *)
Lemma key_points_derived (df : DataFrame) :
  data_derived (Some df) = true ->
  let tasks := Analysis.non_total df in
  let u := map Analysis.utilization_pct tasks in
  match Analysis.idxmax u, Analysis.idxmin u with
  | Ok hi, Ok lo =>
      hi < List.length tasks /\ lo < List.length tasks
      /\ Analysis.key_points (Some df)
         = if has_Task df
           then
             let high := nth hi tasks Analysis.blank_row in
             let low := nth lo tasks Analysis.blank_row in
             Ok [ "Overall budget utilization stands at "
                    ++ Num.format_f false 1
                         (Analysis.utilization_rate
                            (Num.sum (map Budgeted (rows df)))
                            (Num.sum (map Remaining (rows df)))) ++ "%";
                  "Highest utilization: " ++ Task high ++ " at "
                    ++ Num.format_f false 1 (Analysis.utilization_pct high) ++ "%";
                  "Lowest utilization: " ++ Task low ++ " at "
                    ++ Num.format_f false 1 (Analysis.utilization_pct low) ++ "%";
                  "Total remaining funds: $"
                    ++ Num.format_f true 0 (Num.sum (map Remaining (rows df))) ]
           else Raise (KeyError "Task")
  | Raise e, _ => Analysis.key_points (Some df) = Raise e
  | _, Raise e => Analysis.key_points (Some df) = Raise e
  end.
Proof.
  intros Hd; unfold data_derived in Hd.
  apply andb_prop in Hd as [Hd Hn]; apply andb_prop in Hd as [Hcols Hrows].
  cbv zeta; unfold Analysis.key_points; rewrite Hcols.
  unfold Analysis.dynamic_key_points.
  rewrite non_total_with_utilization_rows, length_map, Hn.
  replace (List.length (rows (Analysis.with_utilization df)))
    with (List.length (rows df))
    by (unfold Analysis.with_utilization; cbn [rows]; now rewrite length_map).
  rewrite Hrows.
  rewrite (map_map _ Utilization); cbn [Utilization].
  change (fun x : Row => Analysis.utilization_pct x) with Analysis.utilization_pct.
  replace (map Budgeted (rows (Analysis.with_utilization df)))
    with (map Budgeted (rows df))
    by (unfold Analysis.with_utilization; cbn [rows]; now rewrite map_map).
  replace (map Remaining (rows (Analysis.with_utilization df)))
    with (map Remaining (rows df))
    by (unfold Analysis.with_utilization; cbn [rows]; now rewrite map_map).
  destruct (Analysis.idxmax _) as [hi|e] eqn:Hhi; [|reflexivity].
  destruct (Analysis.idxmin _) as [lo|e] eqn:Hlo; [|reflexivity].
  apply idxmax_bound in Hhi; apply idxmin_bound in Hlo.
  rewrite length_map in Hhi, Hlo.
  split; [exact Hhi|]; split; [exact Hlo|].
  set (with_rate := fun r : Row => _).
  rewrite (nth_indep _ Analysis.blank_row (with_rate Analysis.blank_row))
    by (rewrite length_map; exact Hhi).
  rewrite (nth_indep (map with_rate _) Analysis.blank_row (with_rate Analysis.blank_row))
    by (rewrite length_map; exact Hlo).
  rewrite !map_nth.
  unfold Analysis.task_of, Analysis.with_utilization; cbn [has_Task].
  destruct (has_Task df); reflexivity.
Qed.

(** C6 (as the code has it): the four generic statements are used exactly
    when the table lacks one of the two columns, has fewer than two rows
    counting the TOTALS row, or has no row but the TOTALS row.  In every
    other case the insights are taken from the data: with a Task column and
    a utilization that is defined in some row outside the TOTALS row, they
    are the four data-derived sentences, built from the overall rate, the
    total remaining and two rows outside the TOTALS row, one that no such
    row exceeds in utilization and one that none falls below; without a Task
    column, or with no defined utilization, the call raises.  One task next
    to its TOTALS row is enough for data-derived insights. *)
Theorem insights_fallback_guard (data : option DataFrame) :
  (data_derived data = false ->
   Analysis.key_points data = Ok Analysis.generic_key_points)
  /\ (forall df,
        data = Some df ->
        data_derived data = true ->
        (has_Task df = true ->
         existsb (fun r => negb (is_nan (Analysis.utilization_pct r)))
                 (Analysis.non_total df) = true ->
         exists high low,
           In high (Analysis.non_total df) /\ In low (Analysis.non_total df)
           /\ (forall r,
                 In r (Analysis.non_total df) ->
                 (Analysis.utilization_pct high <? Analysis.utilization_pct r)%float
                 = false)
           /\ (forall r,
                 In r (Analysis.non_total df) ->
                 (Analysis.utilization_pct r <? Analysis.utilization_pct low)%float
                 = false)
           /\ Analysis.key_points data
              = Ok [ "Overall budget utilization stands at "
                       ++ Num.format_f false 1
                            (Analysis.utilization_rate
                               (Num.sum (map Budgeted (rows df)))
                               (Num.sum (map Remaining (rows df)))) ++ "%";
                     "Highest utilization: " ++ Task high ++ " at "
                       ++ Num.format_f false 1 (Analysis.utilization_pct high)
                       ++ "%";
                     "Lowest utilization: " ++ Task low ++ " at "
                       ++ Num.format_f false 1 (Analysis.utilization_pct low)
                       ++ "%";
                     "Total remaining funds: $"
                       ++ Num.format_f true 0 (Num.sum (map Remaining (rows df))) ]
           /\ Analysis.key_points data <> Ok Analysis.generic_key_points)
        /\ (has_Task df = false
            \/ forallb (fun r => is_nan (Analysis.utilization_pct r))
                       (Analysis.non_total df) = true ->
            exists e,
              Analysis.key_points data = Raise e
              /\ (e = KeyError "Task" \/ e = ValueError))).
Proof.
  split.
  - unfold Analysis.key_points, data_derived.
    destruct data as [df|]; [|reflexivity].
    destruct (has_Budgeted df && has_Remaining df); cbn [andb]; [|reflexivity].
    unfold Analysis.dynamic_key_points.
    rewrite non_total_with_utilization.
    replace (List.length (rows (Analysis.with_utilization df)))
      with (List.length (rows df))
      by (unfold Analysis.with_utilization; cbn [rows]; now rewrite length_map).
    destruct (1 <? List.length (rows df))%nat; cbn [andb]; [|reflexivity].
    destruct (0 <? List.length (Analysis.non_total df))%nat;
      [discriminate | reflexivity].
  - intros df -> Hd.
    pose proof (key_points_derived df Hd) as K; cbv zeta in K.
    split.
    + intros Ht Hsome.
      rewrite <- (existsb_map Analysis.utilization_pct
                    (fun x => negb (is_nan x))) in Hsome.
      destruct (idxmax_defined _ Hsome) as [hi Hhi].
      destruct (idxmin_defined _ Hsome) as [lo Hlo].
      rewrite Hhi, Hlo, Ht in K; destruct K as [Bhi [Blo K]].
      exists (nth hi (Analysis.non_total df) Analysis.blank_row),
             (nth lo (Analysis.non_total df) Analysis.blank_row).
      split; [apply nth_In; exact Bhi|]; split; [apply nth_In; exact Blo|].
      split; [|split].
      { intros r Hr.
        pose proof (idxmax_greatest _ hi
                      (Analysis.utilization_pct Analysis.blank_row) Hhi
                      (Analysis.utilization_pct r) (in_map _ _ _ Hr)) as G.
        rewrite map_nth in G; exact G. }
      { intros r Hr.
        pose proof (idxmin_least _ lo
                      (Analysis.utilization_pct Analysis.blank_row) Hlo
                      (Analysis.utilization_pct r) (in_map _ _ _ Hr)) as G.
        rewrite map_nth in G; exact G. }
      split; [exact K|].
      rewrite K; discriminate.
    + intros Hwhy; revert K.
      destruct (Analysis.idxmax _) as [hi|e] eqn:Hhi.
      * destruct (Analysis.idxmin _) as [lo|e] eqn:Hlo.
        -- intros [_ [_ K]].
           destruct Hwhy as [Ht | Hnan].
           ++ rewrite Ht in K; exists (KeyError "Task"); split; [exact K | left; reflexivity].
           ++ rewrite <- (forallb_map Analysis.utilization_pct is_nan) in Hnan.
              rewrite (idxmax_all_nan _ Hnan) in Hhi; discriminate.
        -- intros K; exists e; split; [exact K | right; exact (idxmin_raise _ _ Hlo)].
      * intros K; exists e; split; [exact K | right; exact (idxmax_raise _ _ Hhi)].
Qed.

Lemma insights_fallback_guard_witness :
  Analysis.key_points (Some World.one_task)
  = Ok [ "Overall budget utilization stands at 80.0%";
         "Highest utilization: Design at 80.0%";
         "Lowest utilization: Design at 80.0%";
         "Total remaining funds: $400" ]
  /\ Analysis.key_points (Some (frame [row "TOTALS" 1000 200]))
     = Ok Analysis.generic_key_points
  /\ Analysis.key_points (Some Sample.no_task) = Raise (KeyError "Task").
Proof.
  split; [|split].
  - destruct (proj1 (proj2 (insights_fallback_guard (Some World.one_task))
                       World.one_task eq_refl eq_refl) eq_refl eq_refl)
      as [high [low [Hhigh [Hlow [_ [_ [H _]]]]]]].
    destruct Hhigh as [<- | []]; destruct Hlow as [<- | []].
    rewrite H; vm_compute; reflexivity.
  - apply (proj1 (insights_fallback_guard (Some (frame [row "TOTALS" 1000 200])))).
    reflexivity.
  - destruct (proj2 (proj2 (insights_fallback_guard (Some Sample.no_task))
                       Sample.no_task eq_refl eq_refl) (or_introl eq_refl))
      as [e [H _]].
    rewrite H; vm_compute in H; injection H as <-; reflexivity.
Defined.

(** C6 (as stated): a table of one task and the TOTALS row leaves a single
    row after the TOTALS row is set aside, fewer than 2, and the insights are
    the data-derived ones, with that task as both the highest and the
    lowest. *)
Lemma one_task_gets_data_derived_insights :
  List.length (Analysis.non_total World.one_task) = 1
  /\ Analysis.key_points (Some World.one_task)
     = Ok [ "Overall budget utilization stands at 80.0%";
            "Highest utilization: Design at 80.0%";
            "Lowest utilization: Design at 80.0%";
            "Total remaining funds: $400" ]
  /\ Analysis.key_points (Some World.one_task) <> Ok Analysis.generic_key_points.
Proof.
  repeat split; try (vm_compute; reflexivity).
  vm_compute; discriminate.
Qed.

(* ================================================================== *)
(** ** More on strings: lengths, lines and stripping *)

Lemma string_length_app (a b : string) :
  String.length (a ++ b) = String.length a + String.length b.
Proof. induction a as [|c a IH]; simpl; [reflexivity | rewrite IH; reflexivity]. Qed.

Lemma rstrip_app_stable (a b : string) :
  PyStr.rstrip b = b -> b <> "" -> PyStr.rstrip (a ++ b) = a ++ b.
Proof.
  intros Hb Hne; induction a as [|c a IH]; simpl; [exact Hb|].
  rewrite IH; destruct (a ++ b) eqn:E; [|reflexivity].
  destruct a; simpl in E; [congruence | discriminate].
Qed.

Lemma rstrip_idem (s : string) : PyStr.rstrip (PyStr.rstrip s) = PyStr.rstrip s.
Proof.
  induction s as [|c s IH]; simpl; [reflexivity|].
  destruct (PyStr.rstrip s) as [|c' r] eqn:E.
  - destruct (PyStr.is_space c) eqn:Hc; simpl; [reflexivity|].
    rewrite Hc; reflexivity.
  - simpl in *; rewrite IH; reflexivity.
Qed.

(** What [rstrip] leaves starts as the text did, when that was not white
    space. *)
Lemma rstrip_head (c : ascii) (s : string) :
  PyStr.is_space c = false ->
  exists r, PyStr.rstrip (String c s) = String c r.
Proof.
  intros Hc; simpl; destruct (PyStr.rstrip s) as [|c' r].
  - rewrite Hc; exists ""; reflexivity.
  - exists (String c' r); reflexivity.
Qed.

Lemma lstrip_head (s : string) :
  PyStr.lstrip s = ""
  \/ exists c r, PyStr.lstrip s = String c r /\ PyStr.is_space c = false.
Proof.
  induction s as [|c s IH]; simpl; [left; reflexivity|].
  destruct (PyStr.is_space c) eqn:Hc; [exact IH|].
  right; exists c, s; split; [reflexivity | exact Hc].
Qed.

Lemma strip_idem (s : string) : PyStr.strip (PyStr.strip s) = PyStr.strip s.
Proof.
  unfold PyStr.strip.
  destruct (lstrip_head s) as [E | [c [r [E Hc]]]]; rewrite E.
  - reflexivity.
  - destruct (rstrip_head c r Hc) as [r' E'].
    rewrite E'; simpl PyStr.lstrip; rewrite Hc, <- E'.
    apply rstrip_idem.
Qed.

Lemma prefix_nl (c : ascii) (s : string) :
  String.prefix PyStr.nl (String c s)
  = if ascii_dec (ascii_of_nat 10) c then true else false.
Proof.
  unfold PyStr.nl; cbn [String.prefix].
  destruct (ascii_dec (ascii_of_nat 10) c); [destruct s|]; reflexivity.
Qed.

Lemma split_go_nl_plain (a cur : string) :
  no_newline a = true ->
  PyStr.split_go PyStr.nl a 0 cur = [cur ++ a].
Proof.
  revert cur; induction a as [|c a IH]; intros cur H.
  - cbn [PyStr.split_go]; rewrite string_app_nil; reflexivity.
  - cbn [no_newline] in H; cbn [PyStr.split_go]; rewrite prefix_nl.
    destruct (ascii_dec (ascii_of_nat 10) c); [discriminate|].
    rewrite IH by exact H.
    rewrite string_app_assoc; reflexivity.
Qed.

Lemma split_go_nl_line (a rest cur : string) :
  no_newline a = true ->
  PyStr.split_go PyStr.nl (a ++ PyStr.nl ++ rest) 0 cur
  = (cur ++ a) :: PyStr.split_go PyStr.nl rest 0 "".
Proof.
  revert cur; induction a as [|c a IH]; intros cur H.
  - rewrite string_app_nil.
    change ("" ++ PyStr.nl ++ rest) with (String (ascii_of_nat 10) rest).
    cbn [PyStr.split_go]; rewrite prefix_nl.
    destruct (ascii_dec (ascii_of_nat 10) (ascii_of_nat 10)); [|congruence].
    reflexivity.
  - cbn [no_newline] in H.
    change (String c a ++ PyStr.nl ++ rest) with (String c (a ++ PyStr.nl ++ rest)).
    cbn [PyStr.split_go]; rewrite prefix_nl.
    destruct (ascii_dec (ascii_of_nat 10) c); [discriminate|].
    rewrite IH by exact H.
    rewrite string_app_assoc; reflexivity.
Qed.

(** Lines joined by newlines split back into the same lines. *)
Lemma split_join_lines (l : list string) :
  l <> [] ->
  Forall (fun line => no_newline line = true) l ->
  PyStr.split PyStr.nl (PyStr.join PyStr.nl l) = l.
Proof.
  unfold PyStr.split; induction l as [|x l IH]; intros Hne Hall; [congruence|].
  inversion Hall as [|? ? Hx Hl]; subst.
  destruct l as [|y l].
  - cbn [PyStr.join]; rewrite split_go_nl_plain by exact Hx; reflexivity.
  - cbn [PyStr.join]; rewrite split_go_nl_line by exact Hx.
    cbn [append]; f_equal; apply IH; [discriminate | exact Hl].
Qed.

Lemma split_go_blank_free (s cur : string) :
  blank_free s = true ->
  PyStr.split_go (PyStr.nl ++ PyStr.nl) s 0 cur = [cur ++ s].
Proof.
  revert cur; induction s as [|c s IH]; intros cur H.
  - cbn [PyStr.split_go]; rewrite string_app_nil; reflexivity.
  - cbn [blank_free] in H; apply andb_prop in H as [Hp Hs].
    cbn [PyStr.split_go].
    destruct (String.prefix (PyStr.nl ++ PyStr.nl) (String c s)); [discriminate|].
    rewrite IH by exact Hs.
    rewrite string_app_assoc; reflexivity.
Qed.

(* ================================================================== *)
(** ** ContentLoader: the bullet list of the key findings *)

Lemma no_newline_bullet (p : string) :
  no_newline ("- " ++ p) = no_newline p.
Proof.
  cbn [append no_newline].
  destruct (ascii_dec (ascii_of_nat 10) "-"); [discriminate|].
  destruct (ascii_dec (ascii_of_nat 10) " "); [discriminate|].
  reflexivity.
Qed.

Lemma prefix_blank (c : ascii) (s : string) :
  ascii_of_nat 10 <> c ->
  String.prefix (PyStr.nl ++ PyStr.nl) (String c s) = false.
Proof.
  intros Hc; unfold PyStr.nl; cbn [append String.prefix].
  destruct (ascii_dec (ascii_of_nat 10) c); [contradiction | reflexivity].
Qed.

Lemma no_newline_blank_free (a : string) :
  no_newline a = true -> blank_free a = true.
Proof.
  induction a as [|c a IH]; intros H; [reflexivity|].
  cbn [no_newline] in H; cbn [blank_free].
  destruct (ascii_dec (ascii_of_nat 10) c) as [|Hc]; [discriminate|].
  rewrite (prefix_blank c a Hc), IH by exact H; reflexivity.
Qed.

Lemma blank_free_next_line (a : string) (c : ascii) (rest : string) :
  no_newline a = true ->
  ascii_of_nat 10 <> c ->
  blank_free (String c rest) = true ->
  blank_free (a ++ PyStr.nl ++ String c rest) = true.
Proof.
  intros Ha Hc Hrest; induction a as [|x a IH].
  - change ("" ++ PyStr.nl ++ String c rest)
      with (String (ascii_of_nat 10) (String c rest)).
    cbn [blank_free] in *; rewrite Hrest.
    unfold PyStr.nl; cbn [append String.prefix].
    destruct (ascii_dec (ascii_of_nat 10) (ascii_of_nat 10)); [|congruence].
    destruct (ascii_dec (ascii_of_nat 10) c); [contradiction | reflexivity].
  - cbn [no_newline] in Ha.
    destruct (ascii_dec (ascii_of_nat 10) x) as [|Hx]; [discriminate|].
    change (String x a ++ PyStr.nl ++ String c rest)
      with (String x (a ++ PyStr.nl ++ String c rest)).
    cbn [blank_free]; rewrite (prefix_blank x _ Hx), IH by exact Ha; reflexivity.
Qed.

(** A bullet list starts with its first marker. *)
Lemma bullet_list_head (p : string) (ps : list string) :
  exists rest, bullet_list (p :: ps) = String "-" (String " " rest).
Proof.
  unfold bullet_list; cbn [map PyStr.join].
  destruct (map _ ps); eexists; reflexivity.
Qed.

Lemma bullet_list_cons (p q : string) (ps : list string) :
  bullet_list (p :: q :: ps) = ("- " ++ p) ++ PyStr.nl ++ bullet_list (q :: ps).
Proof. reflexivity. Qed.

Lemma bullet_list_blank_free (points : list string) :
  Forall plain_point points ->
  blank_free (bullet_list points) = true.
Proof.
  induction points as [|p ps IH]; intros Hall; [reflexivity|].
  inversion Hall as [|? ? [Hp _] Hps]; subst.
  destruct ps as [|q ps].
  - apply no_newline_blank_free.
    change (bullet_list [p]) with ("- " ++ p).
    rewrite no_newline_bullet; exact Hp.
  - rewrite bullet_list_cons.
    destruct (bullet_list_head q ps) as [rest E].
    specialize (IH Hps); rewrite E in *.
    apply blank_free_next_line.
    + rewrite no_newline_bullet; exact Hp.
    + discriminate.
    + exact IH.
Qed.

Lemma bullet_list_rstrip (points : list string) :
  points <> [] ->
  Forall plain_point points ->
  PyStr.rstrip (bullet_list points) = bullet_list points.
Proof.
  induction points as [|p ps IH]; intros Hne Hall; [congruence|].
  inversion Hall as [|? ? [_ [Hp Hr]] Hps]; subst.
  destruct ps as [|q ps].
  - change (bullet_list [p]) with ("- " ++ p).
    apply rstrip_app_stable; assumption.
  - rewrite bullet_list_cons, <- string_app_assoc.
    apply rstrip_app_stable; [apply IH; [discriminate | exact Hps]|].
    destruct (bullet_list_head q ps) as [rest E]; rewrite E; discriminate.
Qed.

Lemma bullet_line_strip (p : string) :
  plain_point p -> PyStr.strip ("- " ++ p) = "- " ++ p.
Proof.
  intros [_ [Hne Hr]]; unfold PyStr.strip.
  change (PyStr.lstrip ("- " ++ p)) with ("- " ++ p).
  apply rstrip_app_stable; assumption.
Qed.

Lemma is_bullet_dash (rest : string) : is_bullet (String "-" (String " " rest)) = true.
Proof. destruct rest; reflexivity. Qed.

Lemma bullets_of_lines (points : list string) :
  Forall plain_point points ->
  map (fun line => PyStr.drop 2 (PyStr.strip line))
      (filter (fun line => is_bullet (PyStr.strip line))
              (map (fun point => "- " ++ point) points))
  = points.
Proof.
  induction points as [|p ps IH]; intros Hall; [reflexivity|].
  inversion Hall as [|? ? Hp Hps]; subst.
  cbn [map filter]; rewrite (bullet_line_strip p Hp).
  change ("- " ++ p) with (String "-" (String " " p)) at 1.
  rewrite is_bullet_dash.
  cbn [map]; rewrite (bullet_line_strip p Hp), IH by exact Hps.
  reflexivity.
Qed.

(** What the loader makes of a bullet list written by the program. *)
Lemma bullet_list_blocks (points : list string) :
  points <> [] ->
  Forall plain_point points ->
  content_blocks (bullet_list points)
  = map (fun point => Paragraph point ListBullet) points.
Proof.
  intros Hne Hall.
  unfold content_blocks, PyStr.split.
  rewrite split_go_blank_free by (apply bullet_list_blank_free; exact Hall).
  cbn [append flat_map]; rewrite app_nil_r.
  unfold para_blocks.
  assert (Hstrip : PyStr.strip (bullet_list points) = bullet_list points).
  { unfold PyStr.strip; destruct points as [|p ps]; [congruence|].
    destruct (bullet_list_head p ps) as [rest E].
    rewrite E at 1; change (PyStr.lstrip (String "-" (String " " rest)))
      with (String "-" (String " " rest)).
    rewrite <- E; apply bullet_list_rstrip; assumption. }
  rewrite Hstrip.
  destruct points as [|p ps]; [congruence|].
  destruct (bullet_list_head p ps) as [rest E].
  assert (Ht : PyStr.truthy (bullet_list (p :: ps)) = true)
    by (rewrite E; reflexivity).
  assert (Hb : is_bullet (bullet_list (p :: ps)) = true)
    by (rewrite E; apply is_bullet_dash).
  rewrite Ht, Hb; cbn [negb]; f_equal.
  unfold bullets, bullet_list.
  rewrite split_join_lines.
  - apply bullets_of_lines; exact Hall.
  - discriminate.
  - apply Forall_map, Forall_impl with (2 := Hall).
    intros point [Hp _]; rewrite no_newline_bullet; exact Hp.
Qed.

(** X1: a bullet list written by the program reads back as itself.  When
    the sentences are on one line each, not empty and without white space at
    their end, the loader turns the default text "- s1 / - s2 / ..." into
    exactly one List Bullet paragraph per sentence, in order, with the
    sentence as its text, as long as python-docx takes the sentences; a
    sentence with a control character ends the call in [ValueError]. *)
Theorem default_bullets_round_trip
    (env : Env) (filename : string) (points : list string)
    (s : State) (d : Document) :
  points <> [] ->
  Forall plain_point points ->
  read_text env filename = FileAbsent ->
  document s = Some d ->
  (forallb Docx.xml_compatible points = true ->
   add_markdown_content env filename (Some (bullet_list points)) s
   = (Ok tt,
      with_document
        (Some (d ++ map (fun point => Paragraph point ListBullet) points)%list)
        (with_stdout (stdout s ++ [MsgNotFound filename])%list s)))
  /\ (forallb Docx.xml_compatible points = false ->
      fst (add_markdown_content env filename (Some (bullet_list points)) s)
      = Raise ValueError).
Proof.
  intros Hne Hall Habsent Hd.
  assert (Hrun : read_markdown_file env filename s
                 = (Ok None, with_stdout (stdout s ++ [MsgNotFound filename])%list s))
    by (unfold read_markdown_file, try_except; rewrite Habsent; reflexivity).
  assert (Ht : PyStr.truthy (bullet_list points) = true).
  { destruct points as [|p ps]; [congruence|].
    destruct (bullet_list_head p ps) as [rest E]; rewrite E; reflexivity. }
  assert (Ha : forallb Docx.accepts (content_blocks (bullet_list points))
               = forallb Docx.xml_compatible points).
  { rewrite bullet_list_blocks by assumption.
    rewrite forallb_map; reflexivity. }
  unfold add_markdown_content, bind; rewrite Hrun.
  cbn [present negb andb]; rewrite Ht.
  split; intros Hx; rewrite <- Ha in Hx.
  - rewrite (add_paragraphs_taken _ _ d) by (try exact Hx; destruct s; exact Hd).
    rewrite bullet_list_blocks by assumption.
    reflexivity.
  - apply (add_paragraphs_refused _ _ d); [destruct s; exact Hd | exact Hx].
Qed.

Lemma default_bullets_round_trip_witness :
  add_markdown_content Sample.quiet "key_points.md"
    (Some (bullet_list Analysis.generic_key_points))
    (Sample.loaded World.scenario_A)
  = (Ok tt,
     with_document
       (Some (map (fun point => Paragraph point ListBullet)
                  Analysis.generic_key_points))
       (with_stdout [MsgNotFound "key_points.md"] (Sample.loaded World.scenario_A))).
Proof.
  apply (default_bullets_round_trip Sample.quiet "key_points.md"
           Analysis.generic_key_points (Sample.loaded World.scenario_A) []).
  - discriminate.
  - repeat constructor; discriminate.
  - reflexivity.
  - reflexivity.
  - reflexivity.
Defined.

Lemma is_bullet_inv (t : string) :
  is_bullet t = true ->
  exists m rest, t = String m (String " " rest) /\ PyStr.drop 2 t = rest.
Proof.
  unfold is_bullet, PyStr.startswith.
  destruct t as [|a [|b rest]]; cbn [String.prefix].
  - discriminate.
  - destruct (ascii_dec "-" a), (ascii_dec "*" a); discriminate.
  - intros H; assert (Hb : b = " "%char).
    { destruct (ascii_dec " " b) as [<-|]; [reflexivity|].
      destruct (ascii_dec "-" a), (ascii_dec "*" a); discriminate. }
    subst b; exists a, rest; split; reflexivity.
Qed.

Lemma rstrip_tail (c : ascii) (s : string) :
  PyStr.rstrip (String c s) = String c s -> s <> "" -> PyStr.rstrip s = s.
Proof.
  cbn [PyStr.rstrip]; intros H Hne.
  destruct (PyStr.rstrip s) as [|c' r].
  - destruct (PyStr.is_space c); [discriminate|].
    injection H as <-; congruence.
  - injection H as <-; reflexivity.
Qed.

Lemma rstrip_strip (s : string) : PyStr.rstrip (PyStr.strip s) = PyStr.strip s.
Proof. unfold PyStr.strip; apply rstrip_idem. Qed.

(** The text of a bullet, cut from a stripped line that starts with a
    marker and a space: not empty, no white space at its end. *)
Lemma bullet_text_plain (line : string) :
  is_bullet (PyStr.strip line) = true ->
  PyStr.drop 2 (PyStr.strip line) <> ""
  /\ PyStr.rstrip (PyStr.drop 2 (PyStr.strip line))
     = PyStr.drop 2 (PyStr.strip line).
Proof.
  intros H; destruct (is_bullet_inv _ H) as [m [rest [E Hdrop]]].
  pose proof (rstrip_strip line) as Hr; rewrite Hdrop; rewrite E in Hr.
  assert (Hne : rest <> "").
  { intros ->; cbn in Hr.
    destruct (PyStr.is_space m); discriminate. }
  split; [exact Hne|].
  apply (rstrip_tail " "); [|exact Hne].
  apply (rstrip_tail m); [exact Hr | discriminate].
Qed.

(** The blocks of a text are paragraphs with a text that is not empty and
    has no white space at its end, nor at its start when it is a plain
    paragraph. *)
Lemma content_blocks_plain (content : string) :
  Forall (fun b =>
            exists text style,
              b = Paragraph text style
              /\ text <> ""
              /\ PyStr.rstrip text = text
              /\ (style = Normal -> PyStr.strip text = text))
         (content_blocks content).
Proof.
  unfold content_blocks.
  induction (PyStr.split (PyStr.nl ++ PyStr.nl) content) as [|g groups IH];
    cbn [flat_map]; [constructor|].
  apply Forall_app; split; [|exact IH].
  unfold para_blocks.
  destruct (PyStr.truthy (PyStr.strip g)) eqn:Ht; cbn [negb]; [|constructor].
  destruct (is_bullet (PyStr.strip g)) eqn:Hb.
  - unfold bullets; rewrite map_map.
    apply Forall_map, Forall_forall; intros line Hin.
    apply filter_In in Hin as [_ Hline].
    destruct (bullet_text_plain line Hline) as [Hne Hr].
    eexists _, _; repeat split; [exact Hne | exact Hr | discriminate].
  - constructor; [|constructor].
    eexists _, _; repeat split.
    + apply truthy_true; exact Ht.
    + apply rstrip_strip.
    + intros _; apply strip_idem.
Qed.

(* ================================================================== *)
(** ** What each section appends *)

Lemma same_outside_document_refl (s : State) : same_outside_document s s.
Proof. repeat split. Qed.

Lemma same_outside_document_trans (s1 s2 s3 : State) :
  same_outside_document s1 s2 -> same_outside_document s2 s3 ->
  same_outside_document s1 s3.
Proof.
  unfold same_outside_document.
  intros [? [? [? [? [? ?]]]]] [? [? [? [? [? ?]]]]]; repeat split; congruence.
Qed.

Lemma same_outside_document_set (s : State) (d : option Document) (out : list Msg) :
  same_outside_document s (with_document d (with_stdout out s)).
Proof. destruct s; repeat split. Qed.

Lemma content_blocks_paragraphs (text : string) :
  Forall (fun b => is_paragraph b = true) (content_blocks text).
Proof.
  unfold content_blocks.
  induction (PyStr.split (PyStr.nl ++ PyStr.nl) text) as [|g groups IH];
    cbn [flat_map]; [constructor|].
  apply Forall_app; split; [|exact IH].
  unfold para_blocks.
  destruct (negb _); [constructor|].
  destruct (is_bullet _).
  - apply Forall_map, Forall_forall; intros; reflexivity.
  - repeat constructor.
Qed.

Lemma merged_blocks_paragraphs (env : Env) (filename : string)
    (default_content : option string) :
  Forall (fun b => is_paragraph b = true)
         (merged_blocks env filename default_content).
Proof.
  unfold merged_blocks; destruct (merged_content _ _ _);
    [apply content_blocks_paragraphs | constructor].
Qed.

Lemma rendered_cases (blocks : list Block) :
  (forallb Docx.accepts blocks = true /\ rendered blocks = (Ok tt, blocks))
  \/ (forallb Docx.accepts blocks = false
      /\ fst (rendered blocks) = Raise ValueError).
Proof.
  destruct (forallb Docx.accepts blocks) eqn:H; [left | right];
    (split; [reflexivity|]).
  - apply rendered_taken; exact H.
  - apply rendered_refused; exact H.
Qed.

(** The loader on an existing document: it goes through the blocks of the
    merged text, after at most one line on standard output. *)
Lemma add_markdown_content_run (env : Env) (filename : string)
    (default_content : option string) (s : State) (d : Document) :
  document s = Some d ->
  exists s0,
    add_markdown_content env filename default_content s
    = (fst (rendered (merged_blocks env filename default_content)),
       with_document
         (Some (d ++ snd (rendered (merged_blocks env filename default_content)))%list)
         s0)
    /\ (s0 = s \/ exists msg, s0 = with_stdout (stdout s ++ [msg])%list s).
Proof.
  intros Hd.
  assert (Hrender : forall s0 text,
             document s0 = Some d ->
             (s0 = s \/ exists msg, s0 = with_stdout (stdout s ++ [msg])%list s) ->
             exists s1,
               add_paragraphs text s0
               = (fst (rendered (content_blocks text)),
                  with_document
                    (Some (d ++ snd (rendered (content_blocks text)))%list) s1)
               /\ (s1 = s \/ exists msg, s1 = with_stdout (stdout s ++ [msg])%list s)).
  { intros s0 text Hd0 Hs0; exists s0; split;
      [apply add_paragraphs_run; exact Hd0 | exact Hs0]. }
  assert (Hskip : forall s0,
             document s0 = Some d ->
             (s0 = s \/ exists msg, s0 = with_stdout (stdout s ++ [msg])%list s) ->
             exists s1,
               (Ok tt, s0)
               = (fst (rendered []),
                  with_document (Some (d ++ snd (rendered []))%list) s1)
               /\ (s1 = s \/ exists msg, s1 = with_stdout (stdout s ++ [msg])%list s)).
  { intros s0 Hd0 Hs0; exists s0; split; [|exact Hs0].
    cbn [rendered fst snd]; rewrite (with_document_nil _ _ Hd0); reflexivity. }
  assert (Hout : forall msg,
             document (with_stdout (stdout s ++ [msg])%list s) = Some d)
    by (intros msg; destruct s; exact Hd).
  unfold add_markdown_content, merged_blocks, merged_content, bind,
    read_markdown_file, try_except.
  destruct (read_text env filename) as [| |content];
    cbn [print modify bind raise ret present negb andb].
  - destruct default_content as [text|]; cbn [present];
      [destruct (PyStr.truthy text)|]; cbn [negb andb];
      first [apply Hrender | apply Hskip];
      first [apply Hout | right; eexists; reflexivity].
  - destruct default_content as [text|]; cbn [present];
      [destruct (PyStr.truthy text)|]; cbn [negb andb];
      first [apply Hrender | apply Hskip];
      first [apply Hout | right; eexists; reflexivity].
  - destruct (PyStr.truthy (PyStr.strip content)); cbn [negb andb].
    + apply Hrender; [exact Hd | left; reflexivity].
    + destruct default_content as [text|]; cbn [present];
        [destruct (PyStr.truthy text)|]; cbn [negb andb];
        first [apply Hrender | apply Hskip];
        first [exact Hd | left; reflexivity].
Qed.

(** A loader that returns has appended the blocks of the merged text. *)
Lemma add_markdown_content_ok (env : Env) (filename : string)
    (default_content : option string) (s s' : State) (d : Document) :
  document s = Some d ->
  add_markdown_content env filename default_content s = (Ok tt, s') ->
  forallb Docx.accepts (merged_blocks env filename default_content) = true
  /\ document s' = Some (d ++ merged_blocks env filename default_content)%list
  /\ same_outside_document s s'.
Proof.
  intros Hd H.
  destruct (add_markdown_content_run env filename default_content s d Hd)
    as [s0 [Hrun Hs0]].
  rewrite Hrun in H.
  destruct (rendered_cases (merged_blocks env filename default_content))
    as [[Ha E] | [_ E]]; rewrite E in H; [|discriminate].
  cbn [fst snd] in H; injection H as <-.
  split; [exact Ha|]; split; [reflexivity|].
  destruct Hs0 as [-> | [msg ->]]; destruct s; repeat split.
Qed.

Lemma add_introduction_ok (env : Env) (s s' : State) (d : Document) :
  document s = Some d ->
  add_introduction env s = (Ok tt, s') ->
  document s'
  = Some (d ++ Heading "Executive Summary" 1
            :: merged_blocks env "introduction.md" (Some (default_intro env)))%list
  /\ same_outside_document s s'.
Proof.
  intros Hd H; unfold add_introduction, add_heading in H.
  apply bind_ok in H as [[] [s1 [H1 H]]].
  apply (add_text_ok _ _ _ _ _ Hd) in H1; subst s1.
  apply bind_ok in H as [[] [s2 [H2 H]]].
  apply add_markdown_content_ok
    with (d := (d ++ [Heading "Executive Summary" 1])%list) in H2;
    [|reflexivity].
  destruct H2 as [_ [Hd2 S2]].
  injection H as <-.
  split.
  - destruct s2; cbn in *; rewrite Hd2, <- app_assoc; reflexivity.
  - destruct s, s2; exact S2.
Qed.

Lemma on_last_app {A} (f : A -> A) (l : list A) (x : A) :
  Docx.on_last f (l ++ [x])%list = (l ++ [f x])%list.
Proof.
  induction l as [|a l IH]; [reflexivity|].
  cbn [app Docx.on_last]; rewrite IH.
  destruct (l ++ [x])%list eqn:E; [destruct l; discriminate | reflexivity].
Qed.

(** A change to the table leaves everything else as it was. *)
Lemma keeps_table_edit (before : Document) (ref : State) (f : Block -> Block) :
  (forall header body,
      exists header' body', f (Table header body) = Table header' body') ->
  keeps (table_in_hand before ref) (edit_last f).
Proof.
  intros Hf st [[header [body Hd]] Hs].
  unfold edit_last, bind, get; rewrite Hd.
  cbn [set_document modify snd]; rewrite on_last_app.
  destruct (Hf header body) as [header' [body' ->]].
  split; [exists header', body'; destruct st; reflexivity | destruct st; exact Hs].
Qed.

Lemma keeps_table_text (before : Document) (ref : State) (text : string)
    (put : string -> Block -> Block) :
  (forall t header body,
      exists header' body', put t (Table header body) = Table header' body') ->
  keeps (table_in_hand before ref) (set_text text put).
Proof.
  intros Hput; unfold set_text; destruct (Docx.xml_compatible text).
  - apply keeps_table_edit, Hput.
  - apply keeps_bind; [apply keeps_table_edit, Hput | intros _; apply keeps_raise].
Qed.

(** Filling the table, header and rows, changes the table only. *)
Lemma keeps_table_header (before : Document) (ref : State) (df : DataFrame) :
  keeps (table_in_hand before ref)
    (for_each (enumerate (columns df))
       (fun column => set_text (snd column) (Docx.header_cell (fst column)))).
Proof.
  apply keeps_for_each; intros column; apply keeps_table_text.
  intros; eexists _, _; reflexivity.
Qed.

Lemma keeps_table_rows (before : Document) (ref : State) (df : DataFrame) :
  keeps (table_in_hand before ref)
    (for_each (rows df)
       (fun r =>
          edit_last (Docx.add_row (List.length (columns df))) ;;
          for_each (enumerate (row_values df r))
            (fun cell =>
               text <- lift (cell_str (snd cell)) ;;
               set_text text (Docx.row_cell (fst cell))))).
Proof.
  apply keeps_for_each; intros r; apply keeps_bind; [|intros _].
  - apply keeps_table_edit; intros; eexists _, _; reflexivity.
  - apply keeps_for_each; intros cell; apply keeps_bind; [apply keeps_lift|].
    intros text; apply keeps_table_text.
    intros; eexists _, _; reflexivity.
Qed.

(** A table section that returns has appended the heading, the summary line
    and a table. *)
Lemma add_budget_table_ok (s s' : State) (df : DataFrame) (d : Document) (r : bool) :
  data s = Some df ->
  document s = Some d ->
  add_budget_table s = (Ok r, s') ->
  r = true
  /\ (exists header body,
        document s'
        = Some (d ++ [Heading "Budget Allocation Details" 1;
                      Paragraph (summary_text df) Normal;
                      Table header body])%list)
  /\ same_outside_document s s'.
Proof.
  intros Hdata Hd H; unfold add_budget_table, add_heading, add_paragraph in H.
  apply bind_ok in H as [s0 [s1 [Hget H]]]; injection Hget as <- <-.
  rewrite Hdata in H; cbv zeta in H.
  apply bind_ok in H as [[] [s1 [H1 H]]].
  apply (add_text_ok _ _ _ _ _ Hd) in H1; subst s1.
  apply bind_ok in H as [[] [s2 [H2 H]]].
  apply add_text_ok
    with (d := (d ++ [Heading "Budget Allocation Details" 1])%list) in H2;
    [|reflexivity].
  subst s2.
  apply bind_ok in H as [[] [s3 [H3 H]]].
  rewrite append_block_run
    with (d := ((d ++ [Heading "Budget Allocation Details" 1])
                ++ [Paragraph (summary_text df) Normal])%list) in H3
    by reflexivity.
  injection H3 as <-.
  set (before := ((d ++ [Heading "Budget Allocation Details" 1])
                  ++ [Paragraph (summary_text df) Normal])%list) in *.
  match type of H with
  | bind _ _ ?st = _ =>
      assert (T : table_in_hand before s st)
        by (split; [eexists _, _; reflexivity | destruct s; repeat split])
  end.
  apply bind_ok in H as [[] [s4 [H4 H]]].
  apply (keeps_table_header before s df) in T; rewrite H4 in T; cbn [snd] in T.
  apply bind_ok in H as [[] [s5 [H5 H]]].
  apply (keeps_table_rows before s df) in T; rewrite H5 in T; cbn [snd] in T.
  injection H as <- <-.
  destruct T as [[header [body Hd5]] S5].
  split; [reflexivity|]; split.
  - exists header, body; destruct s5; cbn in *; rewrite Hd5.
    unfold before; rewrite <- !app_assoc; reflexivity.
  - destruct s, s5; exact S5.
Qed.

(** A key findings section that returns: the analysis returned, and the
    heading and the merged bullet text are appended; the derived column is
    in the data when both amounts are there. *)
Lemma add_key_points_ok (env : Env) (s s' : State) (df : DataFrame) (d : Document) :
  data s = Some df ->
  document s = Some d ->
  add_key_points env s = (Ok tt, s') ->
  exists points,
    Analysis.key_points (Some df) = Ok points
    /\ document s'
       = Some (d ++ Heading "Key Findings" 1
                 :: merged_blocks env "key_points.md"
                      (Some (bullet_list points)))%list
    /\ data s'
       = Some (if has_Budgeted df && has_Remaining df
               then Analysis.with_utilization df else df)
    /\ untouched s s'.
Proof.
  intros Hdata Hd H; unfold add_key_points, add_heading in H.
  apply bind_ok in H as [[] [s1 [H1 H]]].
  apply (add_text_ok _ _ _ _ _ Hd) in H1; subst s1.
  apply bind_ok in H as [s0 [s1 [Hget H]]]; injection Hget as <- <-.
  replace (data (with_document (Some (d ++ [Heading "Key Findings" 1])%list) s))
    with (Some df) in H by (destruct s; symmetry; exact Hdata).
  apply bind_ok in H as [[] [s2 [H2 H]]].
  apply bind_ok in H as [points [s3 [H3 H]]].
  injection H3 as Hpoints <-.
  exists points; split; [exact Hpoints|].
  apply bind_ok in H as [[] [s4 [H4 H]]].
  injection H as <-.
  assert (F2 : document s2 = Some (d ++ [Heading "Key Findings" 1])%list
               /\ data s2
                  = Some (if has_Budgeted df && has_Remaining df
                          then Analysis.with_utilization df else df)
               /\ untouched s s2).
  { destruct (has_Budgeted df && has_Remaining df);
      injection H2 as <-; destruct s; cbn in *; subst; repeat split. }
  destruct F2 as [Hd2 [Hdata2 U2]].
  apply (add_markdown_content_ok _ _ _ _ _ _ Hd2) in H4 as [_ [Hd4 S4]].
  destruct S4 as [_ [Ho [Hdat [_ [Hsv Hcf]]]]], U2 as [Uo [Usv Ucf]].
  destruct s4;
    cbn [document data output_file saved chart_files with_stdout] in *.
  split; [rewrite Hd4, <- app_assoc; reflexivity|].
  split; [rewrite Hdat; exact Hdata2|].
  split; [rewrite Ho; exact Uo|].
  split; [rewrite Hsv; exact Usv | rewrite Hcf; exact Ucf].
Qed.

(** The chart section on a loaded table and an existing document.  When
    the description is taken, every failure of the backend is caught and the
    picture is appended when there is none; the image file is written once
    [savefig] has run.  When the description is refused the section raises
    before the chart is begun. *)
Lemma add_budget_chart_run (env : Env) (s : State) (df : DataFrame) (d : Document) :
  data s = Some df ->
  document s = Some d ->
  exists s',
    (if forallb Docx.accepts
          (merged_blocks env "chart_description.md" (Some chart_desc))
       then add_budget_chart env s
            = (Ok (match chart_fault env (chart_frame df) with
                   | None => true
                   | Some _ => false
                   end), s')
            /\ document s'
               = Some (d ++ Heading "Budget Visualization" 1
                         :: merged_blocks env "chart_description.md" (Some chart_desc)
                         ++ chart_blocks (chart_fault env (chart_frame df)))%list
            /\ chart_files s'
               = (match chart_fault env (chart_frame df) with
                  | None | Some AddPicture => ["budget_chart.png"]
                  | Some _ => []
                  end ++ chart_files s)%list
       else add_budget_chart env s = (Raise ValueError, s')
            /\ chart_files s' = chart_files s
            /\ open_figures s' = open_figures s)
    /\ data s' = data s /\ excel_file s' = excel_file s
    /\ output_file s' = output_file s /\ saved s' = saved s.
Proof.
  intros Hdata Hd.
  unfold add_budget_chart, add_heading.
  rewrite bind_run; unfold get; cbv beta iota; rewrite Hdata.
  rewrite bind_run, (add_text_taken "Budget Visualization" _ s d Hd eq_refl).
  rewrite bind_run.
  destruct (add_markdown_content_run env "chart_description.md" (Some chart_desc)
              (with_document (Some (d ++ [Heading "Budget Visualization" 1])%list) s)
              (d ++ [Heading "Budget Visualization" 1])%list eq_refl)
    as [s0 [-> Hs0]].
  destruct (rendered_cases
              (merged_blocks env "chart_description.md" (Some chart_desc)))
    as [[-> ->] | [-> ->]]; cbn [fst snd].
  - unfold chart_frame, chart_blocks.
    destruct s as [ef ofile doc dat out figs svd cfs]; cbn in Hdata, Hd; subst doc dat.
    destruct Hs0 as [-> | [msg ->]];
      match goal with
      | |- context [chart_fault ?e ?f] => destruct (chart_fault e f) as [[]|]
      end;
      cbv beta iota zeta delta
        [try_except backend fails_at bind get ret raise print modify
         set_open_figures append_block edit_last set_document record_chart_file
         with_stdout with_document with_open_figures with_chart_files
         document data excel_file output_file open_figures saved stdout
         chart_files];
      rewrite ?on_last_app;
      eexists;
      (split;
       [split; [reflexivity|];
        cbn [document data excel_file output_file saved chart_files app];
        rewrite <- ?app_assoc, ?app_nil_r; split; reflexivity
       | repeat split]).
  - destruct s as [ef ofile doc dat out figs svd cfs].
    destruct Hs0 as [-> | [msg ->]]; eexists;
      (split; [split; [reflexivity | split; reflexivity] | repeat split;
                                                          assumption]).
Qed.

(** Saving never raises: it returns [True] and writes the document when
    there is one and the backend accepts it, [False] with nothing written
    otherwise. *)
Lemma save_document_cases (env : Env) (s : State) :
  (exists doc,
     document s = Some doc /\ save_fails env (output_file s) = false
     /\ save_document env s
        = (Ok true,
           with_stdout (stdout s ++ [MsgSaved (output_file s)])%list
             {| excel_file := excel_file s; output_file := output_file s;
                document := document s; data := data s; stdout := stdout s;
                open_figures := open_figures s;
                saved := (output_file s, doc) :: saved s;
                chart_files := chart_files s |}))
  \/ ((document s = None \/ save_fails env (output_file s) = true)
      /\ save_document env s
         = (Ok false, with_stdout (stdout s ++ [MsgSaveError])%list s)).
Proof.
  destruct s as [ef ofile [doc|] dat out figs svd cfs];
    unfold save_document, try_except, bind, get; cbn.
  - destruct (save_fails env ofile) eqn:Hf.
    + right; split; [right|]; reflexivity.
    + left; exists doc; repeat split; exact Hf.
  - right; split; [left|]; reflexivity.
Qed.

(* ================================================================== *)
(** ** The run as a whole *)

Lemma untouched_stdout ref s m :
  untouched ref s -> untouched ref (with_stdout (stdout s ++ [m])%list s).
Proof. destruct s; exact (fun H => H). Qed.

Lemma untouched_document ref s (d : Document) :
  untouched ref s -> untouched ref (with_document (Some d) s).
Proof. destruct s; exact (fun H => H). Qed.

Lemma untouched_data ref s (d : DataFrame) :
  untouched ref s -> untouched ref (with_data (Some d) s).
Proof. destruct s; exact (fun H => H). Qed.

Ltac section_keeps_untouched :=
  first [ apply keeps_add_introduction | apply keeps_add_budget_table
        | apply keeps_add_key_points ];
  intros;
  first [ apply untouched_stdout | apply untouched_document
        | apply untouched_data ];
  assumption.

Lemma load_data_cases (env : Env) (s : State) :
  (exists df,
     read_excel env (excel_file s) = ExcelFrame df
     /\ load_data env s
        = (Ok true,
           with_stdout
             (stdout s ++ [MsgLoaded (excel_file s) (columns df)
                             (List.length (rows df))])%list
             (with_data (Some df) s)))
  \/ ((forall df, read_excel env (excel_file s) <> ExcelFrame df)
      /\ exists m, load_data env s
                   = (Ok false, with_stdout (stdout s ++ [m])%list s)).
Proof.
  unfold load_data, bind, get.
  destruct (read_excel env (excel_file s)) as [df| |].
  - left; exists df; split; [reflexivity|]; destruct s; reflexivity.
  - right; split; [discriminate | eexists; reflexivity].
  - right; split; [discriminate | eexists; reflexivity].
Qed.

Lemma generate_report_unreadable (env : Env) (s : State) :
  (forall df, read_excel env (excel_file s) <> ExcelFrame df) ->
  exists m,
    generate_report env s
    = (Ok false, with_stdout (stdout s ++ [MsgStarting; m])%list s).
Proof.
  intros Hbad; unfold generate_report.
  rewrite bind_run; unfold print at 1, modify at 1; rewrite bind_run.
  destruct (load_data_cases env (with_stdout (stdout s ++ [MsgStarting])%list s))
    as [[df [Hexcel _]] | [_ [m ->]]].
  - exfalso; apply (Hbad df); destruct s; exact Hexcel.
  - exists m; cbn [negb]; unfold ret.
    destruct s; cbn; rewrite <- app_assoc; reflexivity.
Qed.

(** A section has raised: the run ends there, and no file was written. *)
Ltac section_raised H U :=
  let K := fresh "K" in
  match type of H with
  | ?m ?st = (Raise ?e, _) =>
      match type of U with
      | untouched ?ref _ =>
          assert (K : keeps (untouched ref) m) by section_keeps_untouched;
          specialize (K st U); rewrite H in K; destruct K as [_ [? ?]];
          intros ? ? [= <- <-]; split; [left; assumption|];
          left; exists e; split; [reflexivity | assumption]
      end
  end.

(** The run on a table that was loaded.  Either a section raises, and then
    no report is saved; or all sections return, the document has the five
    sections in their order, and the result is that of saving it.  The image
    of the chart is the only other file that may be written. *)
Lemma generate_report_loaded (env : Env) (s : State) (df : DataFrame) :
  read_excel env (excel_file s) = ExcelFrame df ->
  forall r s',
    generate_report env s = (r, s') ->
    chart_written s s'
    /\ ((exists e, r = Raise e /\ saved s' = saved s)
        \/ (exists intro header body points description picture success,
              let doc :=
                report_layout ("Budget Report - " ++ Strftime.BdY (now env))
                  intro (summary_text df) header body
                  (merged_blocks env "key_points.md" (Some (bullet_list points)))
                  description picture in
              Analysis.key_points (Some df) = Ok points
              /\ Forall (fun b => is_paragraph b = true) intro
              /\ Forall (fun b => is_paragraph b = true) description
              /\ (exists fault, picture = chart_blocks fault)
              /\ r = Ok success
              /\ success = negb (save_fails env (output_file s))
              /\ document s' = Some doc
              /\ saved s'
                 = ((if success then [(output_file s, doc)] else [])
                    ++ saved s)%list)).
Proof.
  intros Hexcel; unfold generate_report.
  rewrite bind_run; unfold print at 1, modify at 1; rewrite bind_run.
  destruct (load_data_cases env (with_stdout (stdout s ++ [MsgStarting])%list s))
    as [[df' [Hexcel' ->]] | [Hbad _]].
  2: { exfalso; apply (Hbad df); destruct s; exact Hexcel. }
  assert (df' = df) as -> by (destruct s; cbn in Hexcel, Hexcel'; congruence).
  cbn [negb]; rewrite bind_run, create_document_run.
  match goal with
  | |- forall r s', bind _ _ ?st = _ -> _ =>
      assert (F3 : document st
                   = Some [Heading ("Budget Report - " ++ Strftime.BdY (now env)) 0]
                   /\ data st = Some df /\ untouched s st)
        by (destruct s; repeat split);
      generalize dependent st; intros s3 [Hd3 [Hdata3 U3]]
  end.
  (* the executive summary *)
  rewrite bind_run.
  destruct (add_introduction env s3) as [[[]|e] s4] eqn:H4; [|section_raised H4 U3].
  apply (add_introduction_ok _ _ _ _ Hd3) in H4 as [Hd4 S4].
  assert (Hdata4 : data s4 = Some df)
    by (destruct S4 as [_ [_ [E _]]]; congruence).
  assert (U4 : untouched s s4).
  { destruct S4 as [_ [? [_ [_ [? ?]]]]], U3 as [? [? ?]].
    repeat split; congruence. }
  (* the table *)
  rewrite bind_run.
  destruct (add_budget_table s4) as [[r5|e] s5] eqn:H5; [|section_raised H5 U4].
  apply (add_budget_table_ok _ _ _ _ _ Hdata4 Hd4) in H5
    as [_ [[header [body Hd5]] S5]].
  assert (Hdata5 : data s5 = Some df)
    by (destruct S5 as [_ [_ [E _]]]; congruence).
  assert (U5 : untouched s s5).
  { destruct S5 as [_ [? [_ [_ [? ?]]]]], U4 as [? [? ?]].
    repeat split; congruence. }
  (* the key findings *)
  rewrite bind_run.
  destruct (add_key_points env s5) as [[[]|e] s6] eqn:H6; [|section_raised H6 U5].
  apply (add_key_points_ok _ _ _ _ _ Hdata5 Hd5) in H6
    as [points [Hpoints [Hd6 [Hdata6 U6']]]].
  assert (U6 : untouched s s6).
  { destruct U6' as [? [? ?]], U5 as [? [? ?]]; repeat split; congruence. }
  (* the chart *)
  rewrite bind_run.
  destruct (add_budget_chart_run env s6 _ _ Hdata6 Hd6)
    as [s7 [Hchart [_ [_ [Ho7 Hsv7]]]]].
  destruct U6 as [Ho6 [Hsv6 Hcf6]].
  destruct (forallb Docx.accepts _).
  2: { destruct Hchart as [-> [Hcf7 _]].
       intros r s' [= <- <-]; split; [left; congruence|].
       left; eexists; split; [reflexivity | congruence]. }
  destruct Hchart as [-> [Hd7 Hcf7]].
  assert (W7 : chart_written s s7).
  { unfold chart_written; rewrite Hcf7, Hcf6.
    destruct (chart_fault env _) as [[]|]; cbn [app]; auto. }
  clear Hcf7.
  set (picture := chart_blocks (chart_fault env _)) in Hd7.
  assert (Hpicture : exists fault, picture = chart_blocks fault)
    by (eexists; reflexivity).
  clearbody picture.
  assert (Hlayout :
            document s7
            = Some (report_layout ("Budget Report - " ++ Strftime.BdY (now env))
                      (merged_blocks env "introduction.md" (Some (default_intro env)))
                      (summary_text df) header body
                      (merged_blocks env "key_points.md" (Some (bullet_list points)))
                      (merged_blocks env "chart_description.md" (Some chart_desc))
                      picture)).
  { rewrite Hd7; unfold report_layout; cbn [app].
    rewrite <- !app_assoc; reflexivity. }
  clear Hd7.
  (* the save *)
  rewrite bind_run.
  destruct (save_document_cases env s7) as [[doc [Hdoc [Hok ->]]] | [Hwhy ->]].
  - unfold bind, get, print, modify, ret; cbv beta iota.
    intros r s' [= <- <-]; split; [destruct s7; exact W7|].
    right.
    eexists _, header, body, points, _, picture, true; cbv zeta.
    split; [exact Hpoints|].
    split; [apply merged_blocks_paragraphs|].
    split; [apply merged_blocks_paragraphs|].
    split; [exact Hpicture|].
    split; [reflexivity|].
    split; [rewrite <- Ho6, <- Ho7, Hok; reflexivity|].
    rewrite Hlayout in Hdoc; injection Hdoc as <-.
    split; [destruct s7; exact Hlayout|].
    destruct s7; cbn in *; congruence.
  - unfold bind, ret; cbv beta iota.
    intros r s' [= <- <-]; split; [destruct s7; exact W7|].
    right.
    eexists _, header, body, points, _, picture, false; cbv zeta.
    split; [exact Hpoints|].
    split; [apply merged_blocks_paragraphs|].
    split; [apply merged_blocks_paragraphs|].
    split; [exact Hpicture|].
    split; [reflexivity|].
    split.
    { destruct Hwhy as [Hnone | Hfail]; [congruence|].
      rewrite <- Ho6, <- Ho7, Hfail; reflexivity. }
    split; [destruct s7; exact Hlayout|].
    destruct s7; cbn in *; congruence.
Qed.

(** X3: the files a run writes.  The report is written at most once, at
    the output path, and only when the pipeline returns [True]: whenever it
    returns [False] or ends in an exception, no report has been saved.  The
    only other file a run may write is the image of the chart,
    budget_chart.png, and it is written at most once. *)
Theorem report_is_written_only_on_success (env : Env) (s : State) :
  ((fst (generate_report env s) = Ok true
    /\ exists doc,
         saved (snd (generate_report env s)) = (output_file s, doc) :: saved s)
   \/ (fst (generate_report env s) <> Ok true
       /\ saved (snd (generate_report env s)) = saved s))
  /\ (chart_files (snd (generate_report env s)) = chart_files s
      \/ chart_files (snd (generate_report env s))
         = "budget_chart.png" :: chart_files s).
Proof.
  destruct (generate_report env s) as [r s'] eqn:E; cbn [fst snd].
  destruct (read_excel env (excel_file s)) as [df| |] eqn:Hexcel.
  - destruct (generate_report_loaded env s df Hexcel r s' E) as [W Hrun].
    split; [|exact W].
    destruct Hrun
      as [[e [-> Hsv]]
         | [intro [header [body [points [description [picture [success Hrun]]]]]]]].
    + right; split; [discriminate | exact Hsv].
    + cbv zeta in Hrun.
      destruct Hrun as [_ [_ [_ [_ [-> [_ [_ Hsv]]]]]]].
      destruct success; cbn [app] in Hsv.
      * left; split; [reflexivity | eexists; exact Hsv].
      * right; split; [discriminate | exact Hsv].
  - destruct (generate_report_unreadable env s) as [m Hrun];
      [rewrite Hexcel; discriminate|].
    rewrite Hrun in E; injection E as <- <-.
    split; [right; split; [discriminate|] | left]; destruct s; reflexivity.
  - destruct (generate_report_unreadable env s) as [m Hrun];
      [rewrite Hexcel; discriminate|].
    rewrite Hrun in E; injection E as <- <-.
    split; [right; split; [discriminate|] | left]; destruct s; reflexivity.
Qed.



(* ================================================================== *)
(** ** Analyzer: which rows the insights name *)

(** A row of the frame with its derived column, outside the TOTALS row,
    comes from a row of the table that is not the TOTALS row. *)
Lemma non_total_row (df : DataFrame) (r : Row) :
  has_Task df = true ->
  In r (Analysis.non_total (Analysis.with_utilization df)) ->
  exists r0,
    In r0 (rows df) /\ Task r0 <> "TOTALS"
    /\ Task r = Task r0 /\ Utilization r = Analysis.utilization_pct r0.
Proof.
  intros Ht; unfold Analysis.non_total, Analysis.with_utilization.
  cbn [has_Task rows]; rewrite Ht; intros Hin.
  apply filter_In in Hin as [Hin Hne].
  apply in_map_iff in Hin as [r0 [<- Hin0]]; cbn [Task Utilization] in *.
  exists r0; repeat split; [exact Hin0|].
  intros E; rewrite E in Hne; discriminate.
Qed.

(** X5: the tasks named as highest and lowest are rows of the table and
    never its TOTALS row, and the rate printed with each is that row's own
    utilization: when the table has a Task column and the insights are the
    data-derived ones, the second and third sentences are built from two
    rows of the table whose task is not "TOTALS". *)
Theorem highest_and_lowest_are_tasks (df : DataFrame) (points : list string) :
  has_Task df = true ->
  data_derived (Some df) = true ->
  Analysis.key_points (Some df) = Ok points ->
  exists high low overall funds,
    In high (rows df) /\ In low (rows df)
    /\ Task high <> "TOTALS" /\ Task low <> "TOTALS"
    /\ points
       = [ overall;
           "Highest utilization: " ++ Task high ++ " at "
             ++ Num.format_f false 1 (Analysis.utilization_pct high) ++ "%";
           "Lowest utilization: " ++ Task low ++ " at "
             ++ Num.format_f false 1 (Analysis.utilization_pct low) ++ "%";
           funds ].
Proof.
  intros Ht Hd; unfold data_derived in Hd.
  apply andb_prop in Hd as [Hd Hn]; apply andb_prop in Hd as [Hcols Hrows].
  unfold Analysis.key_points; rewrite Hcols.
  unfold Analysis.dynamic_key_points.
  rewrite non_total_with_utilization, Hn.
  replace (List.length (rows (Analysis.with_utilization df)))
    with (List.length (rows df))
    by (unfold Analysis.with_utilization; cbn [rows]; now rewrite length_map).
  rewrite Hrows.
  destruct (Analysis.idxmax _) as [hi|] eqn:Hhi; [|discriminate].
  destruct (Analysis.idxmin _) as [lo|] eqn:Hlo; [|discriminate].
  apply idxmax_bound in Hhi; apply idxmin_bound in Hlo.
  rewrite length_map in Hhi, Hlo.
  unfold Analysis.task_of.
  replace (has_Task (Analysis.with_utilization df)) with true by (symmetry; exact Ht).
  cbn [Analysis.or_default]; intros [= <-].
  destruct (non_total_row df _ Ht (nth_In _ Analysis.blank_row Hhi))
    as [high [Hin1 [Hne1 [Ht1 Hu1]]]].
  destruct (non_total_row df _ Ht (nth_In _ Analysis.blank_row Hlo))
    as [low [Hin2 [Hne2 [Ht2 Hu2]]]].
  exists high, low; eexists _, _.
  rewrite Ht1, Hu1, Ht2, Hu2.
  repeat split; assumption.
Qed.

Lemma highest_and_lowest_are_tasks_witness :
  exists high low overall funds,
    In high (rows World.one_task) /\ In low (rows World.one_task)
    /\ Task high <> "TOTALS" /\ Task low <> "TOTALS"
    /\ [ "Overall budget utilization stands at 80.0%";
         "Highest utilization: Design at 80.0%";
         "Lowest utilization: Design at 80.0%";
         "Total remaining funds: $400" ]
       = [ overall;
           "Highest utilization: " ++ Task high ++ " at "
             ++ Num.format_f false 1 (Analysis.utilization_pct high) ++ "%";
           "Lowest utilization: " ++ Task low ++ " at "
             ++ Num.format_f false 1 (Analysis.utilization_pct low) ++ "%";
           funds ].
Proof.
  apply (highest_and_lowest_are_tasks World.one_task).
  - reflexivity.
  - reflexivity.
  - vm_compute; reflexivity.
Defined.

Lemma sum_zero_or_missing (l : list float) :
  Forall (fun x => x = 0%float \/ is_nan x = true) l ->
  Num.sum l = 0%float.
Proof.
  unfold Num.sum; induction l as [|x l IH]; intros H; [reflexivity|].
  inversion H as [|? ? Hx Hl]; subst; cbn [fold_left].
  replace (if is_nan x then 0%float else (0 + x)%float) with 0%float;
    [apply IH; exact Hl|].
  destruct Hx as [-> | ->]; reflexivity.
Qed.

(** X6: a table without any budget never divides by zero in the summary.
    When the Budgeted column is missing, or every cell of it is zero or
    empty (no rows at all included), the total budget is 0, the overall rate
    is 0 whatever remains, and the summary line reads "Total Budget: $0 |
    Utilization Rate: 0.0% | Remaining: $..." with the total of the
    Remaining column. *)
Theorem unbudgeted_summary (df : DataFrame) :
  unbudgeted df ->
  total_budgeted df = 0%float
  /\ (forall remaining,
        Analysis.utilization_rate (total_budgeted df) remaining = 0%float)
  /\ summary_text df
     = "Total Budget: $0 | Utilization Rate: 0.0% | Remaining: $"
       ++ Num.format_f true 0 (total_remaining df).
Proof.
  intros H.
  assert (H0 : total_budgeted df = 0%float).
  { unfold total_budgeted; destruct H as [-> | H]; [reflexivity|].
    destruct (has_Budgeted df); [|reflexivity].
    apply sum_zero_or_missing, Forall_map; exact H. }
  split; [exact H0|]; split.
  - intros remaining; rewrite H0; reflexivity.
  - unfold summary_text; rewrite H0; reflexivity.
Qed.

Lemma unbudgeted_summary_witness :
  summary_text Sample.no_budget
  = "Total Budget: $0 | Utilization Rate: 0.0% | Remaining: $700".
Proof.
  destruct (unbudgeted_summary Sample.no_budget) as [_ [_ H]].
  - right; constructor; [left; reflexivity|].
    constructor; [right; reflexivity | constructor].
  - rewrite H; vm_compute; reflexivity.
Defined.

(* ================================================================== *)
(** ** Runs that end early *)

Lemma keeps_probe (I : State -> Prop)
    (I_stdout : forall s m, I s -> I (with_stdout (stdout s ++ [m])%list s))
    (env : Env) (base : Path.t) (fuel : nat) :
  forall counter, keeps I (probe env fuel base counter).
Proof.
  induction fuel as [|fuel IH]; intros counter; cbn [probe].
  - apply keeps_raise.
  - destruct (negb _).
    + apply keeps_bind; [apply keeps_print; exact I_stdout|].
      intros _; apply keeps_ret.
    + destruct (100 <? counter + 1)%nat; [apply keeps_ret | apply IH].
Qed.

(** The constructor returns, with the input path set, no document, no data
    and nothing saved. *)
Lemma init_run (env : Env) (excel : string) (output : option string) (s : State) :
  exists s1,
    __init__ env excel output s = (Ok tt, s1)
    /\ excel_file s1 = excel /\ document s1 = None /\ data s1 = None
    /\ saved s1 = saved s.
Proof.
  unfold __init__; destruct output as [file|].
  - eexists; split; [reflexivity|]; destruct s; repeat split.
  - rewrite bind_run.
    set (base := Path.div reports_dir _).
    destruct (unique_filename_total env base s) as [p [s0 [Hrun _]]].
    assert (K : keeps (fun st => saved st = saved s) (_get_unique_filename env base)).
    { unfold _get_unique_filename; destruct (negb _); [apply keeps_ret|].
      apply keeps_probe; intros st m H; destruct st; exact H. }
    specialize (K s eq_refl); rewrite Hrun in K |- *; cbn [snd] in K.
    eexists; split; [reflexivity|]; destruct s0; repeat split; exact K.
Qed.

(** X7: an input file that cannot be read ends the run at once.  Whether
    the file is missing or malformed, [main] returns 1, no document is
    created, no data is kept and nothing is saved. *)
Theorem unreadable_input_fails_the_run (env : Env) (args : Args) (s : State) :
  (forall df, read_excel env (arg_input args) <> ExcelFrame df) ->
  exists s',
    main env args s = (Ok 1, s')
    /\ document s' = None /\ data s' = None /\ saved s' = saved s.
Proof.
  intros Hbad; unfold main.
  rewrite bind_run.
  assert (Hv : exists s0,
             (if arg_verbose args
              then print (MsgVerbose (arg_input args) (arg_output args))
              else ret tt) s = (Ok tt, s0)
             /\ saved s0 = saved s).
  { destruct (arg_verbose args); eexists; split; reflexivity. }
  destruct Hv as [s0 [-> Hs0]].
  rewrite bind_run.
  destruct (init_run env (arg_input args) (arg_output args) s0)
    as [s1 [-> [Hfile [Hdoc [Hdata Hs1]]]]].
  rewrite bind_run.
  rewrite <- Hfile in Hbad.
  destruct (generate_report_unreadable env s1 Hbad) as [m ->].
  eexists; split; [reflexivity|].
  destruct s1; cbn in *; repeat split; congruence.
Qed.

Lemma unreadable_input_fails_the_run_witness :
  fst (main Sample.quiet Sample.args boot) = Ok 1
  /\ saved (snd (main Sample.quiet Sample.args boot)) = [].
Proof.
  destruct (unreadable_input_fails_the_run Sample.quiet Sample.args boot)
    as [s' [Hrun [_ [_ Hsaved]]]].
  - intros df; discriminate.
  - rewrite Hrun; split; [reflexivity | exact Hsaved].
Defined.

(** Without a Task column the insights cannot name a task. *)
Lemma key_points_without_task (df : DataFrame) :
  has_Task df = false ->
  has_Budgeted df = true ->
  has_Remaining df = true ->
  1 < List.length (rows df) ->
  exists e,
    Analysis.key_points (Some df) = Raise e
    /\ (e = ValueError \/ e = KeyError "Task").
Proof.
  intros Ht Hb Hr Hn.
  unfold Analysis.key_points; rewrite Hb, Hr; cbn [andb].
  unfold Analysis.dynamic_key_points.
  rewrite non_total_with_utilization.
  replace (List.length (rows (Analysis.with_utilization df)))
    with (List.length (rows df))
    by (unfold Analysis.with_utilization; cbn [rows]; now rewrite length_map).
  replace (List.length (Analysis.non_total df)) with (List.length (rows df))
    by (unfold Analysis.non_total; rewrite Ht; reflexivity).
  destruct (Nat.ltb_spec 1 (List.length (rows df))); [|lia].
  destruct (Nat.ltb_spec 0 (List.length (rows df))); [|lia].
  destruct (Analysis.idxmax _) as [hi|e] eqn:Hhi.
  2: { exists e; split; [reflexivity | left; exact (idxmax_raise _ _ Hhi)]. }
  destruct (Analysis.idxmin _) as [lo|e] eqn:Hlo.
  2: { exists e; split; [reflexivity | left; exact (idxmin_raise _ _ Hlo)]. }
  unfold Analysis.task_of.
  replace (has_Task (Analysis.with_utilization df)) with false
    by (symmetry; exact Ht).
  exists (KeyError "Task"); split; [reflexivity | right; reflexivity].
Qed.

Lemma generate_report_without_task (env : Env) (s : State) (df : DataFrame) :
  read_excel env (excel_file s) = ExcelFrame df ->
  has_Task df = false ->
  has_Budgeted df = true ->
  has_Remaining df = true ->
  1 < List.length (rows df) ->
  exists e s',
    generate_report env s = (Raise e, s') /\ saved s' = saved s.
Proof.
  intros Hexcel Ht Hb Hr Hn.
  destruct (generate_report env s) as [r s'] eqn:E.
  destruct (generate_report_loaded env s df Hexcel r s' E)
    as [_ [[e [-> Hsv]]
          | [intro [header [body [points [description [picture [success Hrun]]]]]]]]].
  - exists e, s'; split; [reflexivity | exact Hsv].
  - cbv zeta in Hrun; destruct Hrun as [Hpoints _].
    destruct (key_points_without_task df Ht Hb Hr Hn) as [e [He _]].
    congruence.
Qed.

(** X8: a table with the two amounts and at least two rows but no Task
    column ends the run in an exception: the key findings look up
    ['Task'] in the highest row and nothing catches the error, so
    [main] does not return, the process ends with status 1 and no report
    is saved. *)
Theorem missing_task_column_ends_the_run
    (env : Env) (args : Args) (s : State) (df : DataFrame) :
  read_excel env (arg_input args) = ExcelFrame df ->
  has_Task df = false ->
  has_Budgeted df = true ->
  has_Remaining df = true ->
  1 < List.length (rows df) ->
  (exists e, Analysis.key_points (Some df) = Raise e
             /\ (e = ValueError \/ e = KeyError "Task"))
  /\ (exists e s', main env args s = (Raise e, s') /\ saved s' = saved s)
  /\ exit_code env args s = 1.
Proof.
  intros Hexcel Ht Hb Hr Hn.
  split; [apply key_points_without_task; assumption|].
  assert (Hmain : exists e s', main env args s = (Raise e, s') /\ saved s' = saved s).
  { unfold main; rewrite bind_run.
    assert (Hv : exists s0,
               (if arg_verbose args
                then print (MsgVerbose (arg_input args) (arg_output args))
                else ret tt) s = (Ok tt, s0)
               /\ saved s0 = saved s).
    { destruct (arg_verbose args); eexists; split; reflexivity. }
    destruct Hv as [s0 [-> Hs0]].
    rewrite bind_run.
    destruct (init_run env (arg_input args) (arg_output args) s0)
      as [s1 [-> [Hfile [_ [_ Hs1]]]]].
    rewrite bind_run.
    rewrite <- Hfile in Hexcel.
    destruct (generate_report_without_task env s1 df Hexcel Ht Hb Hr Hn)
      as [e [s2 [-> Hs2]]].
    exists e, s2; split; [reflexivity | congruence]. }
  split; [exact Hmain|].
  destruct Hmain as [e [s' [Hrun _]]].
  unfold exit_code; rewrite Hrun; reflexivity.
Qed.

Lemma missing_task_column_ends_the_run_witness :
  fst (main (Sample.with_table Sample.no_task) Sample.args boot)
  = Raise (KeyError "Task")
  /\ exit_code (Sample.with_table Sample.no_task) Sample.args boot = 1.
Proof.
  destruct (missing_task_column_ends_the_run
              (Sample.with_table Sample.no_task) Sample.args boot Sample.no_task)
    as [_ [_ Hexit]]; try reflexivity.
  - cbn; lia.
  - split; [vm_compute; reflexivity | exact Hexit].
Defined.

(* ================================================================== *)
(** ** FileNamer: the name of the next run *)

Lemma take_drop_length (i : nat) (s : string) :
  String.length (PyStr.take i s) + String.length (PyStr.drop i s)
  = String.length s.
Proof.
  revert s; induction i as [|i IH]; intros s; [reflexivity|].
  destruct s as [|c s]; [reflexivity|].
  cbn [PyStr.take PyStr.drop String.length Nat.add]; rewrite IH; reflexivity.
Qed.

(** The stem and the suffix make up the name. *)
Lemma stem_suffix_length (p : Path.t) :
  String.length (Path.stem p) + String.length (Path.suffix p)
  = String.length (Path.name p).
Proof.
  unfold Path.stem, Path.suffix; destruct (Path.split_at_dot (Path.name p)).
  - apply take_drop_length.
  - cbn; lia.
Qed.

Lemma zeros_length (n : nat) : String.length (PyStr.zeros n) = n.
Proof. induction n as [|n IH]; cbn; [reflexivity | rewrite IH; reflexivity]. Qed.

Lemma pad_length (w n : nat) : w <= String.length (Strftime.pad w n).
Proof.
  unfold Strftime.pad, PyStr.zfill.
  rewrite string_length_app, zeros_length; lia.
Qed.

Lemma of_nat_length (k : nat) : k <= 100 -> String.length (PyStr.of_nat k) <= 3.
Proof.
  intros Hk.
  assert (H : forallb (fun n => (String.length (PyStr.of_nat n) <=? 3)%nat) (seq 0 101) = true)
    by (vm_compute; reflexivity).
  rewrite forallb_forall in H.
  apply Nat.leb_le, H, in_seq; lia.
Qed.

Lemma str_length (p : Path.t) :
  String.length (Path.str p)
  = String.length (Path.parent p) + 1 + String.length (Path.name p).
Proof.
  unfold Path.str; rewrite !string_length_app; cbn [String.length]; lia.
Qed.

Lemma versioned_length (base : Path.t) (k : nat) :
  k <= 100 ->
  String.length (Path.str (versioned base k))
  <= String.length (Path.str base) + 5.
Proof.
  intros Hk; rewrite !str_length; unfold versioned; cbn [Path.parent Path.name Path.div].
  rewrite !string_length_app; cbn [String.length].
  pose proof (of_nat_length k Hk); pose proof (stem_suffix_length base); lia.
Qed.

Lemma timestamped_length (env : Env) (base : Path.t) :
  String.length (Path.str base) + 7
  <= String.length (Path.str (timestamped env base)).
Proof.
  rewrite !str_length; unfold timestamped, Strftime.HMS;
    cbn [Path.parent Path.name Path.div].
  rewrite !string_length_app; cbn [String.length].
  pose proof (pad_length 2 (hour (now env))).
  pose proof (pad_length 2 (minute (now env))).
  pose proof (pad_length 2 (second (now env))).
  pose proof (stem_suffix_length base); lia.
Qed.

(** What the loop can return: a free versioned name up to 100, or the
    time-stamped name. *)
Lemma probe_shape (env : Env) (base : Path.t) (p : Path.t) :
  forall fuel counter s s1,
    counter <= 100 ->
    probe env fuel base counter s = (Ok p, s1) ->
    (exists k, k <= 100 /\ p = versioned base k)
    \/ p = timestamped env base.
Proof.
  induction fuel as [|fuel IH]; intros counter s s1 Hc; cbn [probe].
  - discriminate.
  - destruct (negb _).
    + intros [= <- _]; left; exists counter; split; [exact Hc | reflexivity].
    + destruct (Nat.ltb_spec 100 (counter + 1)).
      * intros [= <- _]; right; reflexivity.
      * apply IH; lia.
Qed.

(** X9: the next run does not take the name of the report just written.
    If the resolver chose a path other than the time-stamped fallback and a
    file has since been created there, then resolving the same base path
    again, whatever else has changed in the directory or on the clock, gives
    a different path. *)
Theorem next_run_gets_a_new_name
    (env env' : Env) (base p p' : Path.t) (s s1 s' s1' : State) :
  _get_unique_filename env base s = (Ok p, s1) ->
  p <> timestamped env base ->
  path_exists env' (Path.str p) = true ->
  _get_unique_filename env' base s' = (Ok p', s1') ->
  Path.str p' <> Path.str p.
Proof.
  intros Hfirst Hnot Hthere Hsecond Heq.
  destruct (unique_filename_total env' base s') as [q [s2 [Hrun [Hfree | Hstamp]]]];
    rewrite Hsecond in Hrun; injection Hrun as <- <-.
  - rewrite Heq, Hthere in Hfree; discriminate.
  - assert (Hlen : String.length (Path.str p) <= String.length (Path.str base) + 5).
    { unfold _get_unique_filename in Hfirst.
      destruct (negb _).
      - injection Hfirst as <- _; lia.
      - apply probe_shape in Hfirst as [[k [Hk ->]] | ->]; [|contradiction|lia].
        apply versioned_length; exact Hk. }
    pose proof (timestamped_length env' base) as Hlong.
    rewrite <- Hstamp, Heq in Hlong; lia.
Qed.

Lemma next_run_gets_a_new_name_witness :
  Path.str (Path.div "reports" "project_report_2025-01-25_v2.docx")
  <> Path.str World.todays_report.
Proof.
  apply (next_run_gets_a_new_name
           Sample.quiet
           (Sample.with_report "reports/project_report_2025-01-25.docx" Sample.quiet)
           World.todays_report World.todays_report
           (Path.div "reports" "project_report_2025-01-25_v2.docx")
           boot boot boot
           (with_stdout [MsgNewVersion "project_report_2025-01-25_v2.docx"] boot)).
  - reflexivity.
  - discriminate.
  - reflexivity.
  - vm_compute; reflexivity.
Defined.

(* ================================================================== *)
(** ** The sections one by one *)

(** X11: the chart section.  Without data it returns [False] and leaves
    the document alone.  With data and a document it raises in one case
    only: the description, which an override file can replace, has a text
    that python-docx refuses; this [ValueError] comes before the chart is
    begun, so no figure is opened and no image is written.  In every other
    case it returns whatever the backend does: it appends the heading and
    the description, returns [True] exactly when the backend has no fault,
    and the picture is in the document exactly then; when the image could
    not be read into the document, the paragraph made for it is left empty
    at the end. *)
Theorem chart_section_outcome (env : Env) (s : State) :
  (data s = None ->
   add_budget_chart env s
   = (Ok false, with_stdout (stdout s ++ [MsgNoDataForChart])%list s))
  /\ (forall df d,
        data s = Some df ->
        document s = Some d ->
        let description :=
          merged_blocks env "chart_description.md" (Some chart_desc) in
        (forallb Docx.accepts description = true ->
         exists success s',
           add_budget_chart env s = (Ok success, s')
           /\ (success = true <-> chart_fault env (chart_frame df) = None)
           /\ document s'
              = Some (d ++ Heading "Budget Visualization" 1
                        :: description
                        ++ (if success
                            then [Picture "budget_chart.png" chart_width]
                            else match chart_fault env (chart_frame df) with
                                 | Some AddPicture => [Paragraph "" Normal]
                                 | _ => []
                                 end))%list
           /\ (success = true ->
               chart_files s' = "budget_chart.png" :: chart_files s)
           /\ saved s' = saved s)
        /\ (forallb Docx.accepts description = false ->
            exists s',
              add_budget_chart env s = (Raise ValueError, s')
              /\ saved s' = saved s
              /\ chart_files s' = chart_files s
              /\ open_figures s' = open_figures s)).
Proof.
  split.
  - intros Hdata; unfold add_budget_chart, bind, get; rewrite Hdata; reflexivity.
  - intros df d Hdata Hd; cbv zeta.
    destruct (add_budget_chart_run env s df d Hdata Hd)
      as [s' [Hrun [_ [_ [_ Hsaved]]]]].
    split; intros Ha; rewrite Ha in Hrun.
    + destruct Hrun as [Hrun [Hdoc Hfiles]].
      eexists _, s'; split; [exact Hrun|].
      split; [|split; [|split; [|exact Hsaved]]].
      * destruct (chart_fault env (chart_frame df)); split; congruence.
      * rewrite Hdoc; destruct (chart_fault env (chart_frame df)) as [[]|];
          reflexivity.
      * rewrite Hfiles; destruct (chart_fault env (chart_frame df));
          [discriminate | reflexivity].
    + destruct Hrun as [Hrun [Hfiles Hfigs]].
      exists s'; repeat split; assumption.
Qed.

Lemma chart_section_outcome_witness :
  fst (add_budget_chart World.broken_chart (Sample.loaded World.scenario_A))
  = Ok false
  /\ fst (add_budget_chart (Sample.with_table World.scenario_A)
            (Sample.loaded World.scenario_A)) = Ok true
  /\ fst (add_budget_chart
            (World.with_file "chart_description.md"
               (FileText ("see" ++ String (ascii_of_nat 1) "")) World.quiet)
            (Sample.loaded World.scenario_A)) = Raise ValueError
  /\ fst (add_budget_chart Sample.quiet boot) = Ok false.
Proof.
  split; [|split; [|split]].
  - destruct (proj1 (proj2 (chart_section_outcome World.broken_chart
                              (Sample.loaded World.scenario_A))
                       World.scenario_A [] eq_refl eq_refl) eq_refl)
      as [success [s' [Hrun [Hiff _]]]].
    rewrite Hrun; cbn [fst]; f_equal.
    destruct success; [|reflexivity].
    destruct Hiff as [Hiff _]; specialize (Hiff eq_refl); discriminate.
  - destruct (proj1 (proj2 (chart_section_outcome (Sample.with_table World.scenario_A)
                              (Sample.loaded World.scenario_A))
                       World.scenario_A [] eq_refl eq_refl) eq_refl)
      as [success [s' [Hrun [Hiff _]]]].
    rewrite Hrun; cbn [fst]; f_equal.
    apply Hiff; reflexivity.
  - destruct (proj2 (proj2 (chart_section_outcome
                              (World.with_file "chart_description.md"
                                 (FileText ("see" ++ String (ascii_of_nat 1) ""))
                                 World.quiet)
                              (Sample.loaded World.scenario_A))
                       World.scenario_A [] eq_refl eq_refl) eq_refl)
      as [s' [Hrun _]].
    rewrite Hrun; reflexivity.
  - rewrite (proj1 (chart_section_outcome Sample.quiet boot) eq_refl); reflexivity.
Defined.

(** X12: saving never raises.  It returns [True] exactly when there is a
    document and the backend accepts the output path, and then the document
    is what was written there; in every other case it returns [False],
    prints the error and writes nothing.  The document and the data are left
    as they were. *)
Theorem save_reports_instead_of_raising (env : Env) (s : State) :
  exists success s',
    save_document env s = (Ok success, s')
    /\ (success = true
        <-> document s <> None /\ save_fails env (output_file s) = false)
    /\ saved s'
       = ((if success
           then match document s with
                | Some doc => [(output_file s, doc)]
                | None => []
                end
           else []) ++ saved s)%list
    /\ document s' = document s /\ data s' = data s.
Proof.
  destruct (save_document_cases env s)
    as [[doc [Hdoc [Hok Hrun]]] | [Hwhy Hrun]]; rewrite Hrun.
  - exists true; eexists; split; [reflexivity|].
    rewrite Hdoc, Hok; repeat split; try discriminate;
      try (destruct s; cbn in *; assumption).
  - exists false; eexists; split; [reflexivity|].
    split; [|destruct s; repeat split].
    split; [discriminate|].
    intros [Hd Hf]; destruct Hwhy; congruence.
Qed.

(* ================================================================== *)
(** ** Standard output is write-only *)

Lemma same_but_stdout_refl (s : State) : same_but_stdout s s.
Proof. repeat split. Qed.

Lemma agree_ret {A} (a : A) : agree (ret a) (ret a).
Proof. intros t1 t2 H; split; [reflexivity | exact H]. Qed.

Lemma agree_raise {A} (e : Exn) : agree (@raise A e) (raise e).
Proof. intros t1 t2 H; split; [reflexivity | exact H]. Qed.

Lemma agree_lift {A} (o : Outcome A) : agree (lift o) (lift o).
Proof. intros t1 t2 H; split; [reflexivity | exact H]. Qed.

Lemma agree_bind {A B} (m m' : M A) (k k' : A -> M B) :
  agree m m' -> (forall a, agree (k a) (k' a)) -> agree (bind m k) (bind m' k').
Proof.
  intros Hm Hk t1 t2 H; unfold bind.
  destruct (Hm t1 t2 H) as [E R].
  destruct (m t1) as [[a|e] u1], (m' t2) as [[a'|e'] u2]; cbn [fst snd] in *;
    try discriminate.
  - injection E as <-; apply Hk; exact R.
  - injection E as <-; split; [reflexivity | exact R].
Qed.

Lemma agree_try {A} (m m' : M A) (h h' : Exn -> M A) :
  agree m m' -> (forall e, agree (h e) (h' e)) ->
  agree (try_except m h) (try_except m' h').
Proof.
  intros Hm Hh t1 t2 H; unfold try_except.
  destruct (Hm t1 t2 H) as [E R].
  destruct (m t1) as [[a|e] u1], (m' t2) as [[a'|e'] u2]; cbn [fst snd] in *;
    try discriminate.
  - split; [exact E | exact R].
  - injection E as <-; apply Hh; exact R.
Qed.

Lemma agree_get {A} (k k' : State -> M A) :
  (forall s1 s2, same_but_stdout s1 s2 -> agree (k s1) (k' s2)) ->
  agree (bind get k) (bind get k').
Proof. intros Hk t1 t2 H; unfold bind, get; apply Hk; exact H. Qed.

Lemma agree_modify (f : State -> State) :
  (forall s1 s2, same_but_stdout s1 s2 -> same_but_stdout (f s1) (f s2)) ->
  agree (modify f) (modify f).
Proof. intros Hf t1 t2 H; split; [reflexivity | apply Hf; exact H]. Qed.

Ltac same_fields :=
  let s1 := fresh "s" in
  let s2 := fresh "s" in
  let H := fresh "H" in
  intros s1 s2 H; destruct s1, s2; unfold same_but_stdout in *; cbn in *;
  destruct H as [? [? [? [? [? [? ?]]]]]]; subst; repeat split.

Lemma agree_print (m : Msg) : agree (print m) (print m).
Proof. apply agree_modify; same_fields. Qed.

(** Printing is, but for standard output, doing nothing. *)
Lemma agree_print_ret (m : Msg) : agree (print m) (ret tt).
Proof. intros t1 t2; revert t1 t2; same_fields. Qed.

Lemma agree_set_document (d : option Document) :
  agree (set_document d) (set_document d).
Proof. apply agree_modify; same_fields. Qed.

Lemma agree_set_data (d : option DataFrame) : agree (set_data d) (set_data d).
Proof. apply agree_modify; same_fields. Qed.

Lemma agree_set_open_figures (n : nat) :
  agree (set_open_figures n) (set_open_figures n).
Proof. apply agree_modify; same_fields. Qed.

Lemma agree_set_fields (excel output : string) :
  agree (set_fields excel output) (set_fields excel output).
Proof. apply agree_modify; same_fields. Qed.

Lemma agree_record_saved : agree record_saved record_saved.
Proof. apply agree_modify; same_fields. Qed.

Lemma agree_record_chart_file (file : string) :
  agree (record_chart_file file) (record_chart_file file).
Proof. apply agree_modify; same_fields. Qed.

Lemma agree_for_each {A} (l : list A) (body : A -> M unit) :
  (forall a, agree (body a) (body a)) -> agree (for_each l body) (for_each l body).
Proof.
  intros Hb; induction l as [|a l IH]; cbn [for_each].
  - apply agree_ret.
  - apply agree_bind; [apply Hb | intros _; exact IH].
Qed.

Create HintDb agree.

#[local] Hint Resolve agree_ret agree_raise agree_lift agree_print
  agree_set_document agree_set_data agree_set_open_figures agree_set_fields
  agree_record_saved agree_record_chart_file : agree.

(** One step through a program and its copy: what is read from the state is
    the same on both sides, since the states differ in standard output
    only. *)
Ltac agree_step :=
  first
    [ solve [auto with agree]
    | match goal with
      | |- agree (match ?x with _ => _ end) (match ?x with _ => _ end) =>
          destruct x
      | |- agree (bind get _) (bind get _) =>
          apply agree_get;
          let s1 := fresh "s" in
          let s2 := fresh "s" in
          let H := fresh "H" in
          intros s1 s2 H; destruct s1, s2; unfold same_but_stdout in H;
          cbn [excel_file output_file document data open_figures saved
               chart_files] in *;
          destruct H as [? [? [? [? [? [? ?]]]]]]; subst
      | |- agree (bind _ _) (bind _ _) => apply agree_bind; [|intros ?]
      | |- agree (try_except _ _) (try_except _ _) => apply agree_try; [|intros ?]
      | |- agree (for_each _ _) (for_each _ _) => apply agree_for_each; intros ?
      end ].

Lemma agree_append_block (b : Block) : agree (append_block b) (append_block b).
Proof. unfold append_block; repeat agree_step. Qed.

Lemma agree_edit_last (f : Block -> Block) : agree (edit_last f) (edit_last f).
Proof. unfold edit_last; repeat agree_step. Qed.

#[local] Hint Resolve agree_append_block agree_edit_last : agree.

Lemma agree_add_text (text : string) (b : Block) :
  agree (add_text text b) (add_text text b).
Proof. unfold add_text; repeat agree_step. Qed.

Lemma agree_set_text (text : string) (put : string -> Block -> Block) :
  agree (set_text text put) (set_text text put).
Proof. unfold set_text; repeat agree_step. Qed.

#[local] Hint Resolve agree_add_text agree_set_text : agree.

Lemma agree_add_markdown_content (env : Env) (filename : string)
    (default_content : option string) :
  agree (add_markdown_content env filename default_content)
        (add_markdown_content env filename default_content).
Proof.
  unfold add_markdown_content, read_markdown_file, add_paragraphs, add_para,
    add_paragraph.
  repeat agree_step.
Qed.

#[local] Hint Resolve agree_add_markdown_content : agree.

Lemma agree_probe (env : Env) (base : Path.t) (fuel : nat) :
  forall counter,
    agree (probe env fuel base counter) (probe env fuel base counter).
Proof.
  induction fuel as [|fuel IH]; intros counter; cbn [probe].
  - apply agree_raise.
  - destruct (negb _); [repeat agree_step|].
    destruct (100 <? counter + 1)%nat; [apply agree_ret | apply IH].
Qed.

Lemma agree_init (env : Env) (excel : string) (output : option string) :
  agree (__init__ env excel output) (__init__ env excel output).
Proof.
  unfold __init__, _get_unique_filename; destruct output.
  - apply agree_set_fields.
  - apply agree_bind; [|intros ?; apply agree_set_fields].
    destruct (negb _); [apply agree_ret | apply agree_probe].
Qed.

Lemma agree_generate_report (env : Env) :
  agree (generate_report env) (generate_report env).
Proof.
  unfold generate_report, load_data, create_document, add_introduction,
    add_budget_table, add_key_points, add_budget_chart, save_document,
    add_heading, add_paragraph, backend; cbv zeta.
  repeat agree_step.
Qed.

(** X13: the verbose flag changes nothing but what is printed.  With the
    flag set or cleared the run has the same outcome, hence the same exit
    status, and ends with the same output path, document, data, open figures
    and saved files. *)
Theorem verbose_changes_only_the_output (env : Env) (args : Args) (s : State) :
  fst (main env (with_verbose true args) s)
  = fst (main env (with_verbose false args) s)
  /\ same_but_stdout (snd (main env (with_verbose true args) s))
                     (snd (main env (with_verbose false args) s))
  /\ exit_code env (with_verbose true args) s
     = exit_code env (with_verbose false args) s.
Proof.
  assert (H : agree (main env (with_verbose true args))
                    (main env (with_verbose false args))).
  { unfold main; cbn [with_verbose arg_verbose arg_input arg_output].
    apply agree_bind; [apply agree_print_ret | intros _].
    apply agree_bind; [apply agree_init | intros _].
    apply agree_bind; [apply agree_generate_report | intros ?].
    apply agree_ret. }
  destruct (H s s (same_but_stdout_refl s)) as [E R].
  split; [exact E|]; split; [exact R|].
  unfold exit_code; rewrite E; reflexivity.
Qed.

(* ================================================================== *)
(** ** ContentLoader: what can be appended *)

(** X2: whatever the override file and the default hold, the loader on an
    existing document does one of two things.  Either python-docx takes every
    text, and then the loader returns having appended paragraphs only, never
    a heading, a table or a picture, and never an empty one: the text of
    every block is not empty and has no white space at its end, and the text
    of a plain paragraph has none at its start either.  Or one of the texts
    has a character that is refused, and the loader raises [ValueError]. *)
Theorem loader_emits_nonempty_paragraphs
    (env : Env) (filename : string) (default_content : option string)
    (s : State) (d : Document) :
  document s = Some d ->
  let blocks := merged_blocks env filename default_content in
  Forall (fun b =>
            exists text style,
              b = Paragraph text style
              /\ text <> ""
              /\ PyStr.rstrip text = text
              /\ (style = Normal -> PyStr.strip text = text))
         blocks
  /\ (forallb Docx.accepts blocks = true ->
      exists s',
        add_markdown_content env filename default_content s = (Ok tt, s')
        /\ document s' = Some (d ++ blocks)%list
        /\ same_outside_document s s')
  /\ (forallb Docx.accepts blocks = false ->
      exists s',
        add_markdown_content env filename default_content s
        = (Raise ValueError, s')
        /\ saved s' = saved s).
Proof.
  intros Hd; cbv zeta.
  destruct (add_markdown_content_run env filename default_content s d Hd)
    as [s0 [Hrun Hs0]].
  split; [|split].
  - unfold merged_blocks; destruct (merged_content _ _ _);
      [apply content_blocks_plain | constructor].
  - intros Ha; rewrite (rendered_taken _ Ha) in Hrun.
    eexists; split; [exact Hrun|]; split; [reflexivity|].
    destruct Hs0 as [-> | [msg ->]]; destruct s; repeat split.
  - intros Ha; rewrite (rendered_refused _ Ha) in Hrun.
    eexists; split; [exact Hrun|].
    destruct Hs0 as [-> | [msg ->]]; destruct s; reflexivity.
Qed.

Lemma loader_emits_nonempty_paragraphs_witness :
  (exists s',
     add_markdown_content
       (World.with_file "introduction.md"
          (FileText ("  " ++ PyStr.nl ++ PyStr.nl ++ "- a " ++ PyStr.nl ++ "-" ++ PyStr.nl
                     ++ PyStr.nl ++ " b ")) World.quiet)
       "introduction.md" None World.blank_document = (Ok tt, s')
     /\ document s' = Some [Paragraph "a" ListBullet; Paragraph "b" Normal])
  /\ fst (add_markdown_content
            (World.with_file "introduction.md"
               (FileText ("a" ++ String (ascii_of_nat 1) "b")) World.quiet)
            "introduction.md" None World.blank_document)
     = Raise ValueError.
Proof.
  split.
  - destruct (proj1 (proj2 (loader_emits_nonempty_paragraphs
                (World.with_file "introduction.md"
                   (FileText ("  " ++ PyStr.nl ++ PyStr.nl ++ "- a " ++ PyStr.nl ++ "-"
                              ++ PyStr.nl ++ PyStr.nl ++ " b ")) World.quiet)
                "introduction.md" None World.blank_document [] eq_refl)) eq_refl)
      as [s' [Hrun [Hdoc _]]].
    exists s'; split; [exact Hrun | exact Hdoc].
  - destruct (proj2 (proj2 (loader_emits_nonempty_paragraphs
                (World.with_file "introduction.md"
                   (FileText ("a" ++ String (ascii_of_nat 1) "b")) World.quiet)
                "introduction.md" None World.blank_document [] eq_refl)) eq_refl)
      as [s' [Hrun _]].
    rewrite Hrun; reflexivity.
Defined.
